(** * BitingLip command-line interface: the gateway API client layer

    A shallow embedding of [cli/config.py], [cli/client.py], the [cli]
    entry point of [bitinglip.py], commands of [cli/commands] and functions
    of [cli/utils.py], together with the part of the libraries the client
    is built on that decides how many HTTP attempts a call makes and which
    exception reaches the client: [urllib3.util.retry.Retry] with the retry
    loop of [HTTPConnectionPool.urlopen], the adapter, the redirect loop and
    the exception classes of requests, and the coercion of environment
    values by pydantic.

    Python values are modelled by [pyval], dictionaries by [gmap string _],
    exceptions by the inductive [exn], and effects (HTTP attempts put on the
    wire, reads of a response body, terminal output, closing the session) by
    a trace of [event]s threaded through the small monad [M].  The world
    outside the program is a function from the number of the attempt and
    the request to a [reply]: the answer of the gateway, the failure of the
    exchange, or the refusal of requests to send the request at all.

    Left to the world, and not computed: what requests makes of a request
    when it prepares it (the quoting and normalisation of the URL, the
    encoding of the parameters and of the body, credentials taken from
    [~/.netrc]), and with it whether the request can be sent; the request
    that follows a redirect; whether the value of a [Retry-After] header can
    be read.  Not modelled: the pauses between attempts, a failure while
    the body of a response is read, floating-point numbers in JSON,
    characters above code point 255. *)

From stdpp Require Import base strings gmap list pretty.
From Stdlib Require Import ZArith Ascii String.
From Equations Require Import Equations.

#[local] Open Scope Z_scope.
#[local] Set Warnings "-register-all".

(** ** Python string methods used by the client *)

Module PyStr.

(** [c in chars] for a character and a string of characters. *)
Fixpoint mem (c : ascii) (chars : string) : bool :=
  match chars with
  | EmptyString => false
  | String a rest => if Ascii.eqb a c then true else mem c rest
  end.

(** [s.lstrip(chars)]: drop every leading character that is in [chars]. *)
Fixpoint lstrip (chars s : string) : string :=
  match s with
  | EmptyString => EmptyString
  | String a rest => if mem a chars then lstrip chars rest else s
  end.

(** [s.rstrip(chars)]: drop every trailing character that is in [chars]. *)
Fixpoint rstrip (chars s : string) : string :=
  match s with
  | EmptyString => EmptyString
  | String a rest =>
      match rstrip chars rest with
      | EmptyString => if mem a chars then EmptyString else String a EmptyString
      | kept => String a kept
      end
  end.

(** Truthiness of a [str]: non-empty. *)
Definition truthy (s : string) : bool :=
  match s with EmptyString => false | String _ _ => true end.

(** [s.upper()] on ASCII letters. *)
Definition upper_ascii (c : ascii) : ascii :=
  let n := N_of_ascii c in
  if ((97 <=? n) && (n <=? 122))%N then ascii_of_N (n - 32) else c.

Fixpoint upper (s : string) : string :=
  match s with
  | EmptyString => EmptyString
  | String a rest => String (upper_ascii a) (upper rest)
  end.

(** [n] copies of the separator ["/"]. *)
Fixpoint slashes (n : nat) : string :=
  match n with
  | O => EmptyString
  | S k => String "/" (slashes k)
  end.

(** The last character of a string, if any. *)
Fixpoint last_char (s : string) : option ascii :=
  match s with
  | EmptyString => None
  | String a EmptyString => Some a
  | String _ rest => last_char rest
  end.

(** The first character of a string, if any. *)
Definition first_char (s : string) : option ascii :=
  match s with
  | EmptyString => None
  | String a _ => Some a
  end.

End PyStr.

(** ** Python values, exceptions and outcomes *)

(** A decoded JSON document, as [json.loads] and [Response.json()] return it
    (floats are left out: no operation of the client inspects a number). *)
Inductive pyval : Type :=
| PNone
| PBool (b : bool)
| PInt (z : Z)
| PStr (s : string)
| PList (items : list pyval)
| PDict (d : gmap string pyval).

(** The subclasses of [requests.RequestException] that occur: the ones
    [HTTPAdapter.send] raises for a failed exchange ([ConnectionError],
    [ConnectTimeout], [ReadTimeout], [RetryError], [InvalidHeader]), the one
    of the redirect loop ([TooManyRedirects]), and the ones raised while a
    request is prepared and an adapter and a connection are chosen for it
    ([MissingSchema], [InvalidSchema], [InvalidURL], [InvalidJSONError]). *)
Inductive requests_exc : Type :=
| ConnectionError
| ConnectTimeout
| ReadTimeout
| RetryError
| InvalidHeader
| TooManyRedirects
| MissingSchema
| InvalidSchema
| InvalidURL
| InvalidJSONError.

(** The urllib3 exceptions of a failed exchange: the connection could not
    be set up in time ([ConnectTimeoutError]) or at all
    ([NewConnectionError]: refused, name not resolved), the answer did not
    arrive in time ([ReadTimeoutError]), the connection broke
    ([ProtocolError]: reset, aborted); [ResponseError] is the reason
    urllib3 gives when it ran out of retries on a status code;
    [_InvalidHeader] is [urllib3.exceptions.InvalidHeader], under the name
    [requests/adapters.py] imports it with. *)
Inductive urllib3_exc : Type :=
| ConnectTimeoutError
| NewConnectionError
| ReadTimeoutError
| ProtocolError
| ResponseError
| _InvalidHeader.

(** The exceptions that occur in the modelled code.
    - [BitingLipAPIError message status_code response] is the class of
      [cli/client.py];
    - [RequestException cls str] is an instance of a subclass of
      [requests.RequestException], [str] being its [str()];
    - [Urllib3Error cls str] and [MaxRetryError reason str] are the
      exceptions of urllib3, the second one carrying the exception (its
      class) that caused it;
    - [JSONDecodeError] is raised by [json.loads] and [Response.json()];
    - [AttributeError] is raised by a method call on an object that lacks
      the method;
    - [SettingsError field] is the [ValidationError] pydantic raises when
      the value found for a field cannot be coerced to the field's type,
      [field] being the first of the fields it lists;
    - [ValueError] and [TypeError] are the built-in classes. *)
Inductive exn : Type :=
| BitingLipAPIError (message : pyval) (status_code : option Z)
                    (response : option pyval)
| RequestException (cls : requests_exc) (str : string)
| Urllib3Error (cls : urllib3_exc) (str : string)
| MaxRetryError (reason : urllib3_exc) (str : string)
| JSONDecodeError
| AttributeError (str : string)
| SettingsError (field : string)
| ValueError (str : string)
| TypeError (str : string).

(** A call either returns a value or raises. *)
Inductive result (A : Type) : Type :=
| Return (a : A)
| Raise (e : exn).
Arguments Return {A} a.
Arguments Raise {A} e.

Definition is_BitingLipAPIError (e : exn) : bool :=
  match e with BitingLipAPIError _ _ _ => true | _ => false end.


(** ** cli/config.py *)

Module Config.

(** The fields of [CLIConfig] that the client layer reads.  The class is a
    pydantic [BaseSettings]: the fields are declared with a type and a
    default and carry no validator.  The other fields ([output_format],
    [no_color], [log_level], [log_file], [default_page_size],
    [watch_interval] and the three service URLs) are validated when the
    object is built and not read afterwards by the modelled code. *)
Record CLIConfig : Type := mkCLIConfig {
  api_url : string;
  api_timeout : Z;
  api_retries : Z;
  api_key : option string;
  quiet : bool;
  verbose : bool
}.

(** The declared [Field(default=...)] values. *)
Definition default_api_url : string := "http://localhost:8080".
Definition default_api_timeout : Z := 30.
Definition default_api_retries : Z := 3.

Definition defaults : CLIConfig :=
  {| api_url := default_api_url;
     api_timeout := default_api_timeout;
     api_retries := default_api_retries;
     api_key := None;
     quiet := false;
     verbose := false |}.

(** [get_api_url(config, endpoint)]. *)
Definition get_api_url (config : CLIConfig) (endpoint : string) : string :=
  let base_url := PyStr.rstrip "/" (api_url config) in
  if PyStr.truthy endpoint then
    let endpoint := PyStr.lstrip "/" endpoint in
    base_url +:+ "/" +:+ endpoint
  else base_url.

(** *** Construction: [CLIConfig()]

    [BaseSettings] fills each field from the environment variable
    [BITINGLIP_<FIELD>] (the [env_prefix] of the inner [Config] class)
    when it is set, and from the declared default otherwise.  [env] is the
    environment the settings class sees (the process environment and the
    entries of the [.env] file), its names in upper case.  Environment
    values are strings, coerced to the type of the field by pydantic
    (version 2, in its lax mode); a value that cannot be coerced is a
    validation error.  No field declares a validator, so the value found
    is stored as it is. *)

Definition digit_of (c : ascii) : option Z :=
  let n := N_of_ascii c in
  if ((48 <=? n) && (n <=? 57))%N then Some (Z.of_N (n - 48)) else None.

(** The white space pydantic trims from both ends of the text of a
    number: tab, line feed, vertical tab, form feed, carriage return,
    space, next line and no-break space. *)
Definition blanks : string :=
  string_of_list_ascii (map ascii_of_nat [9; 10; 11; 12; 13; 32; 133; 160]%nat).

Definition trim (s : string) : string :=
  PyStr.rstrip blanks (PyStr.lstrip blanks s).

(** The fraction of a number read as an integer: one or more zeros. *)
Fixpoint parse_zeros (s : string) : bool :=
  match s with
  | String "0" EmptyString => true
  | String "0" rest => parse_zeros rest
  | _ => false
  end.

(** What follows a digit: more digits, each one possibly preceded by a
    single underscore, and then nothing or a point and zeros. *)
Fixpoint parse_digits (acc : Z) (s : string) : option Z :=
  match s with
  | EmptyString => Some acc
  | String c rest =>
      if Ascii.eqb c "." then (if parse_zeros rest then Some acc else None)
      else if Ascii.eqb c "_" then
        match rest with
        | String c' rest' =>
            match digit_of c' with
            | Some d => parse_digits (10 * acc + d) rest'
            | None => None
            end
        | EmptyString => None
        end
      else
        match digit_of c with
        | Some d => parse_digits (10 * acc + d) rest
        | None => None
        end
  end.

Definition parse_number (s : string) : option Z :=
  match s with
  | String c rest =>
      match digit_of c with
      | Some d => parse_digits d rest
      | None => None
      end
  | EmptyString => None
  end.

(** The longest text of an integer pydantic reads: 4300 characters, the
    sign [-] and the digits without leading zeros counted. *)
Definition int_max_str_digits : Z := 4300.

(** The coercion of a string to an [int] field: white space around the
    number is dropped, then come an optional sign, decimal digits that
    single underscores may separate, and an optional fraction of zeros
    (["5"], ["-5"], ["+5"], ["007"], ["1_000"], ["5.0"] and [" 7 "] are
    read; [""], ["5."], ["5.5"], ["1e3"], ["0x10"] and ["1__0"] are
    not). *)
Definition parse_int (s : string) : option Z :=
  let '(negative, body) :=
    match trim s with
    | String "-" rest => (true, rest)
    | String "+" rest => (false, rest)
    | other => (false, other)
    end in
  match parse_number body with
  | Some n =>
      if n <? 10 ^ (if negative then int_max_str_digits - 1 else int_max_str_digits)
      then Some (if negative then - n else n)
      else None
  | None => None
  end.

(** The coercion of a string to a [bool] field: the usual spellings, in
    any case. *)
Definition parse_bool (s : string) : option bool :=
  let u := PyStr.upper s in
  if bool_decide (u ∈ ["1"; "TRUE"; "T"; "YES"; "Y"; "ON"]%string) then Some true
  else if bool_decide (u ∈ ["0"; "FALSE"; "F"; "NO"; "N"; "OFF"]%string) then Some false
  else None.

(** The coercion of a string to a field whose type is an [Enum] with
    the given values: the string has to be one of them. *)
Definition parse_enum (values : list string) (s : string) : option string :=
  if bool_decide (s ∈ values) then Some s else None.

(** The values of [OutputFormat] and of [LogLevel]. *)
Definition OutputFormat : list string := ["table"; "json"; "yaml"; "csv"]%string.
Definition LogLevel : list string := ["DEBUG"; "INFO"; "WARNING"; "ERROR"]%string.

(** One field read from the environment: [parse] coerces the raw string. *)
Definition env_field {A : Type} (env : gmap string string) (name : string)
    (parse : string → option A) (default : A) : result A :=
  match env !! ("BITINGLIP_" +:+ name)%string with
  | None => Return default
  | Some raw =>
      match parse raw with
      | Some v => Return v
      | None => Raise (SettingsError name)
      end
  end.

(** The fields in the order of their declaration; the [str] and
    [Optional[str]] ones take any string.  pydantic validates every
    field and reports those that fail in one [ValidationError];
    [SettingsError] carries the name of the first of them. *)
Definition CLIConfig_new (env : gmap string string) : result CLIConfig :=
  match env_field env "API_URL" Some default_api_url with
  | Raise e => Raise e
  | Return url =>
  match env_field env "API_TIMEOUT" parse_int default_api_timeout with
  | Raise e => Raise e
  | Return timeout =>
  match env_field env "API_RETRIES" parse_int default_api_retries with
  | Raise e => Raise e
  | Return retries =>
  match env_field env "OUTPUT_FORMAT" (parse_enum OutputFormat) "table"%string with
  | Raise e => Raise e
  | Return _ =>
  match env_field env "NO_COLOR" parse_bool false with
  | Raise e => Raise e
  | Return _ =>
  match env_field env "QUIET" parse_bool false with
  | Raise e => Raise e
  | Return q =>
  match env_field env "VERBOSE" parse_bool false with
  | Raise e => Raise e
  | Return v =>
  match env_field env "LOG_LEVEL" (parse_enum LogLevel) "INFO"%string with
  | Raise e => Raise e
  | Return _ =>
  match env_field env "DEFAULT_PAGE_SIZE" parse_int 20 with
  | Raise e => Raise e
  | Return _ =>
  match env_field env "WATCH_INTERVAL" parse_int 5 with
  | Raise e => Raise e
  | Return _ =>
      Return {| api_url := url;
                api_timeout := timeout;
                api_retries := retries;
                api_key := env !! "BITINGLIP_API_KEY"%string;
                quiet := q;
                verbose := v |}
  end end end end end end end end end end.

(** *** The [cli] group of [bitinglip.py]

    The options of the group as click hands them to the function, [None]
    standing for an option that was not given. *)
Record Flags : Type := mkFlags {
  flag_api_url : option string;
  flag_timeout : option Z;
  flag_verbose : bool;
  flag_quiet : bool;
  flag_api_key : option string
}.

Definition no_flags : Flags :=
  {| flag_api_url := None; flag_timeout := None; flag_verbose := false;
     flag_quiet := false; flag_api_key := None |}.

(** Truthiness of an optional [str] and of an optional [int]. *)
Definition truthy_str (o : option string) : bool :=
  match o with Some s => PyStr.truthy s | None => false end.

Definition truthy_int (o : option Z) : bool :=
  match o with Some z => negb (z =? 0) | None => false end.

(** [ctx.ensure_object(CLIConfig)] followed by the overrides
    [if api_url: config.api_url = api_url] and so on. *)
Definition cli (flags : Flags) (env : gmap string string) : result CLIConfig :=
  match CLIConfig_new env with
  | Raise e => Raise e
  | Return config =>
      Return
        {| api_url :=
             if truthy_str (flag_api_url flags)
             then default (api_url config) (flag_api_url flags)
             else api_url config;
           api_timeout :=
             if truthy_int (flag_timeout flags)
             then default (api_timeout config) (flag_timeout flags)
             else api_timeout config;
           api_retries := api_retries config;
           api_key :=
             if truthy_str (flag_api_key flags)
             then flag_api_key flags
             else api_key config;
           quiet := if flag_quiet flags then true else quiet config;
           verbose := if flag_verbose flags then true else verbose config |}
  end.

End Config.

(** ** The wire, and the effects of a call *)

(** One HTTP request as the client hands it to requests: the method, the
    URL, the parameters, the JSON body and the timeout given to
    [session.request], with the headers of the session.  What goes on the
    wire is what requests prepares from them (the URL quoted and
    normalised, the parameters and the body encoded, credentials of
    [~/.netrc] put in place of the [Authorization] header); that form is
    not computed here. *)
Record Request : Type := mkRequest {
  rq_method : string;
  rq_url : string;
  rq_headers : gmap string string;
  rq_params : option (gmap string pyval);
  rq_json : option pyval;
  rq_timeout : Z
}.

(** The value of a [Retry-After] header, by what
    [Retry.parse_retry_after] makes of it: a number of seconds (digits,
    possibly with white space around them), a date
    ([email.utils.parsedate_tz] reads it), or neither. *)
Inductive retry_after_header : Type :=
| Seconds (value : string)
| HttpDate (value : string)
| Unreadable (value : string).

Definition header_value (h : retry_after_header) : string :=
  match h with
  | Seconds value | HttpDate value | Unreadable value => value
  end.

(** One HTTP response.  [json_body] is what [json.loads] makes of [text]:
    [None] when the text is not a JSON document ([Response.json()] then
    raises [JSONDecodeError]).  [retry_after] is the [Retry-After] header,
    if there is one.  [redirect] is [Some next] when the response carries
    a non-empty [Location] header, [next] being the request
    [Session.resolve_redirects] builds for it from the request that was
    answered (the target joined with its URL and quoted again, the method
    rebuilt, the body and its headers dropped unless the status is 307 or
    308, the credentials rebuilt). *)
Record Response : Type := mkResponse {
  status_code : Z;
  reason : string;
  text : string;
  json_body : option pyval;
  retry_after : option retry_after_header;
  redirect : option Request
}.

(** [bool(response.headers.get("Retry-After"))]. *)
Definition has_retry_after (response : Response) : bool :=
  match retry_after response with
  | Some h => PyStr.truthy (header_value h)
  | None => false
  end.

(** Why a request is not put on the wire.  Before [session.request]
    calls [urlopen] it prepares the request, chooses an adapter and a
    connection for its URL and builds the time limits; each step can
    fail.
    - [BadTimeout str] is the [ValueError] urllib3's [Timeout] raises for
      a timeout that is not positive;
    - [BadRequest cls str] is an instance of a subclass of
      [requests.RequestException]: [MissingSchema], [InvalidSchema] or
      [InvalidURL] for a URL requests cannot use, [InvalidHeader] for a
      header value, [InvalidJSONError] for a body. *)
Inductive refusal : Type :=
| BadTimeout (str : string)
| BadRequest (cls : requests_exc) (str : string).

Definition exception_of (why : refusal) : exn :=
  match why with
  | BadTimeout str => ValueError str
  | BadRequest cls str => RequestException cls str
  end.

(** What one attempt comes to: the request is put on the wire and the
    gateway answers, or it is put on the wire and the exchange fails with
    a urllib3 exception whose [str()] is [msg], or it is not put on the
    wire at all.  A request whose timeout is not positive or whose URL
    requests cannot use is never sent: the reply to it is [Unsent]. *)
Inductive reply : Type :=
| Answers (r : Response)
| Fails (cls : urllib3_exc) (msg : string)
| Unsent (why : refusal).

(** What a command prints. *)
Inductive output : Type :=
| SuccessMessage (msg : string)
| ErrorMessage (msg : string)
| FailureMessage (prefix : string) (e : exn)
| ApiErrorReport (e : exn)
| JsonDump (v : pyval).

(** The observable effects.  [Sent rq] is one attempt put on the wire
    for the request [rq]. *)
Inductive event : Type :=
| Sent (rq : Request)
| JsonRead
| TextRead
| Logged (method url : string) (status : Z)
| Printed (o : output)
| SessionClosed.

Definition trace : Type := list event.

(** The number of HTTP attempts recorded in a trace. *)
Fixpoint attempts (tr : trace) : nat :=
  match tr with
  | [] => 0%nat
  | Sent _ :: rest => S (attempts rest)
  | _ :: rest => attempts rest
  end.

(** The number of reads of a response body recorded in a trace. *)
Fixpoint body_reads (tr : trace) : nat :=
  match tr with
  | [] => 0%nat
  | JsonRead :: rest | TextRead :: rest => S (body_reads rest)
  | _ :: rest => body_reads rest
  end.

(** A computation extends the trace and returns or raises. *)
Definition M (A : Type) : Type := trace → result A * trace.

#[global] Instance M_ret : MRet M := λ A a tr, (Return a, tr).

#[global] Instance M_bind : MBind M := λ A B f m tr,
  match m tr with
  | (Return a, tr') => f a tr'
  | (Raise e, tr') => (Raise e, tr')
  end.

Definition raise {A : Type} (e : exn) : M A := λ tr, (Raise e, tr).

Definition emit (ev : event) : M unit := λ tr, (Return tt, tr ++ [ev]).

(** [try: body except ...]: [handler e] is the [except] clause that matches
    [e], if there is one. *)
Definition try_except {A : Type} (body : M A) (handler : exn → option (M A)) : M A :=
  λ tr,
    match body tr with
    | (Return a, tr') => (Return a, tr')
    | (Raise e, tr') =>
        match handler e with
        | Some h => h tr'
        | None => (Raise e, tr')
        end
    end.

(** [try: body finally: cleanup]. *)
Definition try_finally {A : Type} (body : M A) (cleanup : M unit) : M A :=
  λ tr,
    match body tr with
    | (r, tr') =>
        match cleanup tr' with
        | (Return _, tr'') => (r, tr'')
        | (Raise e, tr'') => (Raise e, tr'')
        end
    end.

(** Running a computation from the empty trace. *)
Definition run {A : Type} (m : M A) : result A * trace := m [].

(** ** urllib3: [Retry] and the retry loop of [HTTPConnectionPool.urlopen]

    The library code the client configures with
    [Retry(total=config.api_retries, status_forcelist=[...],
    backoff_factor=1, raise_on_status=False)] and runs through
    [HTTPAdapter(max_retries=retry_strategy)].  requests calls [urlopen]
    with [redirect=False], so the redirect branch of [urlopen] is not
    taken; a reply is the final answer of an exchange. *)

Module Urllib3.

(** [Retry.DEFAULT_ALLOWED_METHODS]: the idempotent methods. *)
Definition DEFAULT_ALLOWED_METHODS : list string :=
  ["HEAD"; "GET"; "PUT"; "DELETE"; "OPTIONS"; "TRACE"]%string.

(** [Retry.RETRY_AFTER_STATUS_CODES]. *)
Definition RETRY_AFTER_STATUS_CODES : list Z := [413; 429; 503].

(** A [Retry] object.  The client passes [total], [status_forcelist],
    [backoff_factor] and [raise_on_status]; the counters [connect],
    [read], [redirect], [status] and [other] keep their default [None]
    and are left out; [allowed_methods] and [respect_retry_after_header]
    are fields because [is_retry] reads them. *)
Record Retry : Type := mkRetry {
  total : Z;
  status_forcelist : list Z;
  allowed_methods : list string;
  backoff_factor : Z;
  raise_on_status : bool;
  respect_retry_after_header : bool
}.

(** [Retry(total=..., status_forcelist=..., backoff_factor=...,
    raise_on_status=...)], every other argument at its default. *)
Definition new (total : Z) (status_forcelist : list Z) (backoff_factor : Z)
    (raise_on_status : bool) : Retry :=
  {| total := total;
     status_forcelist := status_forcelist;
     allowed_methods := DEFAULT_ALLOWED_METHODS;
     backoff_factor := backoff_factor;
     raise_on_status := raise_on_status;
     respect_retry_after_header := true |}.

(** Truthiness of a list: non-empty. *)
Definition nonempty {A : Type} (l : list A) : bool :=
  match l with [] => false | _ :: _ => true end.

(** [Retry._is_method_retryable]. *)
Definition _is_method_retryable (self : Retry) (method : string) : bool :=
  if nonempty (allowed_methods self)
     && negb (bool_decide (PyStr.upper method ∈ allowed_methods self))
  then false
  else true.

(** [Retry.is_retry]. *)
Definition is_retry (self : Retry) (method : string) (status : Z)
    (has_retry_after : bool) : bool :=
  if negb (_is_method_retryable self method) then false
  else if nonempty (status_forcelist self)
          && bool_decide (status ∈ status_forcelist self)
  then true
  else negb (total self =? 0)
       && respect_retry_after_header self
       && has_retry_after
       && bool_decide (status ∈ RETRY_AFTER_STATUS_CODES).

(** [Retry.is_exhausted]: the counters that are neither [None] nor [0]
    are collected, and the object is exhausted when the least of them is
    negative.  Only [total] is set. *)
Definition is_exhausted (self : Retry) : bool :=
  if total self =? 0 then false else total self <? 0.

Definition _is_connection_error (cls : urllib3_exc) : bool :=
  match cls with
  | ConnectTimeoutError | NewConnectionError => true
  | _ => false
  end.

Definition _is_read_error (cls : urllib3_exc) : bool :=
  match cls with
  | ReadTimeoutError | ProtocolError => true
  | _ => false
  end.

(** The texts [ResponseError.GENERIC_ERROR] and
    [ResponseError.SPECIFIC_ERROR.format(status_code=...)]. *)
Definition GENERIC_ERROR : string := "too many error responses".
Definition SPECIFIC_ERROR (status : Z) : string :=
  "too many " +:+ pretty status +:+ " error responses".

(** [Retry.increment(method, url, response=..., error=...)]: [error] is
    the exception of the failed exchange, [None] when a response came.
    Returns the new [Retry], re-raises a read error of a method that is
    not retryable, and raises [MaxRetryError] when the new object is
    exhausted.  The [MaxRetryError] is given the text of its cause; the
    wording urllib3 wraps around it is not spelled out. *)
Definition increment (self : Retry) (method : string)
    (response : option Response)
    (error : option (urllib3_exc * string)) : result Retry :=
  let new_retry :=
    {| total := total self - 1;
       status_forcelist := status_forcelist self;
       allowed_methods := allowed_methods self;
       backoff_factor := backoff_factor self;
       raise_on_status := raise_on_status self;
       respect_retry_after_header := respect_retry_after_header self |} in
  match error with
  | Some (cls, msg) =>
      if negb (_is_connection_error cls) && _is_read_error cls
         && negb (_is_method_retryable self method)
      then Raise (Urllib3Error cls msg)
      else if is_exhausted new_retry then Raise (MaxRetryError cls msg)
      else Return new_retry
  | None =>
      let cause :=
        match response with
        | Some r =>
            if status_code r =? 0 then GENERIC_ERROR
            else SPECIFIC_ERROR (status_code r)
        | None => GENERIC_ERROR
        end in
      if is_exhausted new_retry
      then Raise (MaxRetryError ResponseError cause)
      else Return new_retry
  end.

(** [Retry.parse_retry_after], [Retry.get_retry_after] and
    [Retry.sleep(response)], by whether they return or raise (the pause
    itself is not modelled).  [sleep] reads the header of the response
    whenever [respect_retry_after_header] is set. *)
Definition parse_retry_after (h : retry_after_header) : result unit :=
  match h with
  | Seconds _ | HttpDate _ => Return tt
  | Unreadable value =>
      Raise (Urllib3Error _InvalidHeader ("Invalid Retry-After header: " +:+ value))
  end.

Definition get_retry_after (response : Response) : result unit :=
  match retry_after response with
  | None => Return tt
  | Some h => parse_retry_after h
  end.

Definition sleep (self : Retry) (response : Response) : result unit :=
  if respect_retry_after_header self then get_retry_after response
  else Return tt.

(** What [urlopen] does once an attempt has come to [rep]: hand a result
    to its caller, call itself again with a new [Retry], or, when the
    request was not sent, let the exception pass. *)
Inductive verdict : Type :=
| Done (r : result Response)
| Again (retries : Retry)
| Refused (e : exn).

Definition after_attempt (retries : Retry) (method : string) (rep : reply) : verdict :=
  match rep with
  | Unsent why => Refused (exception_of why)
  | Fails cls msg =>
      match increment retries method None (Some (cls, msg)) with
      | Raise e => Done (Raise e)
      | Return new_retry => Again new_retry
      end
  | Answers response =>
      if is_retry retries method (status_code response) (has_retry_after response)
      then
        match increment retries method (Some response) None with
        | Raise e =>
            if raise_on_status retries then Done (Raise e)
            else Done (Return response)
        | Return new_retry =>
            match sleep new_retry response with
            | Raise e => Done (Raise e)
            | Return _ => Again new_retry
            end
        end
      else Done (Return response)
  end.

Lemma increment_total (self : Retry) (method : string)
    (response : option Response)
    (error : option (urllib3_exc * string)) (new_retry : Retry) :
  increment self method response error = Return new_retry →
  total new_retry = total self - 1 ∧ 0 <= total new_retry.
Proof.
  unfold increment, is_exhausted; cbn [total].
  destruct (Z.eqb_spec (total self - 1) 0) as [Hz|Hz];
    destruct (Z.ltb_spec (total self - 1) 0) as [Hn|Hn];
    destruct error as [[cls msg]|];
    try destruct (negb (_is_connection_error cls) && _is_read_error cls
                  && negb (_is_method_retryable self method));
    try discriminate; intros [= <-]; cbn [total]; lia.
Qed.

Lemma after_attempt_decreases (retries : Retry) (method : string) (rep : reply)
    (new_retry : Retry) :
  after_attempt retries method rep = Again new_retry →
  (Z.to_nat (total new_retry) < Z.to_nat (total retries))%nat.
Proof.
  unfold after_attempt.
  destruct rep as [response|cls msg|why]; [| |discriminate].
  - destruct (is_retry _ _ _ _); [|discriminate].
    destruct (increment retries method (Some response) None) as [nr|e] eqn:Hinc.
    + destruct (sleep nr response); [|discriminate].
      intros [= <-]. apply increment_total in Hinc. lia.
    + destruct (raise_on_status retries); discriminate.
  - destruct (increment retries method None (Some (cls, msg))) as [nr|e] eqn:Hinc;
      [|discriminate].
    intros [= <-]. apply increment_total in Hinc. lia.
Qed.

(** The exceptions [urlopen] raises: a re-raised read error, the
    [InvalidHeader] of an unreadable [Retry-After], [MaxRetryError], or the
    exception of a refusal. *)
Definition raised_by_urlopen (e : exn) : Prop :=
  match e with
  | Urllib3Error cls _ => _is_read_error cls = true ∨ cls = _InvalidHeader
  | MaxRetryError _ _ => True
  | RequestException _ _ | ValueError _ => True
  | _ => False
  end.

Definition inspect {A : Type} (a : A) : {b : A | a = b} := exist _ a eq_refl.

Section Pool.

(** The world, seen from the connection pool: what the attempt number
    [k] (counted from 0 over the life of the trace) with request [rq]
    comes to. *)
Variable server : nat → Request → reply.

(** [HTTPConnectionPool.urlopen(method, url, ..., retries=retries)]:
    one exchange, then the verdict; the recursive call is the one of
    the library. *)
Equations? urlopen (retries : Retry) (rq : Request) (tr : trace)
  : result Response * trace
  by wf (Z.to_nat (total retries)) lt :=
  urlopen retries rq tr
    with inspect (after_attempt retries (rq_method rq) (server (attempts tr) rq)) := {
    | exist _ (Done r) _ := (r, tr ++ [Sent rq]);
    | exist _ (Again new_retry) Hv := urlopen new_retry rq (tr ++ [Sent rq]);
    | exist _ (Refused e) _ := (Raise e, tr) }.
Proof. by apply after_attempt_decreases in Hv. Qed.

End Pool.

End Urllib3.

(** ** requests: [Session], [HTTPAdapter.send] and [Response] *)

Module Requests.

(** [requests.models.REDIRECT_STATI] and
    [requests.models.DEFAULT_REDIRECT_LIMIT]. *)
Definition REDIRECT_STATI : list Z := [301; 302; 303; 307; 308].
Definition DEFAULT_REDIRECT_LIMIT : nat := 30.

(** A session: the headers sent with every request, the [Retry] of the
    adapter mounted for [http://] and [https://], and the number of
    redirects it follows. *)
Record Session : Type := mkSession {
  headers : gmap string string;
  max_retries : Urllib3.Retry;
  max_redirects : nat
}.

(** The exception [HTTPAdapter.send] raises in place of the one
    [urlopen] raised; an exception it has no clause for passes
    unchanged.  The text of the urllib3 exception is kept as the text of
    the new one; the wording requests and urllib3 wrap around it is not
    spelled out. *)
Definition translate (e : exn) : exn :=
  match e with
  | Urllib3Error ProtocolError msg => RequestException ConnectionError msg
  | MaxRetryError ConnectTimeoutError msg => RequestException ConnectTimeout msg
  | MaxRetryError ResponseError msg => RequestException RetryError msg
  | MaxRetryError _ msg => RequestException ConnectionError msg
  | Urllib3Error ReadTimeoutError msg => RequestException ReadTimeout msg
  | Urllib3Error _InvalidHeader msg => RequestException InvalidHeader msg
  | other => other
  end.

(** [response.json()]. *)
Definition json (response : Response) : M pyval :=
  emit JsonRead;;
  match json_body response with
  | Some v => mret v
  | None => raise JSONDecodeError
  end.

(** [response.text]. *)
Definition text_of (response : Response) : M string :=
  emit TextRead;; mret (text response).

(** Whether a reply is a refusal. *)
Definition refused (rep : reply) : bool :=
  match rep with
  | Unsent _ => true
  | _ => false
  end.

(** [Session.get_redirect_target(response)]: the response is a redirect
    ([Response.is_redirect]: a [Location] header and a status of
    [REDIRECT_STATI]) and its target is not empty. *)
Definition get_redirect_target (response : Response) : option Request :=
  if bool_decide (status_code response ∈ REDIRECT_STATI) then redirect response
  else None.

Section Adapter.

Variable server : nat → Request → reply.

(** [HTTPAdapter.send(request, timeout=...)]. *)
Definition send (retries : Urllib3.Retry) (rq : Request) : M Response :=
  try_except (Urllib3.urlopen server retries rq)
             (λ e, Some (raise (translate e))).

(** [Session.resolve_redirects], as [Session.send] runs it: as long as
    the response is a redirect, the request built for its target is sent
    through the adapter, with the [Retry] of the adapter afresh; [budget]
    is the number of redirects that may still be followed. *)
Fixpoint resolve_redirects (self : Session) (budget : nat) (response : Response)
  : M Response :=
  match get_redirect_target response with
  | None => mret response
  | Some next =>
      match budget with
      | O =>
          raise (RequestException TooManyRedirects
                   ("Exceeded " +:+ pretty (Z.of_nat (max_redirects self))
                    +:+ " redirects."))
      | S budget' =>
          response' ← send (max_retries self) next;
          resolve_redirects self budget' response'
      end
  end.

(** [session.request(method=..., url=..., timeout=..., params=...,
    json=...)]: the request is sent through the adapter and redirects
    are followed ([allow_redirects] is left at its default). *)
Definition request (self : Session) (method url : string) (timeout : Z)
    (params : option (gmap string pyval)) (body : option pyval) : M Response :=
  response ← send (max_retries self)
                {| rq_method := method;
                   rq_url := url;
                   rq_headers := headers self;
                   rq_params := params;
                   rq_json := body;
                   rq_timeout := timeout |};
  resolve_redirects self (max_redirects self) response.

End Adapter.

(** [session.close()]. *)
Definition close (self : Session) : M unit := emit SessionClosed.

End Requests.

(** ** Operations on decoded values *)

(** [type(v).__name__]. *)
Definition type_name (v : pyval) : string :=
  match v with
  | PNone => "NoneType"
  | PBool _ => "bool"
  | PInt _ => "int"
  | PStr _ => "str"
  | PList _ => "list"
  | PDict _ => "dict"
  end.

(** [obj.get(key, dflt)]: a method of [dict] only. *)
Definition py_get (obj : pyval) (key : string) (dflt : pyval) : M pyval :=
  match obj with
  | PDict d => mret (default dflt (d !! key))
  | _ => raise (AttributeError ("'" +:+ type_name obj +:+ "' object has no attribute 'get'"))
  end.

(** The dictionary [{"message": msg}]. *)
Definition message_dict (msg : string) : pyval :=
  PDict {[ "message"%string := PStr msg ]}.

(** ** cli/client.py *)

Module Client.

Import Config.

Record BitingLipClient : Type := mkClient {
  config : CLIConfig;
  base_url : string;
  timeout : Z;
  session : Requests.Session
}.

(** The keyword arguments a facade passes on to [session.request]. *)
Record kwargs : Type := mkKwargs {
  params : option (gmap string pyval);
  json : option pyval
}.

Definition no_kwargs : kwargs := {| params := None; json := None |}.
Definition with_params (p : gmap string pyval) : kwargs :=
  {| params := Some p; json := None |}.
Definition with_json (v : pyval) : kwargs :=
  {| params := None; json := Some v |}.

(** [BitingLipClient.__init__]. *)
Definition __init__ (config : CLIConfig) : BitingLipClient :=
  let retry_strategy :=
    Urllib3.new (api_retries config) [429; 500; 502; 503; 504] 1 false in
  let headers : gmap string string :=
    {[ "Content-Type" := "application/json";
       "User-Agent" := "BitingLip-CLI/1.0.0" ]}%string in
  let headers :=
    if truthy_str (api_key config)
    then <[ "Authorization"%string :=
            ("Bearer " +:+ default EmptyString (api_key config))%string ]> headers
    else headers in
  {| config := config;
     base_url := api_url config;
     timeout := api_timeout config;
     session := {| Requests.headers := headers;
                   Requests.max_retries := retry_strategy;
                   Requests.max_redirects := Requests.DEFAULT_REDIRECT_LIMIT |} |}.

(** The message [f'HTTP {response.status_code}: {response.reason}']. *)
Definition http_message (response : Response) : pyval :=
  PStr ("HTTP " +:+ pretty (status_code response) +:+ ": " +:+ reason response).

(** What the call [logger.info("API request made", ...)] leaves in the
    trace: one entry in verbose mode. *)
Definition logged (self : BitingLipClient) (method url : string)
    (response : Response) : trace :=
  if verbose (config self)
  then [Logged method url (status_code response)]
  else [].

(** The request a call of [_make_request] hands to [session.request]. *)
Definition request_of (self : BitingLipClient) (method endpoint : string)
    (kw : kwargs) : Request :=
  {| rq_method := method;
     rq_url := get_api_url (config self) endpoint;
     rq_headers := Requests.headers (session self);
     rq_params := params kw;
     rq_json := json kw;
     rq_timeout := timeout self |}.

(** The clause [except json.JSONDecodeError: ...]. *)
Definition except_JSONDecodeError {A : Type} (h : M A) (e : exn) : option (M A) :=
  match e with
  | JSONDecodeError => Some h
  | _ => None
  end.

(** The clause [except requests.RequestException as e: ...]. *)
Definition except_RequestException {A : Type} (h : string → M A) (e : exn)
  : option (M A) :=
  match e with
  | RequestException _ msg => Some (h msg)
  | _ => None
  end.

(** The statuses handled by the last branch of [_make_request]. *)
Definition is_error_status (status : Z) : Prop :=
  status ≠ 200 ∧ status ≠ 201 ∧ status ≠ 204.

Section Gateway.

Variable server : nat → Request → reply.

(** The exchange [_make_request] starts with: its call of
    [session.request]. *)
Definition exchange (self : BitingLipClient) (method endpoint : string)
    (kw : kwargs) : M Response :=
  Requests.request server (session self) method
    (get_api_url (config self) endpoint) (timeout self) (params kw) (json kw).

(** [BitingLipClient._make_request(method, endpoint, **kwargs)].

    In the last branch [error_data] is [None] until [response.json()]
    has returned, and [json()] is the only call of the inner [try] that
    can raise [JSONDecodeError]: the handler therefore sees
    [error_data = None]. *)
Definition _make_request (self : BitingLipClient) (method endpoint : string)
    (kw : kwargs) : M pyval :=
  let url := get_api_url (config self) endpoint in
  try_except
    (response ← Requests.request server (session self) method url
                  (timeout self) (params kw) (json kw);
     (if verbose (config self)
      then emit (Logged method url (status_code response))
      else mret tt);;
     if status_code response =? 200 then
       try_except
         (Requests.json response)
         (except_JSONDecodeError
            (body ← Requests.text_of response; mret (message_dict body)))
     else if status_code response =? 201 then
       try_except
         (Requests.json response)
         (except_JSONDecodeError (mret (message_dict "Created successfully")))
     else if status_code response =? 204 then
       mret (message_dict "Success")
     else
       '(error_data, message) ←
         try_except
           (error_data ← Requests.json response;
            message ← py_get error_data "detail" (http_message response);
            mret (Some error_data, message))
           (except_JSONDecodeError (mret (None, http_message response)));
       raise (BitingLipAPIError message (Some (status_code response)) error_data))
    (except_RequestException
       (λ msg, raise (BitingLipAPIError (PStr ("Request failed: " +:+ msg))
                                       None None))).

(** *** Facades *)

(** A call [f(self, ..., **params)] whose [params] repeat the name of a
    positional parameter is rejected by Python before the body of [f]
    runs, with [TypeError: f() got multiple values for argument ...].
    (When several names are repeated Python reports the first one in the
    order of the call, the model the first one in the order of the
    parameters.) *)
Fixpoint repeated (positional : list string) (p : gmap string pyval) : option string :=
  match positional with
  | [] => None
  | a :: rest =>
      match p !! a with
      | Some _ => Some a
      | None => repeated rest p
      end
  end.

Definition bind_params {A : Type} (name : string) (positional : list string)
    (p : gmap string pyval) (body : M A) : M A :=
  match repeated positional p with
  | Some a =>
      raise (TypeError ("BitingLipClient." +:+ name
                        +:+ "() got multiple values for argument '" +:+ a +:+ "'"))
  | None => body
  end.

(** System and health. *)
Definition get_system_status (self : BitingLipClient) : M pyval :=
  _make_request self "GET" "/api/system/status" no_kwargs.

Definition get_health_check (self : BitingLipClient) : M pyval :=
  _make_request self "GET" "/api/health" no_kwargs.

(** Models. *)
Definition list_models (self : BitingLipClient) (p : gmap string pyval) : M pyval :=
  bind_params "list_models" ["self"%string] p
    (_make_request self "GET" "/api/models" (with_params p)).

Definition get_model (self : BitingLipClient) (model_id : string) : M pyval :=
  _make_request self "GET" ("/api/models/" +:+ model_id) no_kwargs.

Definition create_model (self : BitingLipClient) (model_data : pyval) : M pyval :=
  _make_request self "POST" "/api/models" (with_json model_data).

Definition update_model (self : BitingLipClient) (model_id : string)
    (model_data : pyval) : M pyval :=
  _make_request self "PUT" ("/api/models/" +:+ model_id) (with_json model_data).

Definition delete_model (self : BitingLipClient) (model_id : string) : M pyval :=
  _make_request self "DELETE" ("/api/models/" +:+ model_id) no_kwargs.

(** Workers. *)
Definition list_workers (self : BitingLipClient) (p : gmap string pyval) : M pyval :=
  bind_params "list_workers" ["self"%string] p
    (_make_request self "GET" "/api/workers" (with_params p)).

Definition get_worker (self : BitingLipClient) (worker_id : string) : M pyval :=
  _make_request self "GET" ("/api/workers/" +:+ worker_id) no_kwargs.

Definition register_worker (self : BitingLipClient) (worker_data : pyval) : M pyval :=
  _make_request self "POST" "/api/workers" (with_json worker_data).

Definition update_worker (self : BitingLipClient) (worker_id : string)
    (worker_data : pyval) : M pyval :=
  _make_request self "PUT" ("/api/workers/" +:+ worker_id) (with_json worker_data).

(** Tasks. *)
Definition list_tasks (self : BitingLipClient) (p : gmap string pyval) : M pyval :=
  bind_params "list_tasks" ["self"%string] p
    (_make_request self "GET" "/api/tasks" (with_params p)).

Definition get_task (self : BitingLipClient) (task_id : string) : M pyval :=
  _make_request self "GET" ("/api/tasks/" +:+ task_id) no_kwargs.

Definition create_task (self : BitingLipClient) (task_data : pyval) : M pyval :=
  _make_request self "POST" "/api/tasks" (with_json task_data).

Definition cancel_task (self : BitingLipClient) (task_id : string) : M pyval :=
  _make_request self "POST" ("/api/tasks/" +:+ task_id +:+ "/cancel") no_kwargs.

(** Cluster. *)
Definition get_cluster_status (self : BitingLipClient) : M pyval :=
  _make_request self "GET" "/api/cluster/status" no_kwargs.

Definition get_cluster_health (self : BitingLipClient) : M pyval :=
  _make_request self "GET" "/api/cluster/health" no_kwargs.

(** Model operations. *)
Definition download_model (self : BitingLipClient) (model_name : string)
    (p : gmap string pyval) : M pyval :=
  bind_params "download_model" ["self"; "model_name"]%string p
    (let data := PDict (p ∪ {[ "model_name"%string := PStr model_name ]}) in
     _make_request self "POST" "/api/models/download" (with_json data)).

Definition assign_model (self : BitingLipClient) (model_id worker_id : string)
  : M pyval :=
  let data := PDict {[ "worker_id"%string := PStr worker_id ]} in
  _make_request self "POST" ("/api/models/" +:+ model_id +:+ "/assign")
                (with_json data).

Definition unload_model (self : BitingLipClient) (model_id : string)
    (worker_id : option string) : M pyval :=
  let data :=
    if truthy_str worker_id
    then PDict {[ "worker_id"%string := PStr (default EmptyString worker_id) ]}
    else PDict ∅ in
  _make_request self "POST" ("/api/models/" +:+ model_id +:+ "/unload")
                (with_json data).

(** The facade methods with their arguments, and their call. *)
Inductive facade : Type :=
| GetSystemStatus
| GetHealthCheck
| ListModels (p : gmap string pyval)
| GetModel (model_id : string)
| CreateModel (model_data : pyval)
| UpdateModel (model_id : string) (model_data : pyval)
| DeleteModel (model_id : string)
| ListWorkers (p : gmap string pyval)
| GetWorker (worker_id : string)
| RegisterWorker (worker_data : pyval)
| UpdateWorker (worker_id : string) (worker_data : pyval)
| ListTasks (p : gmap string pyval)
| GetTask (task_id : string)
| CreateTask (task_data : pyval)
| CancelTask (task_id : string)
| GetClusterStatus
| GetClusterHealth
| DownloadModel (model_name : string) (p : gmap string pyval)
| AssignModel (model_id worker_id : string)
| UnloadModel (model_id : string) (worker_id : option string).

(** Whether Python binds the arguments of the call: no key of [**params]
    repeats a positional parameter. *)
Definition binds (f : facade) : bool :=
  match f with
  | ListModels p | ListWorkers p | ListTasks p =>
      bool_decide (repeated ["self"%string] p = None)
  | DownloadModel _ p =>
      bool_decide (repeated ["self"; "model_name"]%string p = None)
  | _ => true
  end.

Definition call (self : BitingLipClient) (f : facade) : M pyval :=
  match f with
  | GetSystemStatus => get_system_status self
  | GetHealthCheck => get_health_check self
  | ListModels p => list_models self p
  | GetModel model_id => get_model self model_id
  | CreateModel model_data => create_model self model_data
  | UpdateModel model_id model_data => update_model self model_id model_data
  | DeleteModel model_id => delete_model self model_id
  | ListWorkers p => list_workers self p
  | GetWorker worker_id => get_worker self worker_id
  | RegisterWorker worker_data => register_worker self worker_data
  | UpdateWorker worker_id worker_data => update_worker self worker_id worker_data
  | ListTasks p => list_tasks self p
  | GetTask task_id => get_task self task_id
  | CreateTask task_data => create_task self task_data
  | CancelTask task_id => cancel_task self task_id
  | GetClusterStatus => get_cluster_status self
  | GetClusterHealth => get_cluster_health self
  | DownloadModel model_name p => download_model self model_name p
  | AssignModel model_id worker_id => assign_model self model_id worker_id
  | UnloadModel model_id worker_id => unload_model self model_id worker_id
  end.

(** [with BitingLipClient(config) as client: body]: [__enter__] returns
    the client, [__exit__] closes the session and lets an exception of
    the body pass. *)
Definition with_client {A : Type} (config : CLIConfig)
    (body : BitingLipClient → M A) : M A :=
  let client := __init__ config in
  try_finally (body client) (Requests.close (session client)).

End Gateway.

End Client.

(** ** cli/commands/workers.py: the [register] command *)

Module Workers.

Import Config.

(** [success_message], [error_message], [handle_api_error] and
    [click.echo(format_json(...))] of [cli/utils.py], by what they are
    given to print. *)
Definition success_message (msg : string) : M unit :=
  emit (Printed (SuccessMessage msg)).

Definition error_message (msg : string) : M unit :=
  emit (Printed (ErrorMessage msg)).

Definition handle_api_error (e : exn) : M unit :=
  emit (Printed (ApiErrorReport e)).

Definition echo_json (v : pyval) : M unit :=
  emit (Printed (JsonDump v)).

(** Truthiness of an optional [int] option value and of an optional
    string option value, as in [if port:] and [if host:]. *)
Definition given_str (o : option string) : option string :=
  match o with
  | Some s => if PyStr.truthy s then Some s else None
  | None => None
  end.

Definition given_int (o : option Z) : option Z :=
  match o with
  | Some z => if z =? 0 then None else Some z
  | None => None
  end.

(** [d[key] = v] when the option is given. *)
Definition set_if {A : Type} (key : string) (o : option A) (inj : A → pyval)
    (d : gmap string pyval) : gmap string pyval :=
  match o with
  | Some v => <[ key := inj v ]> d
  | None => d
  end.

Section Command.

Variable server : nat → Request → reply.

(** [json.loads]: [None] when it raises [JSONDecodeError]. *)
Variable json_loads : string → option pyval.

(** The part of the command after [worker_data] is complete. *)
Definition send_registration (config : CLIConfig) (name : string)
    (worker_data : gmap string pyval) : M unit :=
  Client.with_client config (λ client,
    result ← Client.register_worker server client (PDict worker_data);
    success_message ("Worker '" +:+ name +:+ "' registered successfully");;
    if verbose config then echo_json result else mret tt).

(** The body of the outer [try] of [register_worker]. *)
Definition register_worker_body (config : CLIConfig) (name worker_type : string)
    (host : option string) (port : option Z) (max_load : Z)
    (capabilities metadata : option string) : M unit :=
  let worker_data : gmap string pyval :=
    {[ "name" := PStr name;
       "type" := PStr worker_type;
       "max_load" := PInt max_load;
       "status" := PStr "available" ]}%string in
  let worker_data := set_if "host" (given_str host) PStr worker_data in
  let worker_data := set_if "port" (given_int port) PInt worker_data in
  match given_str capabilities with
  | Some raw =>
      match json_loads raw with
      | None => error_message "Invalid JSON in capabilities"
      | Some caps =>
          let worker_data := <[ "capabilities"%string := caps ]> worker_data in
          match given_str metadata with
          | Some raw' =>
              match json_loads raw' with
              | None => error_message "Invalid JSON in metadata"
              | Some meta =>
                  send_registration config name
                    (<[ "metadata"%string := meta ]> worker_data)
              end
          | None => send_registration config name worker_data
          end
      end
  | None =>
      match given_str metadata with
      | Some raw' =>
          match json_loads raw' with
          | None => error_message "Invalid JSON in metadata"
          | Some meta =>
              send_registration config name
                (<[ "metadata"%string := meta ]> worker_data)
          end
      | None => send_registration config name worker_data
      end
  end.

(** [register_worker(ctx, name, worker_type, host, port, max_load,
    capabilities, metadata)] with its two [except] clauses. *)
Definition register_worker (config : CLIConfig) (name worker_type : string)
    (host : option string) (port : option Z) (max_load : Z)
    (capabilities metadata : option string) : M unit :=
  try_except
    (register_worker_body config name worker_type host port max_load
                          capabilities metadata)
    (λ e,
       if is_BitingLipAPIError e
       then Some (handle_api_error e)
       else Some (emit (Printed (FailureMessage "Failed to register worker: " e)))).

End Command.

End Workers.

(** ** Sample exchanges used in the examples below *)

Module Samples.

(** A gateway that is reached and gives the same answer to every
    attempt. *)
Definition always (r : Response) : nat → Request → reply :=
  λ _ _, Answers r.

(** A gateway that cannot be reached: every attempt is made and
    fails. *)
Definition unreachable (cls : urllib3_exc) (msg : string) : nat → Request → reply :=
  λ _ _, Fails cls msg.

(** A response without body. *)
Definition bare (status : Z) (why : string) : Response :=
  {| status_code := status; reason := why; text := EmptyString;
     json_body := None; retry_after := None; redirect := None |}.

(** The double quote character, and the JSON text of a string. *)
Definition dq : string := String (ascii_of_nat 34) EmptyString.
Definition quoted (s : string) : string := dq +:+ s +:+ dq.

(** The 404 response with body [{"detail": "model not found"}]. *)
Definition model_not_found : Response :=
  {| status_code := 404;
     reason := "Not Found";
     text := "{" +:+ quoted "detail" +:+ ": " +:+ quoted "model not found" +:+ "}";
     json_body := Some (PDict {[ "detail"%string := PStr "model not found" ]});
     retry_after := None;
     redirect := None |}.

(** A 500 response whose body is the JSON array [[]]. *)
Definition array_body_500 : Response :=
  {| status_code := 500;
     reason := "Internal Server Error";
     text := "[]";
     json_body := Some (PList []);
     retry_after := None;
     redirect := None |}.

(** A client that cannot send: requests refuses every request. *)
Definition unsendable (why : refusal) : nat → Request → reply :=
  λ _ _, Unsent why.

(** The client of the default configuration, and of one with [n]
    retries. *)
Definition default_client : Client.BitingLipClient :=
  Client.__init__ Config.defaults.

Definition config_with_retries (n : Z) : Config.CLIConfig :=
  {| Config.api_url := Config.default_api_url;
     Config.api_timeout := Config.default_api_timeout;
     Config.api_retries := n;
     Config.api_key := None;
     Config.quiet := false;
     Config.verbose := false |}.

End Samples.


(** ** cli/commands: the other commands that send a document *)

(** The number of [session.close()] calls recorded in a trace. *)
Fixpoint closes (tr : trace) : nat :=
  match tr with
  | [] => 0%nat
  | SessionClosed :: rest => S (closes rest)
  | _ :: rest => closes rest
  end.

(** The attempts among the events. *)
Definition is_sent (ev : event) : Prop :=
  match ev with
  | Sent _ => True
  | _ => False
  end.

(** What leaves [session.request] when it raises: an instance of
    [RequestException], or the [ValueError] of a refusal. *)
Definition raised_by_requests (e : exn) : Prop :=
  (∃ cls msg, e = RequestException cls msg) ∨ (∃ msg, e = ValueError msg).

(** The events a call records after its attempts: reads of the body and
    the log entry. *)
Definition reads_or_logs (ev : event) : Prop :=
  match ev with
  | JsonRead | TextRead | Logged _ _ _ => True
  | _ => False
  end.

Module Commands.

Import Config.

(** [value or fallback] for an optional string option. *)
Definition or_default (o : option string) (fallback : string) : string :=
  match Workers.given_str o with
  | Some s => s
  | None => fallback
  end.

(** The two [except] clauses every command ends with:
    [except BitingLipAPIError as e: handle_api_error(e)] and
    [except Exception as e: error_message(f"<prefix>{str(e)}")]. *)
Definition report_failure (prefix : string) (e : exn) : option (M unit) :=
  if is_BitingLipAPIError e
  then Some (Workers.handle_api_error e)
  else Some (emit (Printed (FailureMessage prefix e))).

Section Commands.

Variable server : nat → Request → reply.

(** [json.loads]: [None] when it raises [JSONDecodeError]. *)
Variable json_loads : string → option pyval.

(** The step
    [if raw: try: d[key] = json.loads(raw) except json.JSONDecodeError:
    error_message("Invalid JSON in <label>"); return]: the document with
    the decoded option, or the message the command prints before it
    returns. *)
Definition load_json_option (key label : string) (raw : option string)
    (d : gmap string pyval) : string + gmap string pyval :=
  match Workers.given_str raw with
  | None => inr d
  | Some text =>
      match json_loads text with
      | Some v => inr (<[ key := v ]> d)
      | None => inl ("Invalid JSON in " +:+ label)
      end
  end.

(** The part the commands end with once their document is complete:
    [with BitingLipClient(config) as client:] the call of the facade, the
    success message, the dump of the result in verbose mode. *)
Definition send_and_report (config : CLIConfig)
    (call : Client.BitingLipClient → M pyval) (success : string) : M unit :=
  Client.with_client config (λ client,
    result ← call client;
    Workers.success_message success;;
    if verbose config then Workers.echo_json result else mret tt).

(** What [send_and_report] adds to the trace of the call under the two
    [except] clauses of a command, by the outcome of the call. *)
Definition after_call (config : CLIConfig) (success prefix : string)
    (r : result pyval) : trace :=
  match r with
  | Return v =>
      Printed (SuccessMessage success)
      :: (if verbose config then [Printed (JsonDump v)] else [])
      ++ [SessionClosed]
  | Raise e =>
      [SessionClosed;
       Printed (if is_BitingLipAPIError e then ApiErrorReport e
                else FailureMessage prefix e)]
  end.

(** A command that has come to its end from trace [tr]: it returned, and
    either it stopped before it built a client, with one error message and
    nothing else, or it has closed the session of its client exactly
    once, whether or not an attempt was made. *)
Definition ends_cleanly (tr : trace) (out : result unit * trace) : Prop :=
  ∃ new,
    out = (Return tt, tr ++ new) ∧
    ((∃ msg, new = [Printed (ErrorMessage msg)]) ∨ closes new = 1%nat).

(** *** workers.py: [update_worker] *)

(** The body of the [try] of [update_worker]. *)
Definition update_worker_body (config : CLIConfig) (worker_id : string)
    (status : option string) (max_load : option Z)
    (capabilities metadata : option string) : M unit :=
  let worker_data : gmap string pyval := ∅ in
  let worker_data := Workers.set_if "status" (Workers.given_str status) PStr worker_data in
  let worker_data := Workers.set_if "max_load" max_load PInt worker_data in
  match load_json_option "capabilities" "capabilities" capabilities worker_data with
  | inl msg => Workers.error_message msg
  | inr worker_data =>
      match load_json_option "metadata" "metadata" metadata worker_data with
      | inl msg => Workers.error_message msg
      | inr worker_data =>
          if (size worker_data =? 0)%nat
          then Workers.error_message "No updates specified"
          else
            send_and_report config
              (λ client, Client.update_worker server client worker_id (PDict worker_data))
              ("Worker '" +:+ worker_id +:+ "' updated successfully")
      end
  end.

(** [update_worker(ctx, worker_id, status, max_load, capabilities,
    metadata)]. *)
Definition update_worker (config : CLIConfig) (worker_id : string)
    (status : option string) (max_load : option Z)
    (capabilities metadata : option string) : M unit :=
  try_except
    (update_worker_body config worker_id status max_load capabilities metadata)
    (report_failure "Failed to update worker: ").

(** *** models.py: [register_model] *)

(** The body of the [try] of [register_model]. *)
Definition register_model_body (config : CLIConfig) (name : string)
    (path url model_type description metadata : option string) : M unit :=
  let model_data : gmap string pyval :=
    {[ "name" := PStr name;
       "type" := PStr (or_default model_type "unknown");
       "description" := PStr (or_default description "") ]}%string in
  let model_data := Workers.set_if "path" (Workers.given_str path) PStr model_data in
  let model_data := Workers.set_if "url" (Workers.given_str url) PStr model_data in
  match load_json_option "metadata" "metadata" metadata model_data with
  | inl msg => Workers.error_message msg
  | inr model_data =>
      send_and_report config
        (λ client, Client.create_model server client (PDict model_data))
        ("Model '" +:+ name +:+ "' registered successfully")
  end.

(** [register_model(ctx, name, path, url, model_type, description,
    metadata)]: the check of [--path] and [--url] comes before the
    [try]. *)
Definition register_model (config : CLIConfig) (name : string)
    (path url model_type description metadata : option string) : M unit :=
  if negb (truthy_str path) && negb (truthy_str url)
  then Workers.error_message "Either --path or --url must be specified"
  else
    try_except
      (register_model_body config name path url model_type description metadata)
      (report_failure "Failed to register model: ").

End Commands.

End Commands.

(** ** cli/utils.py *)

Module Utils.

(** Strings are sequences of characters with code points below 256. *)

(** *** [truncate_string] *)

(** The first [n] characters of a string. *)
Fixpoint take (n : nat) (s : string) : string :=
  match n, s with
  | O, _ => EmptyString
  | S _, EmptyString => EmptyString
  | S k, String a rest => String a (take k rest)
  end.

(** [len(s)]. *)
Definition len (s : string) : Z := Z.of_nat (String.length s).

(** The slice [s[:stop]]: a negative [stop] counts from the end, and the
    bound is clamped to the string. *)
Definition slice_to (s : string) (stop : Z) : string :=
  let bound := if stop <? 0 then Z.max 0 (stop + len s) else Z.min stop (len s) in
  take (Z.to_nat bound) s.

(** [truncate_string(text, max_length)]. *)
Definition truncate_string (text : string) (max_length : Z) : string :=
  if len text <=? max_length then text
  else slice_to text (max_length - 3) +:+ "...".

(** *** [handle_api_error] *)

(** Truthiness of a decoded value. *)
Definition py_truthy (v : pyval) : bool :=
  match v with
  | PNone => false
  | PBool b => b
  | PInt z => negb (z =? 0)
  | PStr s => PyStr.truthy s
  | PList items => match items with [] => false | _ :: _ => true end
  | PDict d => negb (size d =? 0)%nat
  end.

(** The lines [handle_api_error] prints, by the values put into their
    f-strings: ["API Error (<status>): <error>"] or ["API Error: <error>"],
    then ["Details: <detail>"] or ["Message: <message>"]. *)
Inductive report_line : Type :=
| ApiErrorLine (status : option Z) (error : pyval)
| DetailsLine (detail : pyval)
| MessageLine (message : pyval).

(** [handle_api_error(error)] for an instance of [BitingLipAPIError] with
    the given message, [status_code] and [response]. *)
Definition handle_api_error (message : pyval) (status_code : option Z)
    (response : option pyval) : list report_line :=
  let first :=
    match status_code with
    | Some code => if code =? 0 then ApiErrorLine None message
                   else ApiErrorLine (Some code) message
    | None => ApiErrorLine None message
    end in
  let rest :=
    match response with
    | Some (PDict d) =>
        if py_truthy (PDict d) then
          match d !! "detail"%string with
          | Some detail => [DetailsLine detail]
          | None =>
              match d !! "message"%string with
              | Some msg => [MessageLine msg]
              | None => []
              end
          end
        else []
    | _ => []
    end in
  first :: rest.

(** What [handle_api_error] prints for the outcome of a call, when a
    command passes it the [BitingLipAPIError] the call raised. *)
Definition report_after (r : result pyval) : list report_line :=
  match r with
  | Raise (BitingLipAPIError message status_code response) =>
      handle_api_error message status_code response
  | _ => []
  end.

(** *** [parse_key_value_pairs] *)

(** What a function of this module comes to. *)
Inductive outcome (A : Type) : Type :=
| Returns (a : A)
| RaisesBadParameter (msg : string)
| RaisesZeroDivisionError.
Arguments Returns {A} a.
Arguments RaisesBadParameter {A} msg.
Arguments RaisesZeroDivisionError {A}.

(** The characters [str.strip()] removes: those for which [str.isspace()]
    holds, code points 9 to 13, 28 to 32, 133 and 160. *)
Definition whitespace : string :=
  string_of_list_ascii
    (map ascii_of_nat [9; 10; 11; 12; 13; 28; 29; 30; 31; 32; 133; 160]%nat).

(** [s.strip()]. *)
Definition strip (s : string) : string :=
  PyStr.lstrip whitespace (PyStr.rstrip whitespace s).

(** [s.split(sep, 1)] for a string that contains [sep]: the text before
    the first [sep] and the text after it (for a string without [sep], the
    string and the empty string). *)
Fixpoint split_once (sep : ascii) (s : string) : string * string :=
  match s with
  | EmptyString => (EmptyString, EmptyString)
  | String a rest =>
      if Ascii.eqb a sep then (EmptyString, rest)
      else let '(before, after) := split_once sep rest in (String a before, after)
  end.

(** The loop of [parse_key_value_pairs], from the dictionary built so
    far. *)
Fixpoint parse_pairs_from (result : gmap string string) (pairs : list string)
  : outcome (gmap string string) :=
  match pairs with
  | [] => Returns result
  | pair_ :: rest =>
      if negb (PyStr.mem "=" pair_)
      then RaisesBadParameter ("Invalid key=value pair: " +:+ pair_)
      else
        let '(key, value) := split_once "=" pair_ in
        parse_pairs_from (<[ strip key := strip value ]> result) rest
  end.

(** [parse_key_value_pairs(pairs)]. *)
Definition parse_key_value_pairs (pairs : list string) : outcome (gmap string string) :=
  parse_pairs_from ∅ pairs.

(** *** [print_table_with_pagination] *)

(** The slice [l[start:stop]] of a list. *)
Definition py_slice {A : Type} (l : list A) (start stop : Z) : list A :=
  let n := Z.of_nat (List.length l) in
  let norm := λ i : Z, if i <? 0 then Z.max 0 (i + n) else Z.min i n in
  List.firstn (Z.to_nat (norm stop - norm start)) (List.skipn (Z.to_nat (norm start)) l).

(** What the function shows: a table ([tabulate(page_data, headers=...,
    tablefmt='grid')]), a line of text, the question
    ["Show next page?"]. *)
Inductive shown (A : Type) : Type :=
| Table (rows : list A) (headers : list string)
| Line (text : string)
| Asked.
Arguments Table {A} rows headers.
Arguments Line {A} text.
Arguments Asked {A}.

Definition newline : string := String (ascii_of_nat 10) EmptyString.

(** The rows of page [current_page]. *)
Definition page_rows {A : Type} (data : list A) (page_size current_page : Z) : list A :=
  let start_idx := (current_page - 1) * page_size in
  let end_idx := Z.min (start_idx + page_size) (Z.of_nat (List.length data)) in
  py_slice data start_idx end_idx.

(** What one turn of the loop shows before it decides to go on. *)
Definition page_output {A : Type} (data : list A) (headers : list string)
    (page_size total_pages current_page : Z) : list (shown A) :=
  let page_data := page_rows data page_size current_page in
  [ Table page_data headers;
    Line (newline +:+ "Page " +:+ pretty current_page +:+ " of " +:+ pretty total_pages
          +:+ " (showing " +:+ pretty (Z.of_nat (List.length page_data))
          +:+ " of " +:+ pretty (Z.of_nat (List.length data)) +:+ " items)") ].

(** The [while True] loop: [confirm k] is the answer to the question when
    it is asked for the [k]-th time (counted from 0). *)
Equations? page_loop {A : Type} (data : list A) (headers : list string)
    (page_size total_pages : Z) (confirm : nat → bool)
    (current_page : Z) (asked : nat) (out : list (shown A)) : list (shown A)
  by wf (Z.to_nat (total_pages - current_page)) lt :=
  page_loop data headers page_size total_pages confirm current_page asked out
    with Urllib3.inspect (total_pages <=? current_page) := {
    | exist _ true _ :=
        out ++ page_output data headers page_size total_pages current_page;
    | exist _ false Hmore with confirm asked := {
      | false :=
          out ++ page_output data headers page_size total_pages current_page ++ [Asked];
      | true :=
          page_loop data headers page_size total_pages confirm (current_page + 1)
            (S asked)
            (out ++ page_output data headers page_size total_pages current_page
                 ++ [Asked]) } }.
Proof. apply Z.leb_gt in Hmore. lia. Qed.

(** [print_table_with_pagination(data, headers, page_size)]. *)
Definition print_table_with_pagination {A : Type} (data : list A)
    (headers : list string) (page_size : Z) (confirm : nat → bool)
  : outcome (list (shown A)) :=
  match data with
  | [] => Returns [Line "No data to display."]
  | _ :: _ =>
      if page_size =? 0 then RaisesZeroDivisionError
      else
        let total_pages := (Z.of_nat (List.length data) + page_size - 1) / page_size in
        Returns (page_loop data headers page_size total_pages confirm 1 0%nat [])
  end.

(** The tables among what was shown. *)
Fixpoint tables {A : Type} (out : list (shown A)) : list (list A) :=
  match out with
  | [] => []
  | Table rows _ :: rest => rows :: tables rest
  | _ :: rest => tables rest
  end.

(** The number of times the question was asked. *)
Fixpoint questions {A : Type} (out : list (shown A)) : nat :=
  match out with
  | [] => 0%nat
  | Asked :: rest => S (questions rest)
  | _ :: rest => questions rest
  end.

End Utils.

(** * Properties *)

(** ** Strings and URLs *)

Section UrlFacts.

Import PyStr.

Lemma append_cons (a : ascii) (s t : string) :
  String a s +:+ t = String a (s +:+ t).
Proof. reflexivity. Qed.

Lemma append_nil (t : string) : EmptyString +:+ t = t.
Proof. reflexivity. Qed.

Lemma append_empty_r (s : string) : s +:+ EmptyString = s.
Proof. induction s as [|a s IH]; [reflexivity|]. by rewrite append_cons, IH. Qed.

Lemma append_assoc (a b c : string) : (a +:+ b) +:+ c = a +:+ (b +:+ c).
Proof. induction a as [|x a IH]; [reflexivity|]. by rewrite !append_cons, IH. Qed.


Lemma rstrip_slashes (n : nat) : rstrip "/" (slashes n) = EmptyString.
Proof.
  induction n as [|n IH]; [reflexivity|].
  cbn [slashes rstrip]. by rewrite IH.
Qed.

Lemma rstrip_app_slashes (base : string) (n : nat) :
  rstrip "/" (base +:+ slashes n) = rstrip "/" base.
Proof.
  induction base as [|a base IH].
  - apply rstrip_slashes.
  - rewrite append_cons. cbn [rstrip]. by rewrite IH.
Qed.

Lemma lstrip_slashes_app (n : nat) (s : string) :
  lstrip "/" (slashes n +:+ s) = lstrip "/" s.
Proof.
  induction n as [|n IH]; [reflexivity|].
  cbn [slashes]. rewrite append_cons. cbn [lstrip]. exact IH.
Qed.

Lemma truthy_slashes_app (n : nat) (c : ascii) (s : string) :
  truthy (slashes n +:+ String c s) = true.
Proof. destruct n; reflexivity. Qed.

Lemma mem_slash (a : ascii) : mem a "/" = true ↔ a = "/"%char.
Proof.
  unfold mem. destruct (Ascii.eqb_spec "/" a) as [<-|Hne]; split;
    [done|done|discriminate|intros ->; by destruct Hne].
Qed.

Lemma lstrip_no_leading_slash (s : string) :
  first_char (lstrip "/" s) ≠ Some "/"%char.
Proof.
  induction s as [|a s IH]; [done|].
  cbn [lstrip]. destruct (mem a "/") eqn:Hm; [exact IH|].
  cbn. intros [= ->]. by rewrite (proj2 (mem_slash "/")) in Hm.
Qed.

Lemma rstrip_no_trailing_slash (s : string) :
  last_char (rstrip "/" s) ≠ Some "/"%char.
Proof.
  induction s as [|a s IH]; [done|].
  cbn [rstrip]. destruct (rstrip "/" s) as [|b kept] eqn:Hr.
  - destruct (mem a "/") eqn:Hm; [done|].
    cbn. intros [= ->]. by rewrite (proj2 (mem_slash "/")) in Hm.
  - exact IH.
Qed.

(** What [rstrip] and [lstrip] remove is a run of separators. *)
Lemma rstrip_decompose (s : string) :
  ∃ n, s = rstrip "/" s +:+ slashes n.
Proof.
  induction s as [|a s [n IH]]; [by exists 0%nat|].
  cbn [rstrip]. destruct (rstrip "/" s) as [|b kept] eqn:Hr.
  - destruct (mem a "/") eqn:Hm.
    + apply mem_slash in Hm as ->. exists (S n).
      rewrite append_nil in IH |- *. by rewrite IH at 1.
    + exists n. rewrite append_nil in IH. rewrite append_cons, append_nil.
      by rewrite IH at 1.
  - exists n. rewrite append_cons. by rewrite <- IH.
Qed.

Lemma lstrip_decompose (s : string) :
  ∃ n, s = slashes n +:+ lstrip "/" s.
Proof.
  induction s as [|a s [n IH]]; [by exists 0%nat|].
  cbn [lstrip]. destruct (mem a "/") eqn:Hm.
  - apply mem_slash in Hm as ->. exists (S n).
    cbn [slashes]. rewrite append_cons. by rewrite <- IH.
  - by exists 0%nat.
Qed.

End UrlFacts.

(** ** The retry loop *)

Section PoolFacts.

Import Urllib3.

Variable server : nat → Request → reply.

Lemma attempts_app (tr tr' : trace) :
  attempts (tr ++ tr') = (attempts tr + attempts tr')%nat.
Proof.
  induction tr as [|ev tr IH]; [reflexivity|].
  destruct ev; cbn; rewrite IH; reflexivity.
Qed.

Lemma body_reads_app (tr tr' : trace) :
  body_reads (tr ++ tr') = (body_reads tr + body_reads tr')%nat.
Proof.
  induction tr as [|ev tr IH]; [reflexivity|].
  destruct ev; cbn; rewrite IH; reflexivity.
Qed.

Lemma attempts_sent (tr : trace) (rq : Request) :
  attempts (tr ++ [Sent rq]) = S (attempts tr).
Proof. rewrite attempts_app. cbn. lia. Qed.

Lemma is_sent_replicate (k : nat) (rq : Request) :
  Forall is_sent (replicate k (Sent rq)).
Proof. induction k as [|k IH]; by constructor. Qed.

Lemma is_sent_body_reads (new : trace) : Forall is_sent new → body_reads new = 0%nat.
Proof. induction 1 as [|ev new Hev _ IH]; [done|]. by destruct ev. Qed.

(** The defining equation of [urlopen], as a plain [match]. *)
Lemma urlopen_unfold (retries : Retry) (rq : Request) (tr : trace) :
  urlopen server retries rq tr =
  match after_attempt retries (rq_method rq) (server (attempts tr) rq) with
  | Done r => (r, tr ++ [Sent rq])
  | Again new_retry => urlopen server new_retry rq (tr ++ [Sent rq])
  | Refused e => (Raise e, tr)
  end.
Proof.
  rewrite urlopen_equation_1. unfold urlopen_unfold_clause_1.
  destruct (inspect _) as [[r|nr|e] Hv]; by rewrite Hv.
Qed.

(** Induction along the calls of [urlopen]. *)
Lemma urlopen_induction (rq : Request)
    (P : Retry → trace → result Response * trace → Prop) :
  (∀ retries tr r,
      after_attempt retries (rq_method rq) (server (attempts tr) rq) = Done r →
      P retries tr (r, tr ++ [Sent rq])) →
  (∀ retries tr new_retry,
      after_attempt retries (rq_method rq) (server (attempts tr) rq) = Again new_retry →
      P new_retry (tr ++ [Sent rq]) (urlopen server new_retry rq (tr ++ [Sent rq])) →
      P retries tr (urlopen server new_retry rq (tr ++ [Sent rq]))) →
  (∀ retries tr e,
      after_attempt retries (rq_method rq) (server (attempts tr) rq) = Refused e →
      P retries tr (Raise e, tr)) →
  ∀ retries tr, P retries tr (urlopen server retries rq tr).
Proof.
  intros Hdone Hagain Hrefused retries.
  remember (Z.to_nat (total retries)) as k eqn:Hk.
  revert retries Hk.
  induction k as [k IH] using lt_wf_ind.
  intros retries -> tr. rewrite urlopen_unfold.
  destruct (after_attempt _ _ _) as [r|nr|e] eqn:Hv.
  - by apply Hdone.
  - apply Hagain; [exact Hv|].
    eapply IH; [|reflexivity]. by apply after_attempt_decreases in Hv.
  - by apply Hrefused.
Qed.

(** A refusal is the verdict on a request that was not sent, and only
    on such a request. *)
Lemma after_attempt_refused (retries : Retry) (method : string) (rep : reply) (e : exn) :
  after_attempt retries method rep = Refused e →
  ∃ why, rep = Unsent why ∧ e = exception_of why.
Proof.
  unfold after_attempt. destruct rep as [response|cls msg|why].
  - destruct (is_retry _ _ _ _); [|discriminate].
    destruct (increment _ _ _ _) as [nr|e'];
      [destruct (sleep nr response)|destruct (raise_on_status retries)]; discriminate.
  - destruct (increment _ _ _ _); discriminate.
  - intros [= <-]. by exists why.
Qed.

(** Every call records attempts with the request it was given, and
    nothing else. *)
Lemma urlopen_trace (retries : Retry) (rq : Request) (tr : trace) :
  ∃ k, (urlopen server retries rq tr).2 = tr ++ replicate k (Sent rq).
Proof.
  revert retries tr.
  apply (urlopen_induction rq (λ _ tr out, ∃ k, out.2 = tr ++ replicate k (Sent rq))).
  - intros _ tr r _. by exists 1%nat.
  - intros _ tr nr _ [k Hk]. exists (S k). rewrite Hk, <- (assoc_L (++)). done.
  - intros _ tr e _. exists 0%nat. by rewrite app_nil_r.
Qed.

(** A request that is not refused is put on the wire at least once. *)
Lemma urlopen_sent (retries : Retry) (rq : Request) (tr : trace) :
  Requests.refused (server (attempts tr) rq) = false →
  ∃ k, (urlopen server retries rq tr).2 = tr ++ replicate (S k) (Sent rq).
Proof.
  intros Hsent. rewrite urlopen_unfold.
  destruct (after_attempt _ _ _) as [r|nr|e] eqn:Hv.
  - by exists 0%nat.
  - destruct (urlopen_trace nr rq (tr ++ [Sent rq])) as [k Hk].
    exists k. rewrite Hk, <- (assoc_L (++)). done.
  - apply after_attempt_refused in Hv as (why & Hw & _).
    rewrite Hw in Hsent. discriminate.
Qed.

Lemma increment_raises (self : Retry) (method : string)
    (response : option Response)
    (error : option (urllib3_exc * string)) (e : exn) :
  increment self method response error = Raise e → raised_by_urlopen e.
Proof.
  unfold increment. destruct error as [[cls msg]|].
  - destruct (negb (_is_connection_error cls)) eqn:Hc;
      destruct (_is_read_error cls) eqn:Hr; cbn [andb];
      try destruct (negb (_is_method_retryable self method));
      try destruct (is_exhausted _); intros [= <-]; cbn; auto.
  - destruct (is_exhausted _); intros [= <-]; done.
Qed.

Lemma sleep_raises (self : Retry) (response : Response) (e : exn) :
  sleep self response = Raise e → raised_by_urlopen e.
Proof.
  unfold sleep, get_retry_after, parse_retry_after.
  destruct (respect_retry_after_header self); [|discriminate].
  destruct (retry_after response) as [[v|v|v]|]; try discriminate.
  intros [= <-]. by right.
Qed.

Lemma urlopen_raises (retries : Retry) (rq : Request) (tr : trace) (e : exn) :
  (urlopen server retries rq tr).1 = Raise e → raised_by_urlopen e.
Proof.
  revert retries tr.
  apply (urlopen_induction rq (λ _ _ out, out.1 = Raise e → raised_by_urlopen e)).
  - intros retries tr r Hv. cbn. intros ->. revert Hv. unfold after_attempt.
    destruct (server _ _) as [response|cls msg|why]; [| |discriminate].
    + destruct (is_retry _ _ _ _); [|discriminate].
      destruct (increment retries _ _ None) as [nr|e'] eqn:Hinc.
      * destruct (sleep nr response) as [|e'] eqn:Hsleep; [discriminate|].
        intros [= <-]. by eapply sleep_raises.
      * destruct (raise_on_status retries); [|discriminate].
        intros [= <-]. by eapply increment_raises.
    + destruct (increment retries _ None _) as [nr|e'] eqn:Hinc; [discriminate|].
      intros [= <-]. by eapply increment_raises.
  - auto.
  - intros retries tr e' Hv. cbn. intros [= ->].
    apply after_attempt_refused in Hv as (why & _ & ->). by destruct why.
Qed.

End PoolFacts.

(** ** The adapter *)

Section AdapterFacts.

Variable server : nat → Request → reply.

Lemma translate_raised (e : exn) :
  Urllib3.raised_by_urlopen e → raised_by_requests (Requests.translate e).
Proof.
  unfold raised_by_requests.
  destruct e as [| |[] msg|[] msg| | | | |]; cbn; try done;
    try (intros [|]; done); intros _; eauto.
Qed.

(** [send] in terms of [urlopen]. *)
Lemma send_unfold (retries : Urllib3.Retry) (rq : Request) (tr : trace) :
  Requests.send server retries rq tr =
  match Urllib3.urlopen server retries rq tr with
  | (Return response, tr') => (Return response, tr')
  | (Raise e, tr') => (Raise (Requests.translate e), tr')
  end.
Proof.
  unfold Requests.send, try_except.
  by destruct (Urllib3.urlopen server retries rq tr) as [[response|e] tr'].
Qed.

(** The trace of [send]: attempts with the request, at least one when
    the request is not refused. *)
Lemma send_trace (retries : Urllib3.Retry) (rq : Request) (tr : trace) :
  ∃ k, (Requests.send server retries rq tr).2 = tr ++ replicate k (Sent rq).
Proof.
  destruct (urlopen_trace server retries rq tr) as [k Hk]. exists k.
  rewrite send_unfold.
  by destruct (Urllib3.urlopen server retries rq tr) as [[response|e] tr'].
Qed.

Lemma send_sent (retries : Urllib3.Retry) (rq : Request) (tr : trace) :
  Requests.refused (server (attempts tr) rq) = false →
  ∃ k, (Requests.send server retries rq tr).2 = tr ++ replicate (S k) (Sent rq).
Proof.
  intros Hsent. destruct (urlopen_sent server retries rq tr Hsent) as [k Hk]. exists k.
  rewrite send_unfold.
  by destruct (Urllib3.urlopen server retries rq tr) as [[response|e] tr'].
Qed.

(** Whatever [send] raises is an instance of [RequestException], or the
    [ValueError] of a refusal. *)
Lemma send_raises (retries : Urllib3.Retry) (rq : Request) (tr : trace) (e : exn) :
  (Requests.send server retries rq tr).1 = Raise e → raised_by_requests e.
Proof.
  rewrite send_unfold.
  destruct (Urllib3.urlopen server retries rq tr) as [[response|e'] tr'] eqn:Hu;
    cbn; [discriminate|].
  intros [= <-]. apply translate_raised.
  apply (urlopen_raises server retries rq tr). by rewrite Hu.
Qed.



(** A response that [is_retry] does not select is returned after one
    attempt. *)
Lemma send_once (retries : Urllib3.Retry) (rq : Request) (tr : trace)
    (response : Response) :
  server (attempts tr) rq = Answers response →
  Urllib3.is_retry retries (rq_method rq) (status_code response)
                   (has_retry_after response) = false →
  Requests.send server retries rq tr = (Return response, tr ++ [Sent rq]).
Proof.
  intros Hs Hr. rewrite send_unfold, urlopen_unfold.
  unfold Urllib3.after_attempt. by rewrite Hs, Hr.
Qed.


End AdapterFacts.

(** ** The session: redirects *)

Section SessionFacts.

Variable server : nat → Request → reply.

Lemma is_sent_attempts (new : trace) : Forall is_sent new → attempts new = List.length new.
Proof.
  induction 1 as [|ev new Hev _ IH]; [done|].
  destruct ev; try done. cbn. by rewrite IH.
Qed.

(** A response that is not a redirect with a target is returned as it
    is. *)
Lemma resolve_redirects_none (self : Requests.Session) (budget : nat)
    (response : Response) (tr : trace) :
  Requests.get_redirect_target response = None →
  Requests.resolve_redirects server self budget response tr = (Return response, tr).
Proof. intros Hr. destruct budget; cbn; by rewrite Hr. Qed.

(** A status outside [REDIRECT_STATI] is no redirect. *)
Lemma no_redirect_status (response : Response) :
  status_code response ∉ Requests.REDIRECT_STATI →
  Requests.get_redirect_target response = None.
Proof.
  intros Hst. unfold Requests.get_redirect_target.
  by rewrite bool_decide_eq_false_2.
Qed.

(** The redirect loop records attempts only, and raises what the adapter
    raises or [TooManyRedirects]. *)
Lemma resolve_redirects_trace (self : Requests.Session) (budget : nat) :
  ∀ (response : Response) (tr : trace),
    ∃ new,
      (Requests.resolve_redirects server self budget response tr).2 = tr ++ new ∧
      Forall is_sent new.
Proof.
  induction budget as [|budget IH]; intros response tr; cbn;
    destruct (Requests.get_redirect_target response) as [next|];
    try (exists []; rewrite app_nil_r; by split).
  unfold mbind, M_bind.
  destruct (send_trace server (Requests.max_retries self) next tr) as [k Hk].
  destruct (Requests.send server (Requests.max_retries self) next tr)
    as [[response'|e] tr1]; cbn [snd] in Hk; subst tr1.
  - destruct (IH response' (tr ++ replicate k (Sent next))) as (new & -> & Hnew).
    exists (replicate k (Sent next) ++ new). rewrite <- app_assoc. split; [done|].
    apply Forall_app. split; [apply is_sent_replicate|exact Hnew].
  - exists (replicate k (Sent next)). split; [done|apply is_sent_replicate].
Qed.

Lemma resolve_redirects_raises (self : Requests.Session) (budget : nat) :
  ∀ (response : Response) (tr : trace) (e : exn),
    (Requests.resolve_redirects server self budget response tr).1 = Raise e →
    raised_by_requests e.
Proof.
  induction budget as [|budget IH]; intros response tr e; cbn;
    destruct (Requests.get_redirect_target response) as [next|];
    try discriminate.
  - intros [= <-]. left. eauto.
  - unfold mbind, M_bind.
    destruct (Requests.send server (Requests.max_retries self) next tr)
      as [[response'|e'] tr1] eqn:Hsend.
    + apply IH.
    + cbn. intros [= <-].
      apply (send_raises server (Requests.max_retries self) next tr). by rewrite Hsend.
Qed.


(** [session.request] in terms of the adapter and the redirect loop. *)
Lemma request_unfold (self : Requests.Session) (method url : string) (timeout : Z)
    (params : option (gmap string pyval)) (body : option pyval) (tr : trace) :
  Requests.request server self method url timeout params body tr =
  match Requests.send server (Requests.max_retries self)
          (mkRequest method url (Requests.headers self) params body timeout) tr with
  | (Return response, tr') =>
      Requests.resolve_redirects server self (Requests.max_redirects self) response tr'
  | (Raise e, tr') => (Raise e, tr')
  end.
Proof. reflexivity. Qed.

Lemma request_trace (self : Requests.Session) (method url : string) (timeout : Z)
    (params : option (gmap string pyval)) (body : option pyval) (tr : trace) :
  ∃ new,
    (Requests.request server self method url timeout params body tr).2 = tr ++ new ∧
    Forall is_sent new.
Proof.
  rewrite request_unfold.
  set (rq := mkRequest method url (Requests.headers self) params body timeout).
  destruct (send_trace server (Requests.max_retries self) rq tr) as [k Hk].
  destruct (Requests.send server (Requests.max_retries self) rq tr)
    as [[response|e] tr1]; cbn [snd] in Hk; subst tr1.
  - destruct (resolve_redirects_trace self (Requests.max_redirects self) response
                (tr ++ replicate k (Sent rq))) as (new & -> & Hnew).
    exists (replicate k (Sent rq) ++ new). rewrite <- app_assoc. split; [done|].
    apply Forall_app. split; [apply is_sent_replicate|exact Hnew].
  - exists (replicate k (Sent rq)). split; [done|apply is_sent_replicate].
Qed.

(** A request that is not refused is put on the wire first. *)
Lemma request_sent (self : Requests.Session) (method url : string) (timeout : Z)
    (params : option (gmap string pyval)) (body : option pyval) (tr : trace) :
  let rq := mkRequest method url (Requests.headers self) params body timeout in
  Requests.refused (server (attempts tr) rq) = false →
  ∃ more,
    (Requests.request server self method url timeout params body tr).2 =
    tr ++ Sent rq :: more.
Proof.
  intros rq Hsent. rewrite request_unfold. fold rq.
  destruct (send_sent server (Requests.max_retries self) rq tr Hsent) as [k Hk].
  destruct (Requests.send server (Requests.max_retries self) rq tr)
    as [[response|e] tr1]; cbn [snd] in Hk; subst tr1.
  - destruct (resolve_redirects_trace self (Requests.max_redirects self) response
                (tr ++ replicate (S k) (Sent rq))) as (new & -> & _).
    exists (replicate k (Sent rq) ++ new). by rewrite <- app_assoc.
  - by exists (replicate k (Sent rq)).
Qed.

Lemma request_raises (self : Requests.Session) (method url : string) (timeout : Z)
    (params : option (gmap string pyval)) (body : option pyval) (tr : trace) (e : exn) :
  (Requests.request server self method url timeout params body tr).1 = Raise e →
  raised_by_requests e.
Proof.
  rewrite request_unfold.
  set (rq := mkRequest method url (Requests.headers self) params body timeout).
  destruct (Requests.send server (Requests.max_retries self) rq tr)
    as [[response|e'] tr1] eqn:Hsend.
  - apply resolve_redirects_raises.
  - cbn. intros [= <-].
    apply (send_raises server (Requests.max_retries self) rq tr). by rewrite Hsend.
Qed.


(** What the adapter returns or raises is what [session.request] returns
    or raises, unless it is a redirect with a target. *)
Lemma request_returns (self : Requests.Session) (method url : string) (timeout : Z)
    (params : option (gmap string pyval)) (body : option pyval) (tr tr1 : trace)
    (response : Response) :
  Requests.send server (Requests.max_retries self)
    (mkRequest method url (Requests.headers self) params body timeout) tr =
  (Return response, tr1) →
  Requests.get_redirect_target response = None →
  Requests.request server self method url timeout params body tr =
  (Return response, tr1).
Proof.
  intros Hsend Hr. rewrite request_unfold, Hsend. by apply resolve_redirects_none.
Qed.

Lemma request_passes (self : Requests.Session) (method url : string) (timeout : Z)
    (params : option (gmap string pyval)) (body : option pyval) (tr tr1 : trace)
    (e : exn) :
  Requests.send server (Requests.max_retries self)
    (mkRequest method url (Requests.headers self) params body timeout) tr =
  (Raise e, tr1) →
  Requests.request server self method url timeout params body tr = (Raise e, tr1).
Proof. intros Hsend. by rewrite request_unfold, Hsend. Qed.

End SessionFacts.

(** ** The dispatcher, branch by branch *)

Section DispatcherFacts.

Import Client.

Variable server : nat → Request → reply.

Ltac enter Hx :=
  unfold _make_request, try_except;
  unfold mbind at 1; unfold M_bind at 1;
  unfold exchange in Hx; rewrite Hx.

Ltac unfold_effects :=
  unfold logged, Requests.json, Requests.text_of, py_get, except_JSONDecodeError,
    except_RequestException, try_except, raise, emit, mbind, M_bind, mret, M_ret.

(** What the exchange raises. *)
Lemma exchange_raises self method endpoint kw tr e tr1 :
  exchange server self method endpoint kw tr = (Raise e, tr1) →
  raised_by_requests e.
Proof.
  intros Hx.
  apply (request_raises server (session self) method
           (Config.get_api_url (config self) endpoint) (timeout self)
           (params kw) (json kw) tr).
  unfold exchange in Hx. by rewrite Hx.
Qed.

(** The exchange raised a [RequestException]: the
    [except requests.RequestException] clause runs. *)
Lemma dispatch_request_exception self method endpoint kw tr cls msg tr1 :
  exchange server self method endpoint kw tr = (Raise (RequestException cls msg), tr1) →
  _make_request server self method endpoint kw tr =
  (Raise (BitingLipAPIError (PStr ("Request failed: " +:+ msg)) None None), tr1).
Proof. intros Hx. by enter Hx. Qed.

(** The exchange raised the [ValueError] of a refusal: no clause
    matches. *)
Lemma dispatch_value_error self method endpoint kw tr msg tr1 :
  exchange server self method endpoint kw tr = (Raise (ValueError msg), tr1) →
  _make_request server self method endpoint kw tr = (Raise (ValueError msg), tr1).
Proof. intros Hx. by enter Hx. Qed.

Lemma dispatch_200_json self method endpoint kw tr response tr1 v :
  exchange server self method endpoint kw tr = (Return response, tr1) →
  status_code response = 200 →
  json_body response = Some v →
  _make_request server self method endpoint kw tr =
  (Return v,
   tr1 ++ logged self method (Config.get_api_url (config self) endpoint) response
       ++ [JsonRead]).
Proof.
  intros Hx Hst Hj. enter Hx. unfold_effects. rewrite Hst, Hj.
  destruct (Config.verbose (config self)); cbn;
    rewrite <- ?app_assoc, ?app_nil_r; reflexivity.
Qed.

Lemma dispatch_200_text self method endpoint kw tr response tr1 :
  exchange server self method endpoint kw tr = (Return response, tr1) →
  status_code response = 200 →
  json_body response = None →
  _make_request server self method endpoint kw tr =
  (Return (message_dict (text response)),
   tr1 ++ logged self method (Config.get_api_url (config self) endpoint) response
       ++ [JsonRead; TextRead]).
Proof.
  intros Hx Hst Hj. enter Hx. unfold_effects. rewrite Hst, Hj.
  destruct (Config.verbose (config self)); cbn -[message_dict];
    rewrite <- ?app_assoc, ?app_nil_r; reflexivity.
Qed.

Lemma dispatch_201_json self method endpoint kw tr response tr1 v :
  exchange server self method endpoint kw tr = (Return response, tr1) →
  status_code response = 201 →
  json_body response = Some v →
  _make_request server self method endpoint kw tr =
  (Return v,
   tr1 ++ logged self method (Config.get_api_url (config self) endpoint) response
       ++ [JsonRead]).
Proof.
  intros Hx Hst Hj. enter Hx. unfold_effects. rewrite Hst, Hj.
  destruct (Config.verbose (config self)); cbn;
    rewrite <- ?app_assoc, ?app_nil_r; reflexivity.
Qed.

Lemma dispatch_201_created self method endpoint kw tr response tr1 :
  exchange server self method endpoint kw tr = (Return response, tr1) →
  status_code response = 201 →
  json_body response = None →
  _make_request server self method endpoint kw tr =
  (Return (message_dict "Created successfully"),
   tr1 ++ logged self method (Config.get_api_url (config self) endpoint) response
       ++ [JsonRead]).
Proof.
  intros Hx Hst Hj. enter Hx. unfold_effects. rewrite Hst, Hj.
  destruct (Config.verbose (config self)); cbn -[message_dict];
    rewrite <- ?app_assoc, ?app_nil_r; reflexivity.
Qed.

Lemma dispatch_204 self method endpoint kw tr response tr1 :
  exchange server self method endpoint kw tr = (Return response, tr1) →
  status_code response = 204 →
  _make_request server self method endpoint kw tr =
  (Return (message_dict "Success"),
   tr1 ++ logged self method (Config.get_api_url (config self) endpoint) response).
Proof.
  intros Hx Hst. enter Hx. unfold_effects. rewrite Hst.
  destruct (Config.verbose (config self)); cbn -[message_dict];
    rewrite ?app_nil_r; reflexivity.
Qed.

Lemma dispatch_error_undecoded self method endpoint kw tr response tr1 :
  exchange server self method endpoint kw tr = (Return response, tr1) →
  is_error_status (status_code response) →
  json_body response = None →
  _make_request server self method endpoint kw tr =
  (Raise (BitingLipAPIError (http_message response)
                            (Some (status_code response)) None),
   tr1 ++ logged self method (Config.get_api_url (config self) endpoint) response
       ++ [JsonRead]).
Proof.
  intros Hx (H200 & H201 & H204) Hj. enter Hx. unfold_effects.
  apply Z.eqb_neq in H200, H201, H204. rewrite H200, H201, H204, Hj.
  destruct (Config.verbose (config self)); cbn -[http_message];
    rewrite <- ?app_assoc, ?app_nil_r; reflexivity.
Qed.

Lemma dispatch_error_object self method endpoint kw tr response tr1 d :
  exchange server self method endpoint kw tr = (Return response, tr1) →
  is_error_status (status_code response) →
  json_body response = Some (PDict d) →
  _make_request server self method endpoint kw tr =
  (Raise (BitingLipAPIError (default (http_message response) (d !! "detail"%string))
                            (Some (status_code response)) (Some (PDict d))),
   tr1 ++ logged self method (Config.get_api_url (config self) endpoint) response
       ++ [JsonRead]).
Proof.
  intros Hx (H200 & H201 & H204) Hj. enter Hx. unfold_effects.
  apply Z.eqb_neq in H200, H201, H204. rewrite H200, H201, H204, Hj.
  destruct (Config.verbose (config self)); cbn -[http_message];
    rewrite <- ?app_assoc, ?app_nil_r; reflexivity.
Qed.

Lemma dispatch_error_not_object self method endpoint kw tr response tr1 v :
  exchange server self method endpoint kw tr = (Return response, tr1) →
  is_error_status (status_code response) →
  json_body response = Some v →
  (∀ d, v ≠ PDict d) →
  _make_request server self method endpoint kw tr =
  (Raise (AttributeError ("'" +:+ type_name v +:+ "' object has no attribute 'get'")),
   tr1 ++ logged self method (Config.get_api_url (config self) endpoint) response
       ++ [JsonRead]).
Proof.
  intros Hx (H200 & H201 & H204) Hj Hv. enter Hx. unfold_effects.
  apply Z.eqb_neq in H200, H201, H204. rewrite H200, H201, H204, Hj.
  destruct v as [| | | | |d]; try (by destruct (Hv d));
    destruct (Config.verbose (config self)); cbn;
    rewrite <- ?app_assoc, ?app_nil_r; reflexivity.
Qed.

End DispatcherFacts.

(** ** The dispatcher as a whole *)

Section DispatcherSummary.

Import Client.

Variable server : nat → Request → reply.

Lemma attempts_logged self method url response :
  attempts (logged self method url response) = 0%nat.
Proof. unfold logged. by destruct (Config.verbose (config self)). Qed.

Lemma body_reads_logged self method url response :
  body_reads (logged self method url response) = 0%nat.
Proof. unfold logged. by destruct (Config.verbose (config self)). Qed.

Lemma attempts_replicate_sent (k : nat) (rq : Request) :
  attempts (replicate k (Sent rq)) = k.
Proof. induction k as [|k IH]; [reflexivity|]. cbn. by rewrite IH. Qed.

Lemma body_reads_replicate_sent (k : nat) (rq : Request) :
  body_reads (replicate k (Sent rq)) = 0%nat.
Proof. induction k as [|k IH]; [reflexivity|]. exact IH. Qed.

Lemma status_cases (status : Z) :
  status = 200 ∨ status = 201 ∨ status = 204 ∨ is_error_status status.
Proof. unfold is_error_status. lia. Qed.

Lemma not_object_cases (v : pyval) : (∃ d, v = PDict d) ∨ (∀ d, v ≠ PDict d).
Proof. destruct v; (by left; eexists) || (by right). Qed.

(** What a call comes to, by the outcome of its exchange: after a
    [RequestException] the [BitingLipAPIError] without status, after the
    [ValueError] of a refusal that [ValueError]; after a response a payload
    (status 200, 201, 204), or, for any other status, a
    [BitingLipAPIError] with that status or the [AttributeError] of
    [error_data.get].  Nothing is put on the wire after the exchange. *)
Lemma dispatch_summary self method endpoint kw tr :
  ∃ extra,
    (_make_request server self method endpoint kw tr).2 =
    (exchange server self method endpoint kw tr).2 ++ extra ∧
    attempts extra = 0%nat ∧
    match (exchange server self method endpoint kw tr).1 with
    | Raise e =>
        (∃ cls msg,
            e = RequestException cls msg ∧
            (_make_request server self method endpoint kw tr).1 =
            Raise (BitingLipAPIError (PStr ("Request failed: " +:+ msg)) None None)) ∨
        (∃ msg,
            e = ValueError msg ∧
            (_make_request server self method endpoint kw tr).1 = Raise (ValueError msg))
    | Return response =>
        match (_make_request server self method endpoint kw tr).1 with
        | Return _ => ¬ is_error_status (status_code response)
        | Raise (BitingLipAPIError _ status _) =>
            status = Some (status_code response) ∧
            is_error_status (status_code response)
        | Raise (AttributeError _) =>
            is_error_status (status_code response) ∧
            ∃ v, json_body response = Some v ∧ ∀ d, v ≠ PDict d
        | Raise _ => False
        end
    end.
Proof.
  destruct (exchange server self method endpoint kw tr) as [[response|e] tr1] eqn:Hx.
  - cbn [fst snd].
    destruct (status_cases (status_code response)) as [Hs|[Hs|[Hs|Hs]]].
    + destruct (json_body response) as [v|] eqn:Hj.
      * rewrite (dispatch_200_json server _ _ _ _ _ _ _ _ Hx Hs Hj). cbn [fst snd].
        eexists; split; [reflexivity|]. rewrite attempts_app, attempts_logged.
        split; [reflexivity|]. unfold is_error_status. lia.
      * rewrite (dispatch_200_text server _ _ _ _ _ _ _ Hx Hs Hj). cbn [fst snd].
        eexists; split; [reflexivity|]. rewrite attempts_app, attempts_logged.
        split; [reflexivity|]. unfold is_error_status. lia.
    + destruct (json_body response) as [v|] eqn:Hj.
      * rewrite (dispatch_201_json server _ _ _ _ _ _ _ _ Hx Hs Hj). cbn [fst snd].
        eexists; split; [reflexivity|]. rewrite attempts_app, attempts_logged.
        split; [reflexivity|]. unfold is_error_status. lia.
      * rewrite (dispatch_201_created server _ _ _ _ _ _ _ Hx Hs Hj). cbn [fst snd].
        eexists; split; [reflexivity|]. rewrite attempts_app, attempts_logged.
        split; [reflexivity|]. unfold is_error_status. lia.
    + rewrite (dispatch_204 server _ _ _ _ _ _ _ Hx Hs). cbn [fst snd].
      eexists; split; [reflexivity|]. rewrite attempts_logged.
      split; [reflexivity|]. unfold is_error_status. lia.
    + destruct (json_body response) as [v|] eqn:Hj.
      * destruct (not_object_cases v) as [[d ->]|Hv].
        -- rewrite (dispatch_error_object server _ _ _ _ _ _ _ _ Hx Hs Hj).
           cbn [fst snd]. eexists; split; [reflexivity|].
           rewrite attempts_app, attempts_logged. done.
        -- rewrite (dispatch_error_not_object server _ _ _ _ _ _ _ _ Hx Hs Hj Hv).
           cbn [fst snd]. eexists; split; [reflexivity|].
           rewrite attempts_app, attempts_logged. eauto.
      * rewrite (dispatch_error_undecoded server _ _ _ _ _ _ _ Hx Hs Hj).
        cbn [fst snd]. eexists; split; [reflexivity|].
        rewrite attempts_app, attempts_logged. done.
  - cbn [fst snd]. exists [].
    destruct (exchange_raises server _ _ _ _ _ _ _ Hx) as [(cls & msg & ->)|(msg & ->)].
    + rewrite (dispatch_request_exception server _ _ _ _ _ _ _ _ Hx). cbn [fst snd].
      rewrite app_nil_r. split; [reflexivity|]. split; [reflexivity|].
      left. by exists cls, msg.
    + rewrite (dispatch_value_error server _ _ _ _ _ _ _ Hx). cbn [fst snd].
      rewrite app_nil_r. split; [reflexivity|]. split; [reflexivity|].
      right. by exists msg.
Qed.

(** The exchange and [session.request] are the same call. *)
Lemma exchange_is_request self method endpoint kw :
  exchange server self method endpoint kw =
  Requests.request server (session self) method
    (Config.get_api_url (config self) endpoint) (timeout self)
    (params kw) (json kw).
Proof. reflexivity. Qed.

(** A call whose request is not refused puts it on the wire first. *)
Lemma dispatch_sends self method endpoint kw tr :
  Requests.refused (server (attempts tr) (request_of self method endpoint kw)) = false →
  ∃ more,
    (_make_request server self method endpoint kw tr).2 =
    tr ++ Sent (request_of self method endpoint kw) :: more.
Proof.
  intros Hsent.
  destruct (dispatch_summary self method endpoint kw tr) as (extra & -> & _).
  destruct (request_sent server (session self) method
              (Config.get_api_url (config self) endpoint) (timeout self)
              (params kw) (json kw) tr Hsent) as [more Hmore].
  unfold exchange. rewrite Hmore.
  exists (more ++ extra). by rewrite <- app_assoc.
Qed.

(** The exchange in terms of the adapter, for a response that is not
    followed and for an exception. *)
Lemma exchange_returns self method endpoint kw tr tr1 response :
  Requests.send server (Requests.max_retries (session self))
    (request_of self method endpoint kw) tr = (Return response, tr1) →
  Requests.get_redirect_target response = None →
  exchange server self method endpoint kw tr = (Return response, tr1).
Proof. intros Hsend Hr. by apply request_returns. Qed.

Lemma exchange_passes self method endpoint kw tr tr1 e :
  Requests.send server (Requests.max_retries (session self))
    (request_of self method endpoint kw) tr = (Raise e, tr1) →
  exchange server self method endpoint kw tr = (Raise e, tr1).
Proof. intros Hsend. by apply request_passes. Qed.

(** The number of attempts of a call is the one of its exchange. *)
Lemma dispatch_attempts self method endpoint kw tr :
  attempts (_make_request server self method endpoint kw tr).2 =
  attempts (exchange server self method endpoint kw tr).2.
Proof.
  destruct (dispatch_summary self method endpoint kw tr) as (extra & -> & H0 & _).
  rewrite attempts_app, H0. lia.
Qed.

End DispatcherSummary.

(** ** The retry policy of the client *)

Section RetryPolicy.

Import Client.

(** The status codes the client's [Retry] forces a retry on. *)
Lemma client_retry_shape (config : Config.CLIConfig) :
  Requests.max_retries (session (__init__ config)) =
  Urllib3.mkRetry (Config.api_retries config) [429; 500; 502; 503; 504]
                  Urllib3.DEFAULT_ALLOWED_METHODS 1 false true.
Proof. reflexivity. Qed.

Lemma method_retryable_iff (z : Z) (fl : list Z) (bf : Z) (ros rr : bool)
    (method : string) :
  Urllib3._is_method_retryable
    (Urllib3.mkRetry z fl Urllib3.DEFAULT_ALLOWED_METHODS bf ros rr) method = true
  ↔ PyStr.upper method ∈ Urllib3.DEFAULT_ALLOWED_METHODS.
Proof.
  unfold Urllib3._is_method_retryable. cbn [Urllib3.allowed_methods].
  change (Urllib3.nonempty Urllib3.DEFAULT_ALLOWED_METHODS) with true.
  cbn [andb]. destruct (bool_decide_reflect
    (PyStr.upper method ∈ Urllib3.DEFAULT_ALLOWED_METHODS)) as [Hin|Hout];
    cbn; split; done.
Qed.

(** A forced status is retried for a retryable method... *)
Lemma is_retry_forced (z : Z) (bf : Z) (ros rr ra : bool) (method : string)
    (status : Z) :
  PyStr.upper method ∈ Urllib3.DEFAULT_ALLOWED_METHODS →
  status ∈ [429; 500; 502; 503; 504] →
  Urllib3.is_retry
    (Urllib3.mkRetry z [429; 500; 502; 503; 504] Urllib3.DEFAULT_ALLOWED_METHODS
                     bf ros rr) method status ra = true.
Proof.
  intros Hm Hs. unfold Urllib3.is_retry.
  rewrite (proj2 (method_retryable_iff z _ bf ros rr method) Hm).
  cbn [negb Urllib3.status_forcelist Urllib3.nonempty andb].
  by rewrite bool_decide_eq_true_2.
Qed.


(** The client errors of the specification are never retried. *)
Lemma is_retry_client_error (z : Z) (am : list string) (bf : Z) (ros rr ra : bool)
    (method : string) (status : Z) :
  status ∈ [400; 401; 403; 404; 409; 422] →
  Urllib3.is_retry (Urllib3.mkRetry z [429; 500; 502; 503; 504] am bf ros rr)
                   method status ra = false.
Proof.
  intros Hs. unfold Urllib3.is_retry.
  destruct (Urllib3._is_method_retryable _ method); [|reflexivity].
  cbn [negb Urllib3.status_forcelist Urllib3.total
       Urllib3.respect_retry_after_header Urllib3.nonempty andb].
  repeat (apply elem_of_cons in Hs as [->|Hs]);
    [..|by apply elem_of_nil in Hs];
    destruct (z =? 0), rr, ra; reflexivity.
Qed.

End RetryPolicy.

(** ** The coercion of integers *)

Section ConfigFacts.

Import Config.

(** A decimal digit, as [pretty] prints it, is read back. *)
Lemma parse_digits_char (d : N) (acc : Z) (s : string) :
  (d < 10)%N →
  parse_digits acc (String (pretty_N_char d) s) = parse_digits (10 * acc + Z.of_N d) s.
Proof.
  intros Hd.
  assert (d = 0 ∨ d = 1 ∨ d = 2 ∨ d = 3 ∨ d = 4 ∨ d = 5 ∨ d = 6 ∨ d = 7 ∨ d = 8 ∨ d = 9)%N
    as Hcases by lia.
  destruct Hcases as [->|[->|[->|[->|[->|[->|[->|[->|[->| ->]]]]]]]]]; reflexivity.
Qed.

Lemma parse_number_char (d : N) (s : string) :
  (d < 10)%N →
  parse_number (String (pretty_N_char d) s) = parse_digits (Z.of_N d) s.
Proof.
  intros Hd.
  assert (d = 0 ∨ d = 1 ∨ d = 2 ∨ d = 3 ∨ d = 4 ∨ d = 5 ∨ d = 6 ∨ d = 7 ∨ d = 8 ∨ d = 9)%N
    as Hcases by lia.
  destruct Hcases as [->|[->|[->|[->|[->|[->|[->|[->|[->| ->]]]]]]]]]; reflexivity.
Qed.

(** The digits of a positive number are read back as the number. *)
Lemma parse_number_pretty (x : N) :
  ∀ s : string, (0 < x)%N →
    parse_number (pretty_N_go x s) = parse_digits (Z.of_N x) s.
Proof.
  induction (N.lt_wf_0 x) as [x _ IH]. intros s Hx.
  rewrite pretty_N_go_step by exact Hx.
  assert (x `mod` 10 < 10)%N as Hd by (apply N.mod_lt; lia).
  assert (Z.of_N x = 10 * Z.of_N (x `div` 10) + Z.of_N (x `mod` 10)) as Hdm.
  { rewrite <- (N2Z.inj_mul 10), <- N2Z.inj_add. f_equal. by apply N.div_mod. }
  destruct (N.eq_dec (x `div` 10) 0) as [Hz|Hnz].
  - rewrite Hz in Hdm |- *. rewrite pretty_N_go_0, parse_number_char by exact Hd.
    by rewrite Hdm.
  - rewrite IH; [|apply N.div_lt; lia|lia].
    rewrite parse_digits_char by exact Hd. by rewrite Hdm.
Qed.

Lemma first_char_pretty (x : N) :
  ∀ s : string, (0 < x)%N →
    ∃ d rest, (d < 10)%N ∧ pretty_N_go x s = String (pretty_N_char d) rest.
Proof.
  induction (N.lt_wf_0 x) as [x _ IH]. intros s Hx.
  rewrite pretty_N_go_step by exact Hx.
  destruct (N.eq_dec (x `div` 10) 0) as [Hz|Hnz].
  - rewrite Hz, pretty_N_go_0. exists (x `mod` 10)%N, s.
    split; [apply N.mod_lt; lia|reflexivity].
  - apply IH; [apply N.div_lt; lia|by apply N.neq_0_lt_0].
Qed.

Lemma last_char_pretty_go (x : N) :
  ∀ (c : ascii) (s : string),
    PyStr.last_char (pretty_N_go x (String c s)) = PyStr.last_char (String c s).
Proof.
  induction (N.lt_wf_0 x) as [x _ IH]. intros c s.
  destruct (N.eq_dec x 0) as [->|Hx]; [by rewrite pretty_N_go_0|].
  rewrite pretty_N_go_step by lia.
  rewrite IH by (apply N.div_lt; lia). reflexivity.
Qed.

Lemma last_char_pretty (x : N) :
  (0 < x)%N →
  ∃ d, (d < 10)%N ∧ PyStr.last_char (pretty_N_go x "") = Some (pretty_N_char d).
Proof.
  intros Hx. rewrite pretty_N_go_step by exact Hx.
  rewrite last_char_pretty_go. exists (x `mod` 10)%N.
  split; [apply N.mod_lt; lia|reflexivity].
Qed.

Lemma digit_not_blank (d : N) : (d < 10)%N → PyStr.mem (pretty_N_char d) blanks = false.
Proof.
  intros Hd.
  assert (d = 0 ∨ d = 1 ∨ d = 2 ∨ d = 3 ∨ d = 4 ∨ d = 5 ∨ d = 6 ∨ d = 7 ∨ d = 8 ∨ d = 9)%N
    as Hcases by lia.
  destruct Hcases as [->|[->|[->|[->|[->|[->|[->|[->|[->| ->]]]]]]]]]; reflexivity.
Qed.

Lemma rstrip_kept (chars s : string) (c : ascii) :
  PyStr.last_char s = Some c → PyStr.mem c chars = false → PyStr.rstrip chars s = s.
Proof.
  induction s as [|a s IH]; [done|]. intros Hlast Hc.
  cbn [PyStr.rstrip]. destruct s as [|b s].
  - cbn in Hlast. injection Hlast as ->. cbn [PyStr.rstrip]. by rewrite Hc.
  - rewrite IH; [reflexivity|exact Hlast|exact Hc].
Qed.

Lemma trim_kept (s rest : string) (a c : ascii) :
  s = String a rest →
  PyStr.mem a blanks = false →
  PyStr.last_char s = Some c → PyStr.mem c blanks = false →
  trim s = s.
Proof.
  intros -> Ha Hlast Hc. unfold trim. cbn [PyStr.lstrip]. rewrite Ha.
  by apply (rstrip_kept _ _ c).
Qed.

Lemma parse_int_unsigned (s rest : string) (d : N) :
  (d < 10)%N →
  trim s = String (pretty_N_char d) rest →
  parse_int s =
  match parse_number (String (pretty_N_char d) rest) with
  | Some n => if n <? 10 ^ int_max_str_digits then Some n else None
  | None => None
  end.
Proof.
  intros Hd Ht. unfold parse_int. rewrite Ht.
  assert (d = 0 ∨ d = 1 ∨ d = 2 ∨ d = 3 ∨ d = 4 ∨ d = 5 ∨ d = 6 ∨ d = 7 ∨ d = 8 ∨ d = 9)%N
    as Hcases by lia.
  destruct Hcases as [->|[->|[->|[->|[->|[->|[->|[->|[->| ->]]]]]]]]]; reflexivity.
Qed.

(** The decimal text of an integer, negative or zero, is read back as
    that integer. *)
Lemma parse_int_pretty (z : Z) :
  - 10 ^ (int_max_str_digits - 1) < z < 10 ^ int_max_str_digits →
  parse_int (pretty z) = Some z.
Proof.
  intros [Hlo Hhi]. destruct z as [|p|p].
  - reflexivity.
  - change (pretty (Z.pos p)) with (pretty_N_go (N.pos p) "").
    destruct (first_char_pretty (N.pos p) "") as (d & rest & Hd & Hfirst); [lia|].
    destruct (last_char_pretty (N.pos p)) as (d' & Hd' & Hlast); [lia|].
    rewrite (parse_int_unsigned _ rest d Hd).
    + rewrite <- Hfirst, parse_number_pretty by lia. cbn [parse_digits].
      change (Z.of_N (N.pos p)) with (Z.pos p).
      by rewrite (proj2 (Z.ltb_lt _ _) Hhi).
    + rewrite <- Hfirst.
      eapply trim_kept; [exact Hfirst|by apply digit_not_blank|exact Hlast|
                         by apply digit_not_blank].
  - change (pretty (Z.neg p)) with ("-" +:+ pretty_N_go (N.pos p) "").
    destruct (last_char_pretty (N.pos p)) as (d' & Hd' & Hlast); [lia|].
    destruct (first_char_pretty (N.pos p) "") as (d & rest & Hd & Hfirst); [lia|].
    assert (trim ("-" +:+ pretty_N_go (N.pos p) "") = "-" +:+ pretty_N_go (N.pos p) "")
      as Htrim.
    { eapply (trim_kept _ _ "-" (pretty_N_char d')); [reflexivity|reflexivity| |
                                                     by apply digit_not_blank].
      rewrite Hfirst in Hlast |- *. exact Hlast. }
    unfold parse_int. rewrite Htrim.
    change ("-" +:+ pretty_N_go (N.pos p) "") with (String "-" (pretty_N_go (N.pos p) "")).
    cbv beta iota. rewrite parse_number_pretty by lia. cbn [parse_digits].
    change (Z.of_N (N.pos p)) with (Z.pos p).
    assert (Z.pos p < 10 ^ (int_max_str_digits - 1)) as Hlt by lia.
    by rewrite (proj2 (Z.ltb_lt _ _) Hlt).
Qed.

End ConfigFacts.

(** * The claims *)

(** C5.  Joining a base URL and a path leaves exactly one separator between
    them: the result is the base without its trailing separators, one
    ["/"], and the path without its leading separators, so that adding
    separators at the end of the base or in front of a (non-empty) path
    does not change the URL; in particular ["http://host:8080"] joined with
    ["/api/models"] and with ["api/models"] gives the same URL,
    ["http://host:8080/api/models"], with or without a trailing separator
    on the base. *)
Theorem C5_join_never_duplicates_separators :
  (∀ (base path : string) t r k q v,
      let joined := Config.get_api_url (Config.mkCLIConfig base t r k q v) path in
      (∃ i j, base = PyStr.rstrip "/" base +:+ PyStr.slashes i ∧
              path = PyStr.slashes j +:+ PyStr.lstrip "/" path) ∧
      PyStr.last_char (PyStr.rstrip "/" base) ≠ Some "/"%char ∧
      PyStr.first_char (PyStr.lstrip "/" path) ≠ Some "/"%char ∧
      joined = if PyStr.truthy path
               then PyStr.rstrip "/" base +:+ "/" +:+ PyStr.lstrip "/" path
               else PyStr.rstrip "/" base) ∧
  (∀ (base : string) (c : ascii) (rest : string) (i j : nat) t r k q v,
      Config.get_api_url (Config.mkCLIConfig (base +:+ PyStr.slashes i) t r k q v)
                         (PyStr.slashes j +:+ String c rest) =
      Config.get_api_url (Config.mkCLIConfig base t r k q v) (String c rest)) ∧
  (∀ t r k q v,
      Config.get_api_url (Config.mkCLIConfig "http://host:8080" t r k q v) "/api/models" =
      "http://host:8080/api/models"%string ∧
      Config.get_api_url (Config.mkCLIConfig "http://host:8080" t r k q v) "api/models" =
      "http://host:8080/api/models"%string ∧
      Config.get_api_url (Config.mkCLIConfig "http://host:8080/" t r k q v) "/api/models" =
      "http://host:8080/api/models"%string ∧
      Config.get_api_url (Config.mkCLIConfig "http://host:8080/" t r k q v) "api/models" =
      "http://host:8080/api/models"%string).
Proof.
  split; [|split].
  - intros base path t r k q v. cbn zeta. repeat split.
    + destruct (rstrip_decompose base) as [i Hi].
      destruct (lstrip_decompose path) as [j Hj]. by exists i, j.
    + apply rstrip_no_trailing_slash.
    + apply lstrip_no_leading_slash.
  - intros base c rest i j t r k q v. unfold Config.get_api_url.
    cbn [Config.api_url].
    by rewrite rstrip_app_slashes, lstrip_slashes_app, truthy_slashes_app.
  - intros t r k q v. by vm_compute.
Qed.




(** C2.  A response whose status is one of 400, 401, 403, 404, 409, 422
    ends the call after that one attempt, whatever the method and the
    number of retries configured. *)
Theorem C2_client_errors_not_retried (server : nat → Request → reply)
    (config : Config.CLIConfig) (method endpoint : string) (kw : Client.kwargs)
    (tr : trace) (response : Response) :
  let self := Client.__init__ config in
  server (attempts tr) (Client.request_of self method endpoint kw) = Answers response →
  status_code response ∈ [400; 401; 403; 404; 409; 422] →
  attempts (Client._make_request server self method endpoint kw tr).2
  = (attempts tr + 1)%nat ∧
  Client.exchange server self method endpoint kw tr =
  (Return response, tr ++ [Sent (Client.request_of self method endpoint kw)]).
Proof.
  intros self Hs Hst.
  assert (Client.exchange server self method endpoint kw tr =
          (Return response, tr ++ [Sent (Client.request_of self method endpoint kw)]))
    as Hx.
  { apply exchange_returns.
    - apply send_once; [exact Hs|].
      subst self. rewrite client_retry_shape. by apply is_retry_client_error.
    - apply no_redirect_status. intros Hin. revert Hst Hin.
      unfold Requests.REDIRECT_STATI. rewrite !elem_of_cons, !elem_of_nil. lia. }
  split; [|exact Hx].
  rewrite dispatch_attempts, Hx. cbn [snd]. rewrite attempts_sent. lia.
Qed.

Lemma C2_client_errors_not_retried_witness :
  attempts
    (Client._make_request (Samples.always Samples.model_not_found)
       Samples.default_client "GET" "/api/models/m1" Client.no_kwargs []).2 = 1%nat.
Proof.
  refine (proj1 (C2_client_errors_not_retried
    (Samples.always Samples.model_not_found) Config.defaults
    "GET" "/api/models/m1" Client.no_kwargs [] Samples.model_not_found _ _)).
  - reflexivity.
  - compute_done.
Defined.



(** C4, at a status-500 response whose body is the JSON array [[]]: the
    call ends with the [AttributeError] of [error_data.get], not with a
    [BitingLipAPIError]. *)
Theorem C4_array_error_body_raises_AttributeError :
  (run (Client.get_model (Samples.always Samples.array_body_500)
          (Client.__init__ (Samples.config_with_retries 0)) "m1")).1
  = Raise (AttributeError "'list' object has no attribute 'get'").
Proof. vm_compute. reflexivity. Qed.

(** The error path of the dispatcher where it works: for a status other
    than 200, 201 and 204 and a body that is not JSON or is a JSON object,
    the call raises the [BitingLipAPIError] with that status, the decoded
    body, and as message the [detail] entry when there is one and
    ["HTTP <code>: <reason>"] otherwise. *)
Lemma error_response_becomes_api_error (server : nat → Request → reply)
    (self : Client.BitingLipClient) (method endpoint : string) (kw : Client.kwargs)
    (tr tr1 : trace) (response : Response) :
  Client.exchange server self method endpoint kw tr = (Return response, tr1) →
  Client.is_error_status (status_code response) →
  (json_body response = None →
   (Client._make_request server self method endpoint kw tr).1 =
   Raise (BitingLipAPIError (Client.http_message response)
                            (Some (status_code response)) None)) ∧
  (∀ d, json_body response = Some (PDict d) →
        (Client._make_request server self method endpoint kw tr).1 =
        Raise (BitingLipAPIError
                 (default (Client.http_message response) (d !! "detail"%string))
                 (Some (status_code response)) (Some (PDict d)))).
Proof.
  intros Hx Herr. split.
  - intros Hj. by rewrite (dispatch_error_undecoded server _ _ _ _ _ _ _ Hx Herr Hj).
  - intros d Hj. by rewrite (dispatch_error_object server _ _ _ _ _ _ _ _ Hx Herr Hj).
Qed.

(** The 404 answer with body [{"detail": "model not found"}]. *)
Example model_not_found_error :
  (run (Client.get_model (Samples.always Samples.model_not_found)
          Samples.default_client "m1")).1
  = Raise (BitingLipAPIError (PStr "model not found") (Some 404)
             (Some (PDict {[ "detail"%string := PStr "model not found" ]}))).
Proof. vm_compute. reflexivity. Qed.

(** C6.  When the response of the exchange has status 200, the call returns
    the decoded document if the body is JSON, and otherwise the dictionary
    [{"message": <text of the body>}]; in neither case does it raise. *)
Theorem C6_ok_payload (server : nat → Request → reply)
    (self : Client.BitingLipClient) (method endpoint : string) (kw : Client.kwargs)
    (tr tr1 : trace) (response : Response) :
  Requests.request server (Client.session self) method
    (Config.get_api_url (Client.config self) endpoint) (Client.timeout self)
    (Client.params kw) (Client.json kw) tr = (Return response, tr1) →
  status_code response = 200 →
  (Client._make_request server self method endpoint kw tr).1 =
  match json_body response with
  | Some v => Return v
  | None => Return (PDict {[ "message"%string := PStr (text response) ]})
  end.
Proof.
  intros Hreq Hst. rewrite <- exchange_is_request in Hreq.
  destruct (json_body response) as [v|] eqn:Hj.
  - by rewrite (dispatch_200_json server _ _ _ _ _ _ _ _ Hreq Hst Hj).
  - by rewrite (dispatch_200_text server _ _ _ _ _ _ _ Hreq Hst Hj).
Qed.

Lemma C6_ok_payload_witness :
  (Client._make_request
     (Samples.always {| status_code := 200; reason := "OK"; text := "pong";
                        json_body := None; retry_after := None; redirect := None |})
     Samples.default_client "GET" "/api/health" Client.no_kwargs []).1 =
  Return (PDict {[ "message"%string := PStr "pong" ]}).
Proof.
  refine (C6_ok_payload
    (Samples.always {| status_code := 200; reason := "OK"; text := "pong";
                       json_body := None; retry_after := None; redirect := None |})
    Samples.default_client "GET" "/api/health" Client.no_kwargs []
    [Sent (Client.request_of Samples.default_client "GET" "/api/health"
                             Client.no_kwargs)]
    {| status_code := 200; reason := "OK"; text := "pong";
       json_body := None; retry_after := None; redirect := None |} _ _).
  - vm_compute. reflexivity.
  - reflexivity.
Defined.

(** C7.  When the response of the exchange has status 204, the call returns
    [{"message": "Success"}] and the body is not read (neither
    [response.json()] nor [response.text] is evaluated); when it has status
    201 and a body that is not JSON, the call returns
    [{"message": "Created successfully"}]. *)
Theorem C7_no_content_and_created (server : nat → Request → reply)
    (self : Client.BitingLipClient) (method endpoint : string) (kw : Client.kwargs)
    (tr tr1 : trace) (response : Response) :
  Requests.request server (Client.session self) method
    (Config.get_api_url (Client.config self) endpoint) (Client.timeout self)
    (Client.params kw) (Client.json kw) tr = (Return response, tr1) →
  (status_code response = 204 →
   (Client._make_request server self method endpoint kw tr).1 =
   Return (PDict {[ "message"%string := PStr "Success" ]}) ∧
   body_reads (Client._make_request server self method endpoint kw tr).2 =
   body_reads tr) ∧
  (status_code response = 201 → json_body response = None →
   (Client._make_request server self method endpoint kw tr).1 =
   Return (PDict {[ "message"%string := PStr "Created successfully" ]})).
Proof.
  intros Hreq. rewrite <- exchange_is_request in Hreq. split.
  - intros Hst. rewrite (dispatch_204 server _ _ _ _ _ _ _ Hreq Hst).
    split; [reflexivity|]. cbn [snd].
    rewrite body_reads_app, body_reads_logged.
    destruct (request_trace server (Client.session self) method
                (Config.get_api_url (Client.config self) endpoint)
                (Client.timeout self) (Client.params kw) (Client.json kw) tr)
      as (new & Hk & Hnew).
    unfold Client.exchange in Hreq. rewrite Hreq in Hk. cbn [snd] in Hk.
    rewrite Hk, body_reads_app, (is_sent_body_reads new Hnew). lia.
  - intros Hst Hj. by rewrite (dispatch_201_created server _ _ _ _ _ _ _ Hreq Hst Hj).
Qed.

Lemma C7_no_content_and_created_witness :
  (Client._make_request (Samples.always (Samples.bare 204 "No Content"))
     Samples.default_client "DELETE" "/api/models/m1" Client.no_kwargs []).1 =
  Return (PDict {[ "message"%string := PStr "Success" ]}) ∧
  body_reads
    (Client._make_request (Samples.always (Samples.bare 204 "No Content"))
       Samples.default_client "DELETE" "/api/models/m1" Client.no_kwargs []).2 =
  body_reads [].
Proof.
  refine (proj1 (C7_no_content_and_created
    (Samples.always (Samples.bare 204 "No Content"))
    Samples.default_client "DELETE" "/api/models/m1" Client.no_kwargs []
    [Sent (Client.request_of Samples.default_client "DELETE" "/api/models/m1"
                             Client.no_kwargs)]
    (Samples.bare 204 "No Content") _) _).
  - vm_compute. reflexivity.
  - reflexivity.
Defined.

(** C8, as stated, fails: registering a worker whose name is empty raises
    nothing and puts the POST on the wire, through the facade and through
    the command alike. *)
Lemma C8_empty_name_is_sent :
  let server := Samples.always (Samples.bare 201 "Created") in
  let worker_data : gmap string pyval :=
    {[ "name" := PStr ""; "type" := PStr "general"; "max_load" := PInt 1;
       "status" := PStr "available" ]}%string in
  let rq := Client.request_of Samples.default_client "POST" "/api/workers"
                              (Client.with_json (PDict worker_data)) in
  let facade := run (Client.register_worker server Samples.default_client
                       (PDict worker_data)) in
  let command := run (Workers.register_worker server (λ _, None) Config.defaults
                        "" "general" None None 1 None None) in
  facade = (Return (message_dict "Created successfully"), [Sent rq; JsonRead]) ∧
  command = (Return tt,
             [Sent rq; JsonRead;
              Printed (SuccessMessage "Worker '' registered successfully");
              SessionClosed]) ∧
  ¬ (∃ e, facade.1 = Raise e ∧ attempts facade.2 = 0%nat) ∧
  ¬ (∃ e, command.1 = Raise e ∧ attempts command.2 = 0%nat).
Proof.
  vm_compute. repeat split; try reflexivity; intros (e & He & _); discriminate.
Qed.

(** C8 (as the code has it).  No facade validates its arguments: every
    facade method, whatever identifier or document it is given, hands its
    request to requests, so that the request is put on the wire whenever
    requests does not refuse to send it and Python binds the arguments of
    the call (no key of [**params] repeats a positional parameter); and
    the [register] command, for every name (the empty one included) and no
    JSON option, posts the worker document it built to [/api/workers] and
    returns without raising. *)
Theorem C8_facades_send_unvalidated (server : nat → Request → reply)
    (self : Client.BitingLipClient) (f : Client.facade) (tr : trace)
    (json_loads : string → option pyval) (config : Config.CLIConfig)
    (name worker_type : string) (max_load : Z) :
  (∀ rq, Requests.refused (server (attempts tr) rq) = false) →
  Client.binds f = true →
  (∃ method endpoint kw more,
      (Client.call server self f tr).2 =
      tr ++ Sent (Client.request_of self method endpoint kw) :: more) ∧
  (∃ more,
      Workers.register_worker server json_loads config name worker_type
                              None None max_load None None tr =
      (Return tt,
       tr ++ Sent (Client.request_of (Client.__init__ config) "POST" "/api/workers"
                     (Client.with_json
                        (PDict {[ "name" := PStr name;
                                  "type" := PStr worker_type;
                                  "max_load" := PInt max_load;
                                  "status" := PStr "available" ]}%string)))
          :: more)).
Proof.
  intros Hsent Hbinds. split.
  - destruct f; cbn [Client.call Client.binds] in *;
      try (apply bool_decide_eq_true_1 in Hbinds;
           try unfold Client.list_models; try unfold Client.list_workers;
           try unfold Client.list_tasks; try unfold Client.download_model;
           unfold Client.bind_params; rewrite Hbinds);
      do 3 eexists; apply dispatch_sends, Hsent.
  - unfold Workers.register_worker, Workers.register_worker_body,
      Workers.send_registration, Client.with_client, try_finally, try_except.
    cbn [Workers.given_str Workers.given_int Workers.set_if].
    unfold mbind at 1. unfold M_bind at 1.
    set (data := PDict _).
    destruct (dispatch_sends server (Client.__init__ config) "POST" "/api/workers"
                (Client.with_json data) tr (Hsent _)) as [more Hmore].
    change (Client._make_request server (Client.__init__ config) "POST"
              "/api/workers" (Client.with_json data))
      with (Client.register_worker server (Client.__init__ config) data) in Hmore.
    destruct (Client.register_worker server (Client.__init__ config) data tr)
      as [[v|e] tr1]; cbn [snd] in Hmore; subst tr1.
    + unfold Workers.success_message, Workers.echo_json, Requests.close, emit,
        mbind, M_bind, mret, M_ret.
      destruct (Config.verbose config); cbn; rewrite <- ?app_assoc; cbn;
        eexists; reflexivity.
    + unfold Requests.close, Workers.handle_api_error, emit.
      destruct (is_BitingLipAPIError e); cbn; rewrite <- ?app_assoc; cbn;
        eexists; reflexivity.
Qed.

(** Deleting the model whose identifier is empty: the DELETE goes to
    [/api/models/]. *)
Lemma C8_facades_send_unvalidated_witness :
  ∃ method endpoint kw more,
    (Client.call (Samples.always (Samples.bare 204 "No Content"))
       Samples.default_client (Client.DeleteModel "") []).2 =
    [] ++ Sent (Client.request_of Samples.default_client method endpoint kw) :: more.
Proof.
  refine (proj1 (C8_facades_send_unvalidated
    (Samples.always (Samples.bare 204 "No Content")) Samples.default_client
    (Client.DeleteModel "") [] (λ _, None) Config.defaults "" "general" 1 _ _)).
  - intros rq. reflexivity.
  - reflexivity.
Defined.

(** C9, as stated, fails: a base URL that is no URL, a negative timeout and
    a negative number of retries are resolved into a configuration. *)
Lemma C9_invalid_values_are_accepted :
  Config.cli
    {| Config.flag_api_url := Some "not a url";
       Config.flag_timeout := Some (-5);
       Config.flag_verbose := false;
       Config.flag_quiet := false;
       Config.flag_api_key := None |}
    {[ "BITINGLIP_API_RETRIES" := "-1" ]}%string
  = Return {| Config.api_url := "not a url";
              Config.api_timeout := -5;
              Config.api_retries := -1;
              Config.api_key := None;
              Config.quiet := false;
              Config.verbose := false |} ∧
  Config.CLIConfig_new
    {[ "BITINGLIP_API_URL" := "::"; "BITINGLIP_API_TIMEOUT" := "0";
       "BITINGLIP_API_RETRIES" := "0" ]}%string
  = Return {| Config.api_url := "::";
              Config.api_timeout := 0;
              Config.api_retries := 0;
              Config.api_key := None;
              Config.quiet := false;
              Config.verbose := false |}.
Proof. vm_compute. split; reflexivity. Qed.

(** C9 (as the code has it).  Configuration resolution checks neither the
    syntax of the base URL nor the sign of the timeout and of the number of
    retries: a non-empty [--api-url] and a non-zero [--timeout] are stored
    as given (an empty or zero one leaves the value found before), the
    value of [BITINGLIP_API_URL] is stored as given, and whatever pydantic
    reads as an integer from [BITINGLIP_API_TIMEOUT] and
    [BITINGLIP_API_RETRIES] is stored, the decimal text of every integer,
    negative or zero, being read as that integer; with no option and no
    environment value the configuration has base URL
    ["http://localhost:8080"], timeout 30 and 3 retries. *)
Theorem C9_resolution_without_validation :
  (∀ (c : ascii) (rest : string) (t : Z) (v q : bool),
      Config.cli
        {| Config.flag_api_url := Some (String c rest);
           Config.flag_timeout := Some t;
           Config.flag_verbose := v;
           Config.flag_quiet := q;
           Config.flag_api_key := None |} ∅
      = Return {| Config.api_url := String c rest;
                  Config.api_timeout := if t =? 0 then 30 else t;
                  Config.api_retries := 3;
                  Config.api_key := None;
                  Config.quiet := q;
                  Config.verbose := v |}) ∧
  (∀ raw : string,
      Config.CLIConfig_new {[ "BITINGLIP_API_URL"%string := raw ]} =
      Return {| Config.api_url := raw; Config.api_timeout := 30;
                Config.api_retries := 3; Config.api_key := None;
                Config.quiet := false; Config.verbose := false |}) ∧
  (∀ (raw : string) (t : Z),
      Config.parse_int raw = Some t →
      Config.CLIConfig_new {[ "BITINGLIP_API_TIMEOUT"%string := raw ]} =
      Return {| Config.api_url := "http://localhost:8080"; Config.api_timeout := t;
                Config.api_retries := 3; Config.api_key := None;
                Config.quiet := false; Config.verbose := false |}) ∧
  (∀ (raw : string) (r : Z),
      Config.parse_int raw = Some r →
      Config.CLIConfig_new {[ "BITINGLIP_API_RETRIES"%string := raw ]} =
      Return {| Config.api_url := "http://localhost:8080"; Config.api_timeout := 30;
                Config.api_retries := r; Config.api_key := None;
                Config.quiet := false; Config.verbose := false |}) ∧
  (∀ z : Z,
      - 10 ^ (Config.int_max_str_digits - 1) < z < 10 ^ Config.int_max_str_digits →
      Config.parse_int (pretty z) = Some z) ∧
  Config.cli Config.no_flags ∅ =
  Return {| Config.api_url := "http://localhost:8080"; Config.api_timeout := 30;
            Config.api_retries := 3; Config.api_key := None;
            Config.quiet := false; Config.verbose := false |}.
Proof.
  split; [|split; [|split; [|split; [|split]]]].
  - intros c rest t v q. unfold Config.cli. cbn.
    destruct (t =? 0), q, v; reflexivity.
  - intros raw. reflexivity.
  - intros raw t Ht. unfold Config.CLIConfig_new.
    set (env := {[ "BITINGLIP_API_TIMEOUT"%string := raw ]} : gmap string string).
    assert (Config.env_field env "API_TIMEOUT" Config.parse_int
              Config.default_api_timeout = Return t) as ->.
    { unfold Config.env_field.
      assert (env !! ("BITINGLIP_" +:+ "API_TIMEOUT")%string = Some raw) as ->
        by reflexivity.
      by rewrite Ht. }
    reflexivity.
  - intros raw r Hr. unfold Config.CLIConfig_new.
    set (env := {[ "BITINGLIP_API_RETRIES"%string := raw ]} : gmap string string).
    assert (Config.env_field env "API_RETRIES" Config.parse_int
              Config.default_api_retries = Return r) as ->.
    { unfold Config.env_field.
      assert (env !! ("BITINGLIP_" +:+ "API_RETRIES")%string = Some raw) as ->
        by reflexivity.
      by rewrite Hr. }
    reflexivity.
  - apply parse_int_pretty.
  - reflexivity.
Qed.

(** The timeout [-5] of the environment is stored. *)
Lemma C9_resolution_without_validation_witness :
  Config.CLIConfig_new {[ "BITINGLIP_API_TIMEOUT"%string := "-5"%string ]} =
  Return {| Config.api_url := "http://localhost:8080"; Config.api_timeout := -5;
            Config.api_retries := 3; Config.api_key := None;
            Config.quiet := false; Config.verbose := false |}.
Proof.
  refine (proj1 (proj2 (proj2 C9_resolution_without_validation)) "-5"%string (-5) _).
  vm_compute. reflexivity.
Defined.

(** C10.  When a call ends with a [BitingLipAPIError], its [status_code]
    and [response] are both [None] exactly when [session.request] raised,
    and when [session.request] returned a response the [status_code] is
    the one of that response. *)
Theorem C10_api_error_fields (server : nat → Request → reply)
    (self : Client.BitingLipClient) (method endpoint : string) (kw : Client.kwargs)
    (tr tr2 : trace) (message : pyval) (status : option Z) (body : option pyval) :
  Client._make_request server self method endpoint kw tr =
  (Raise (BitingLipAPIError message status body), tr2) →
  ((status = None ∧ body = None) ↔
   ∃ e tr1,
     Requests.request server (Client.session self) method
       (Config.get_api_url (Client.config self) endpoint) (Client.timeout self)
       (Client.params kw) (Client.json kw) tr = (Raise e, tr1)) ∧
  (∀ response tr1,
      Requests.request server (Client.session self) method
        (Config.get_api_url (Client.config self) endpoint) (Client.timeout self)
        (Client.params kw) (Client.json kw) tr = (Return response, tr1) →
      status = Some (status_code response)).
Proof.
  intros Hout. rewrite <- exchange_is_request.
  destruct (dispatch_summary server self method endpoint kw tr)
    as (extra & _ & _ & Hcase).
  rewrite Hout in Hcase. cbn [fst] in Hcase.
  destruct (Client.exchange server self method endpoint kw tr) as [[response|e] tr1].
  - cbn [fst] in Hcase. destruct Hcase as [-> _]. split.
    + split; [intros [[=] _]|intros (e & t & [=])].
    + by intros r t [= -> _].
  - cbn [fst] in Hcase.
    destruct Hcase as [(cls & msg & _ & [= _ -> ->])|(msg & _ & [=])]. split.
    + split; [eauto|done].
    + intros r t [=].
Qed.

Lemma C10_api_error_fields_witness :
  Some 404 = Some (status_code Samples.model_not_found).
Proof.
  refine (proj2 (C10_api_error_fields (Samples.always Samples.model_not_found)
    Samples.default_client "GET" "/api/models/m1" Client.no_kwargs []
    [Sent (Client.request_of Samples.default_client "GET" "/api/models/m1"
                             Client.no_kwargs); JsonRead]
    (PStr "model not found") (Some 404)
    (Some (PDict {[ "detail"%string := PStr "model not found" ]})) _)
    Samples.model_not_found
    [Sent (Client.request_of Samples.default_client "GET" "/api/models/m1"
                             Client.no_kwargs)] _).
  - vm_compute. reflexivity.
  - vm_compute. reflexivity.
Defined.

(** * Further properties of the client layer *)

(** ** The adapter: recovery, failures, exhausted budgets *)

Section MoreAdapterFacts.

Variable server : nat → Request → reply.

(** After [k] answers that [is_retry] selects, with [k] within the budget,
    an answer it does not select is returned, at attempt [k + 1]. *)
Lemma send_recovers (fl : list Z) (am : list string) (bf : Z) (ros rr : bool)
    (rq : Request) (final : Response) (k : nat) :
  ∀ (n : Z) (tr : trace),
    (Z.of_nat k <= n) →
    (∀ i, (i < k)%nat →
          ∃ response, server (attempts tr + i)%nat rq = Answers response ∧
            Urllib3.get_retry_after response = Return tt ∧
            ∀ z, Urllib3.is_retry (Urllib3.mkRetry z fl am bf ros rr) (rq_method rq)
                   (status_code response) (has_retry_after response) = true) →
    server (attempts tr + k)%nat rq = Answers final →
    (∀ z, Urllib3.is_retry (Urllib3.mkRetry z fl am bf ros rr) (rq_method rq)
            (status_code final) (has_retry_after final) = false) →
    Requests.send server (Urllib3.mkRetry n fl am bf ros rr) rq tr =
    (Return final, tr ++ replicate (S k) (Sent rq)).
Proof.
  induction k as [|k IH]; intros n tr Hn Hbefore Hfinal Hstop.
  - rewrite Nat.add_0_r in Hfinal. by apply send_once.
  - destruct (Hbefore 0%nat) as (response & Hs & Hra & Hr); [lia|].
    rewrite Nat.add_0_r in Hs.
    rewrite send_unfold, urlopen_unfold. unfold Urllib3.after_attempt.
    rewrite Hs, Hr. unfold Urllib3.increment, Urllib3.is_exhausted, Urllib3.sleep.
    cbn [Urllib3.total Urllib3.raise_on_status Urllib3.status_forcelist
         Urllib3.allowed_methods Urllib3.backoff_factor
         Urllib3.respect_retry_after_header].
    rewrite Hra.
    assert (Requests.send server (Urllib3.mkRetry (n - 1) fl am bf ros rr) rq
              (tr ++ [Sent rq]) =
            (Return final, (tr ++ [Sent rq]) ++ replicate (S k) (Sent rq))) as Hsend.
    { apply IH; [lia| |by rewrite attempts_sent, Nat.add_succ_comm|exact Hstop].
      intros i Hi. destruct (Hbefore (S i)) as (r & Hsi & Hrai & Hri); [lia|].
      exists r. split; [|by split].
      by rewrite attempts_sent, Nat.add_succ_comm. }
    rewrite send_unfold, <- app_assoc in Hsend.
    destruct (Z.eqb_spec (n - 1) 0) as [Hz|Hz];
      [|destruct (Z.ltb_spec (n - 1) 0) as [Hneg|Hpos]; [lia|]];
      destruct rr; exact Hsend.
Qed.

(** The response [urlopen] returns is one the gateway gave. *)
Lemma after_attempt_returns (retries : Urllib3.Retry) (method : string) (rep : reply)
    (response : Response) :
  Urllib3.after_attempt retries method rep = Urllib3.Done (Return response) →
  rep = Answers response.
Proof.
  unfold Urllib3.after_attempt. destruct rep as [r|cls msg|why]; [| |discriminate].
  - destruct (Urllib3.is_retry _ _ _ _); [|by intros [= ->]].
    destruct (Urllib3.increment _ _ _ _) as [nr|e].
    + destruct (Urllib3.sleep nr r); discriminate.
    + destruct (Urllib3.raise_on_status retries); [discriminate|by intros [= ->]].
  - destruct (Urllib3.increment _ _ _ _); discriminate.
Qed.

Lemma urlopen_returns (retries : Urllib3.Retry) (rq : Request) (tr : trace)
    (response : Response) :
  (Urllib3.urlopen server retries rq tr).1 = Return response →
  ∃ k, server k rq = Answers response.
Proof.
  revert retries tr.
  apply (urlopen_induction server rq
           (λ _ _ out, out.1 = Return response → ∃ k, server k rq = Answers response)).
  - intros retries tr r Hv. cbn. intros ->.
    apply after_attempt_returns in Hv. eauto.
  - auto.
  - intros retries tr e _. discriminate.
Qed.

Lemma send_returns (retries : Urllib3.Retry) (rq : Request) (tr : trace)
    (response : Response) :
  (Requests.send server retries rq tr).1 = Return response →
  ∃ k, server k rq = Answers response.
Proof.
  rewrite send_unfold.
  destruct (Urllib3.urlopen server retries rq tr) as [[r|e] tr'] eqn:Hu;
    cbn; [|discriminate].
  intros [= <-]. apply (urlopen_returns retries rq tr). by rewrite Hu.
Qed.

(** A budget that is not positive allows one attempt to a request that
    is put on the wire, whatever the attempt comes to. *)
Lemma send_single_without_budget (retries : Urllib3.Retry) (rq : Request)
    (tr : trace) :
  Urllib3.total retries <= 0 →
  Requests.refused (server (attempts tr) rq) = false →
  (Requests.send server retries rq tr).2 = tr ++ [Sent rq] ∧
  ∀ response,
    (Requests.send server retries rq tr).1 = Return response →
    server (attempts tr) rq = Answers response.
Proof.
  intros Hn Hsent. rewrite send_unfold, urlopen_unfold.
  destruct (Urllib3.after_attempt _ _ _) as [[response|e]|nr|e] eqn:Hv.
  - split; [done|]. intros r [= <-]. by apply after_attempt_returns in Hv.
  - split; [done|]. discriminate.
  - apply Urllib3.after_attempt_decreases in Hv. lia.
  - apply after_attempt_refused in Hv as (why & Hw & _).
    rewrite Hw in Hsent. discriminate.
Qed.

(** Exchanges that fail with an error [increment] does not re-raise use
    up the budget: [total + 1] attempts, then the [MaxRetryError] of the
    last failure, translated by the adapter. *)
Lemma send_fails_exhaust (fl : list Z) (am : list string) (bf : Z) (ros rr : bool)
    (rq : Request) (m : nat) :
  (∀ k, ∃ cls msg, server k rq = Fails cls msg ∧
        ∀ z, negb (Urllib3._is_connection_error cls) && Urllib3._is_read_error cls
             && negb (Urllib3._is_method_retryable
                        (Urllib3.mkRetry z fl am bf ros rr) (rq_method rq)) = false) →
  ∀ (n : Z) (tr : trace),
    0 <= n → Z.to_nat n = m →
    ∃ cls msg,
      server (attempts tr + m)%nat rq = Fails cls msg ∧
      Requests.send server (Urllib3.mkRetry n fl am bf ros rr) rq tr =
      (Raise (Requests.translate (MaxRetryError cls msg)),
       tr ++ replicate (S m) (Sent rq)).
Proof.
  intros Hserver. induction m as [|m IH]; intros n tr Hn Hm.
  - assert (n = 0) as -> by lia.
    destruct (Hserver (attempts tr)) as (cls & msg & Hs & Hr).
    exists cls, msg. rewrite Nat.add_0_r. split; [exact Hs|].
    rewrite send_unfold, urlopen_unfold. unfold Urllib3.after_attempt.
    rewrite Hs. unfold Urllib3.increment. by rewrite Hr.
  - destruct (Hserver (attempts tr)) as (cls & msg & Hs & Hr).
    destruct (IH (n - 1) (tr ++ [Sent rq])) as (cls' & msg' & Hlast & Hsend); [lia..|].
    exists cls', msg'. rewrite attempts_sent in Hlast.
    replace (attempts tr + S m)%nat with (S (attempts tr) + m)%nat by lia.
    split; [exact Hlast|].
    rewrite send_unfold, urlopen_unfold. unfold Urllib3.after_attempt.
    rewrite Hs. unfold Urllib3.increment. rewrite Hr. unfold Urllib3.is_exhausted.
    cbn [Urllib3.total].
    rewrite send_unfold, <- app_assoc in Hsend.
    destruct (Z.eqb_spec (n - 1) 0) as [Hz|Hz];
      [|destruct (Z.ltb_spec (n - 1) 0) as [Hneg|Hpos]; [lia|]]; exact Hsend.
Qed.

(** A read error of a method that is not retryable is re-raised at
    once. *)
Lemma send_read_error_once (retries : Urllib3.Retry) (rq : Request) (tr : trace)
    (cls : urllib3_exc) (msg : string) :
  server (attempts tr) rq = Fails cls msg →
  Urllib3._is_read_error cls = true →
  Urllib3._is_method_retryable retries (rq_method rq) = false →
  Requests.send server retries rq tr =
  (Raise (Requests.translate (Urllib3Error cls msg)), tr ++ [Sent rq]).
Proof.
  intros Hs Hread Hm. rewrite send_unfold, urlopen_unfold.
  unfold Urllib3.after_attempt. rewrite Hs. unfold Urllib3.increment.
  rewrite Hread, Hm. by destruct cls.
Qed.

End MoreAdapterFacts.

(** ** The retry policy, seen from a call *)

Section MoreRetryPolicy.

Import Client.

(** A status outside the forced statuses and outside the statuses
    urllib3 honours [Retry-After] for is not retried. *)
Lemma is_retry_not_selected (z : Z) (am : list string) (bf : Z) (ros rr ra : bool)
    (method : string) (status : Z) :
  status ∉ [413; 429; 500; 502; 503; 504] →
  Urllib3.is_retry (Urllib3.mkRetry z [429; 500; 502; 503; 504] am bf ros rr)
                   method status ra = false.
Proof.
  intros Hs. unfold Urllib3.is_retry.
  destruct (Urllib3._is_method_retryable _ method); [|reflexivity].
  cbn [negb Urllib3.status_forcelist Urllib3.total
       Urllib3.respect_retry_after_header Urllib3.nonempty andb].
  rewrite !not_elem_of_cons in Hs.
  destruct Hs as (H413 & H429 & H500 & H502 & H503 & H504 & _).
  rewrite bool_decide_eq_false_2.
  - rewrite (bool_decide_eq_false_2 (status ∈ Urllib3.RETRY_AFTER_STATUS_CODES)).
    + by destruct (z =? 0), rr, ra.
    + unfold Urllib3.RETRY_AFTER_STATUS_CODES.
      rewrite !elem_of_cons, elem_of_nil. tauto.
  - rewrite !elem_of_cons, elem_of_nil. tauto.
Qed.

Lemma no_sent_without_attempts (tr : trace) (rq : Request) :
  attempts tr = 0%nat → Sent rq ∉ tr.
Proof.
  induction tr as [|ev tr IH]; intros H0 Hin.
  - by apply elem_of_nil in Hin.
  - apply elem_of_cons in Hin as [<-|Hin]; [discriminate|].
    destruct ev; try discriminate; by apply IH.
Qed.

(** When no redirect is followed, the exchange is the one of the
    adapter. *)
Lemma exchange_without_redirect (server : nat → Request → reply) self method endpoint
    kw tr :
  (∀ k rq response, server k rq = Answers response →
                    Requests.get_redirect_target response = None) →
  exchange server self method endpoint kw tr =
  Requests.send server (Requests.max_retries (session self))
    (request_of self method endpoint kw) tr.
Proof.
  intros Hstay. unfold exchange. rewrite request_unfold.
  change (mkRequest method (Config.get_api_url (config self) endpoint)
            (Requests.headers (session self)) (params kw) (json kw) (timeout self))
    with (request_of self method endpoint kw).
  destruct (Requests.send server (Requests.max_retries (session self))
              (request_of self method endpoint kw) tr) as [[response|e] tr1] eqn:Hsend;
    [|reflexivity].
  apply resolve_redirects_none.
  destruct (send_returns server (Requests.max_retries (session self))
              (request_of self method endpoint kw) tr response) as [k Hk];
    [by rewrite Hsend|].
  by eapply Hstay.
Qed.

(** The attempts of a call that follows no redirect all carry the request
    of the call. *)
Lemma dispatch_requests (server : nat → Request → reply) self method endpoint kw tr :
  (∀ k rq response, server k rq = Answers response →
                    Requests.get_redirect_target response = None) →
  ∃ new,
    (_make_request server self method endpoint kw tr).2 = tr ++ new ∧
    ∀ rq, Sent rq ∈ new → rq = request_of self method endpoint kw.
Proof.
  intros Hstay.
  destruct (dispatch_summary server self method endpoint kw tr) as (extra & -> & H0 & _).
  rewrite (exchange_without_redirect server self method endpoint kw tr Hstay).
  destruct (send_trace server (Requests.max_retries (session self))
              (request_of self method endpoint kw) tr) as [k Hk].
  rewrite Hk.
  exists (replicate k (Sent (request_of self method endpoint kw)) ++ extra).
  split; [by rewrite <- app_assoc|].
  intros rq Hin. apply elem_of_app in Hin as [Hin|Hin].
  - apply elem_of_replicate in Hin as [[= ->] _]. reflexivity.
  - by apply no_sent_without_attempts in Hin.
Qed.

End MoreRetryPolicy.

(** X1.  Transient failures are invisible to the caller: when the first
    [k] answers to a call with a retryable method carry a forced status
    (429, 500, 502, 503, 504) and no [Retry-After] header that urllib3
    cannot read, [k] being within [api_retries], and the next answer
    carries a status that is not retried and is no redirect that requests
    follows, the call makes exactly [k + 1] attempts and is decided by that
    answer alone; for status 200 it returns the decoded body. *)
Theorem X1_retries_until_an_answer_stands (server : nat → Request → reply)
    (config : Config.CLIConfig) (method endpoint : string) (kw : Client.kwargs)
    (tr : trace) (k : nat) (final : Response) :
  let self := Client.__init__ config in
  let rq := Client.request_of self method endpoint kw in
  PyStr.upper method ∈ Urllib3.DEFAULT_ALLOWED_METHODS →
  Z.of_nat k <= Config.api_retries config →
  (∀ i, (i < k)%nat →
        ∃ response, server (attempts tr + i)%nat rq = Answers response ∧
                    status_code response ∈ [429; 500; 502; 503; 504] ∧
                    Urllib3.get_retry_after response = Return tt) →
  server (attempts tr + k)%nat rq = Answers final →
  status_code final ∉ [413; 429; 500; 502; 503; 504] →
  Requests.get_redirect_target final = None →
  Client.exchange server self method endpoint kw tr =
  (Return final, tr ++ replicate (S k) (Sent rq)) ∧
  attempts (Client._make_request server self method endpoint kw tr).2 =
  (attempts tr + k + 1)%nat ∧
  (status_code final = 200 →
   (Client._make_request server self method endpoint kw tr).1 =
   match json_body final with
   | Some v => Return v
   | None => Return (message_dict (text final))
   end).
Proof.
  intros self rq Hm Hk Hbefore Hfinal Hstop Hstay.
  assert (Client.exchange server self method endpoint kw tr =
          (Return final, tr ++ replicate (S k) (Sent rq))) as Hx.
  { apply exchange_returns; [|exact Hstay]. subst self. rewrite client_retry_shape.
    apply send_recovers; [exact Hk| |exact Hfinal|].
    - intros i Hi. destruct (Hbefore i Hi) as (response & Hs & Hst & Hra).
      exists response. split; [exact Hs|]. split; [exact Hra|].
      intros z. by apply is_retry_forced.
    - intros z. by apply is_retry_not_selected. }
  split; [exact Hx|]. split.
  - rewrite dispatch_attempts, Hx. cbn [snd].
    rewrite attempts_app, attempts_replicate_sent. lia.
  - intros H200. destruct (json_body final) as [v|] eqn:Hj.
    + by rewrite (dispatch_200_json server _ _ _ _ _ _ _ _ Hx H200 Hj).
    + by rewrite (dispatch_200_text server _ _ _ _ _ _ _ Hx H200 Hj).
Qed.

(** Two answers 500, then 200 with body [{"models": []}], and two retries
    configured: listing the models takes three attempts. *)
Lemma X1_retries_until_an_answer_stands_witness :
  attempts
    (Client._make_request
       (λ k _, if (k <? 2)%nat
               then Answers (Samples.bare 500 "Internal Server Error")
               else Answers {| status_code := 200; reason := "OK";
                               text := "{" +:+ Samples.quoted "models" +:+ ": []}";
                               json_body := Some (PDict {[ "models"%string := PList [] ]});
                               retry_after := None; redirect := None |})
       (Client.__init__ (Samples.config_with_retries 2)) "GET" "/api/models"
       (Client.with_params ∅) []).2 = (0 + 2 + 1)%nat.
Proof.
  refine (proj1 (proj2 (X1_retries_until_an_answer_stands _
    (Samples.config_with_retries 2) "GET" "/api/models" (Client.with_params ∅) [] 2
    {| status_code := 200; reason := "OK";
       text := "{" +:+ Samples.quoted "models" +:+ ": []}";
       json_body := Some (PDict {[ "models"%string := PList [] ]});
       retry_after := None; redirect := None |} _ _ _ _ _ _))).
  - compute_done.
  - cbn. lia.
  - intros i Hi. exists (Samples.bare 500 "Internal Server Error").
    destruct i as [|[|i]];
      [split; [reflexivity|split; [compute_done|reflexivity]]..|lia].
  - reflexivity.
  - compute_done.
  - reflexivity.
Defined.

(** X2.  When every attempt fails to connect (connection refused, name not
    resolved, connect timeout), a call with [api_retries = n], [0 <= n],
    makes exactly [n + 1] attempts whatever its method, POST included, and
    then raises a [BitingLipAPIError] without status code whose message
    starts with ["Request failed: "]. *)
Theorem X2_unreachable_gateway (server : nat → Request → reply)
    (config : Config.CLIConfig) (method endpoint : string) (kw : Client.kwargs)
    (tr : trace) :
  0 <= Config.api_retries config →
  (∀ k rq, ∃ cls msg, server k rq = Fails cls msg ∧
                      Urllib3._is_connection_error cls = true) →
  attempts (Client._make_request server (Client.__init__ config) method endpoint kw tr).2
  = (attempts tr + (Z.to_nat (Config.api_retries config) + 1))%nat ∧
  ∃ msg,
    (Client._make_request server (Client.__init__ config) method endpoint kw tr).1 =
    Raise (BitingLipAPIError (PStr ("Request failed: " +:+ msg)) None None).
Proof.
  intros Hn Hserver.
  set (self := Client.__init__ config).
  destruct (send_fails_exhaust server [429; 500; 502; 503; 504]
              Urllib3.DEFAULT_ALLOWED_METHODS 1 false true
              (Client.request_of self method endpoint kw)
              (Z.to_nat (Config.api_retries config)))
    with (n := Config.api_retries config) (tr := tr)
    as (cls & msg & _ & Hsend); [|exact Hn|reflexivity|].
  { intros k. destruct (Hserver k (Client.request_of self method endpoint kw))
      as (cls & msg & Hs & Hc).
    exists cls, msg. split; [exact Hs|]. intros z. by rewrite Hc. }
  assert (∃ c m, Requests.translate (MaxRetryError cls msg) = RequestException c m)
    as (c & m & Heq) by (destruct cls; cbn; eauto).
  rewrite Heq in Hsend.
  assert (Client.exchange server self method endpoint kw tr =
          (Raise (RequestException c m),
           tr ++ replicate (S (Z.to_nat (Config.api_retries config)))
                           (Sent (Client.request_of self method endpoint kw))))
    as Hx by (by apply exchange_passes).
  split.
  - rewrite dispatch_attempts, Hx. cbn [snd].
    rewrite attempts_app, attempts_replicate_sent. lia.
  - exists m. by rewrite (dispatch_request_exception server _ _ _ _ _ _ _ _ Hx).
Qed.

Lemma X2_unreachable_gateway_witness :
  attempts
    (Client._make_request (Samples.unreachable NewConnectionError "Connection refused")
       (Client.__init__ (Samples.config_with_retries 3)) "POST" "/api/workers"
       (Client.with_json (PDict ∅)) []).2 = (0 + (Z.to_nat 3 + 1))%nat.
Proof.
  refine (proj1 (X2_unreachable_gateway
    (Samples.unreachable NewConnectionError "Connection refused")
    (Samples.config_with_retries 3) "POST" "/api/workers"
    (Client.with_json (PDict ∅)) [] _ _)).
  - cbn. lia.
  - intros k rq. exists NewConnectionError, "Connection refused"%string.
    split; reflexivity.
Defined.

(** X3.  When the answer to a call whose method urllib3 does not retry by
    default (POST) does not arrive (read timeout, connection reset), the
    call is not repeated: one attempt, then the [BitingLipAPIError]
    without status code carrying the text of the failure. *)
Theorem X3_read_failure_of_post_not_retried (server : nat → Request → reply)
    (config : Config.CLIConfig) (method endpoint : string) (kw : Client.kwargs)
    (tr : trace) (cls : urllib3_exc) (msg : string) :
  let self := Client.__init__ config in
  PyStr.upper method ∉ Urllib3.DEFAULT_ALLOWED_METHODS →
  server (attempts tr) (Client.request_of self method endpoint kw) = Fails cls msg →
  Urllib3._is_read_error cls = true →
  Client._make_request server self method endpoint kw tr =
  (Raise (BitingLipAPIError (PStr ("Request failed: " +:+ msg)) None None),
   tr ++ [Sent (Client.request_of self method endpoint kw)]).
Proof.
  intros self Hm Hs Hread.
  assert (Client.exchange server self method endpoint kw tr =
          (Raise (Requests.translate (Urllib3Error cls msg)),
           tr ++ [Sent (Client.request_of self method endpoint kw)])) as Hx.
  { apply exchange_passes. apply send_read_error_once; [exact Hs|exact Hread|].
    subst self. rewrite client_retry_shape.
    destruct (Urllib3._is_method_retryable _ _) eqn:Hr; [|reflexivity].
    apply method_retryable_iff in Hr. done. }
  destruct cls; try discriminate;
    exact (dispatch_request_exception server _ _ _ _ _ _ _ _ Hx).
Qed.

Lemma X3_read_failure_of_post_not_retried_witness :
  Client._make_request (Samples.unreachable ReadTimeoutError "Read timed out.")
    Samples.default_client "POST" "/api/tasks" (Client.with_json (PDict ∅)) [] =
  (Raise (BitingLipAPIError (PStr ("Request failed: " +:+ "Read timed out.")) None None),
   [] ++ [Sent (Client.request_of Samples.default_client "POST" "/api/tasks"
                                  (Client.with_json (PDict ∅)))]).
Proof.
  refine (X3_read_failure_of_post_not_retried
    (Samples.unreachable ReadTimeoutError "Read timed out.") Config.defaults
    "POST" "/api/tasks" (Client.with_json (PDict ∅)) [] ReadTimeoutError
    "Read timed out." _ _ _).
  - compute_done.
  - reflexivity.
  - reflexivity.
Defined.

(** X4.  With [api_retries] zero or negative, a call whose request is put
    on the wire makes exactly one attempt, whatever the method, whatever
    the gateway answers short of a redirect that requests follows, and
    however the exchange fails. *)
Theorem X4_no_budget_single_attempt (server : nat → Request → reply)
    (config : Config.CLIConfig) (method endpoint : string) (kw : Client.kwargs)
    (tr : trace) :
  let rq := Client.request_of (Client.__init__ config) method endpoint kw in
  Config.api_retries config <= 0 →
  Requests.refused (server (attempts tr) rq) = false →
  (∀ response, server (attempts tr) rq = Answers response →
               Requests.get_redirect_target response = None) →
  attempts (Client._make_request server (Client.__init__ config) method endpoint kw tr).2
  = (attempts tr + 1)%nat.
Proof.
  intros rq Hn Hsent Hstay. rewrite dispatch_attempts.
  destruct (send_single_without_budget server
              (Requests.max_retries (Client.session (Client.__init__ config))) rq tr
              Hn Hsent) as [Htr Hanswer].
  destruct (Requests.send server
              (Requests.max_retries (Client.session (Client.__init__ config))) rq tr)
    as [[response|e] tr1] eqn:Hsend; cbn [snd] in Htr; subst tr1.
  - rewrite (exchange_returns server _ _ _ _ _ _ _ Hsend).
    + cbn [snd]. rewrite attempts_sent. lia.
    + apply Hstay. by apply Hanswer.
  - rewrite (exchange_passes server _ _ _ _ _ _ _ Hsend).
    cbn [snd]. rewrite attempts_sent. lia.
Qed.

Lemma X4_no_budget_single_attempt_witness :
  attempts
    (Client._make_request (Samples.always (Samples.bare 503 "Service Unavailable"))
       (Client.__init__ (Samples.config_with_retries (-2))) "GET" "/api/health"
       Client.no_kwargs []).2 = (0 + 1)%nat.
Proof.
  refine (X4_no_budget_single_attempt _ (Samples.config_with_retries (-2))
            "GET" "/api/health" Client.no_kwargs [] _ _ _).
  - cbn. lia.
  - reflexivity.
  - intros response [= <-]. reflexivity.
Defined.

(** X5.  Every attempt of a call that follows no redirect is made for the
    request the client handed to [session.request]: the method of the
    call, the URL joined from the base URL and the endpoint, the
    configured timeout and the headers set at construction,
    [Content-Type: application/json], [User-Agent: BitingLip-CLI/1.0.0],
    and [Authorization: Bearer <api_key>] exactly when the key is a
    non-empty string.  (What requests prepares from these for the wire is
    its own business.) *)
Theorem X5_attempts_carry_session_headers (server : nat → Request → reply)
    (config : Config.CLIConfig) (method endpoint : string) (kw : Client.kwargs)
    (tr : trace) :
  (∀ k rq response, server k rq = Answers response →
                    Requests.get_redirect_target response = None) →
  ∃ new,
    (Client._make_request server (Client.__init__ config) method endpoint kw tr).2
    = tr ++ new ∧
    ∀ rq, Sent rq ∈ new →
      rq_method rq = method ∧
      rq_url rq = Config.get_api_url config endpoint ∧
      rq_timeout rq = Config.api_timeout config ∧
      rq_headers rq !! "Content-Type"%string = Some "application/json"%string ∧
      rq_headers rq !! "User-Agent"%string = Some "BitingLip-CLI/1.0.0"%string ∧
      rq_headers rq !! "Authorization"%string =
      match Config.api_key config with
      | Some key => if PyStr.truthy key then Some ("Bearer " +:+ key) else None
      | None => None
      end.
Proof.
  intros Hstay.
  destruct (dispatch_requests server (Client.__init__ config) method endpoint kw tr Hstay)
    as (new & Htr & Hall).
  exists new. split; [exact Htr|].
  intros rq Hin. rewrite (Hall rq Hin).
  do 3 (split; [reflexivity|]).
  unfold Client.request_of, Client.__init__.
  cbn [rq_headers Client.session Requests.headers].
  destruct (Config.api_key config) as [key|]; cbn [Config.truthy_str];
    [destruct (PyStr.truthy key)|]; repeat split; reflexivity.
Qed.

Lemma X5_attempts_carry_session_headers_witness :
  ∃ new,
    (Client._make_request (Samples.always (Samples.bare 503 "Service Unavailable"))
       (Client.__init__ (Samples.config_with_retries 1)) "GET" "/api/health"
       Client.no_kwargs []).2 = [] ++ new ∧
    ∀ rq, Sent rq ∈ new →
      rq_method rq = "GET"%string ∧
      rq_url rq = Config.get_api_url (Samples.config_with_retries 1) "/api/health" ∧
      rq_timeout rq = Config.api_timeout (Samples.config_with_retries 1) ∧
      rq_headers rq !! "Content-Type"%string = Some "application/json"%string ∧
      rq_headers rq !! "User-Agent"%string = Some "BitingLip-CLI/1.0.0"%string ∧
      rq_headers rq !! "Authorization"%string =
      match Config.api_key (Samples.config_with_retries 1) with
      | Some key => if PyStr.truthy key then Some ("Bearer " +:+ key) else None
      | None => None
      end.
Proof.
  refine (X5_attempts_carry_session_headers
            (Samples.always (Samples.bare 503 "Service Unavailable"))
            (Samples.config_with_retries 1) "GET" "/api/health" Client.no_kwargs [] _).
  intros k rq response [= <-]. reflexivity.
Defined.

(** X6.  Once the exchange has produced a response, the call returns a
    payload exactly when the status of that response is 200, 201 or 204;
    for any other status, 202 and the 3xx included, it raises. *)
Theorem X6_payload_iff_ok_status (server : nat → Request → reply)
    (self : Client.BitingLipClient) (method endpoint : string) (kw : Client.kwargs)
    (tr tr1 : trace) (response : Response) :
  Client.exchange server self method endpoint kw tr = (Return response, tr1) →
  (∃ payload, (Client._make_request server self method endpoint kw tr).1 = Return payload)
  ↔ status_code response ∈ [200; 201; 204].
Proof.
  intros Hx.
  destruct (dispatch_summary server self method endpoint kw tr)
    as (extra & _ & _ & Hcase).
  rewrite Hx in Hcase. cbn [fst] in Hcase. split.
  - intros [payload Hp]. rewrite Hp in Hcase.
    destruct (status_cases (status_code response)) as [->|[->|[->|Herr]]];
      [compute_done..|done].
  - intros Hst.
    destruct ((Client._make_request server self method endpoint kw tr).1)
      as [payload|e]; [by exists payload|].
    assert (Client.is_error_status (status_code response)) as (H200 & H201 & H204).
    { destruct e; try done; [by destruct Hcase|by destruct Hcase]. }
    rewrite !elem_of_cons, elem_of_nil in Hst. lia.
Qed.

Lemma X6_payload_iff_ok_status_witness :
  ¬ ∃ payload,
      (Client._make_request (Samples.always (Samples.bare 202 "Accepted"))
         Samples.default_client "POST" "/api/models/download"
         (Client.with_json (PDict ∅)) []).1 = Return payload.
Proof.
  intros Hp.
  apply (X6_payload_iff_ok_status (Samples.always (Samples.bare 202 "Accepted"))
           Samples.default_client "POST" "/api/models/download"
           (Client.with_json (PDict ∅)) []
           [Sent (Client.request_of Samples.default_client "POST"
                    "/api/models/download" (Client.with_json (PDict ∅)))]
           (Samples.bare 202 "Accepted")) in Hp.
  - revert Hp. cbn. rewrite !elem_of_cons, elem_of_nil. lia.
  - vm_compute. reflexivity.
Defined.

Section FacadePaths.

Lemma prefix_split (p e : string) :
  String.prefix p e = true → ∃ r, e = p +:+ r.
Proof.
  revert e. induction p as [|a p IH]; intros e Hp; [by exists e|].
  destruct e as [|b e]; [discriminate|].
  cbn [String.prefix] in Hp. destruct (ascii_dec a b) as [->|]; [|discriminate].
  destruct (IH e Hp) as [r ->]. by exists r.
Qed.

(** An endpoint under [/api/] is appended to the normalised base as it
    is. *)
Lemma get_api_url_rooted (config : Config.CLIConfig) (endpoint : string) :
  String.prefix "/api/" endpoint = true →
  Config.get_api_url config endpoint =
  PyStr.rstrip "/" (Config.api_url config) +:+ endpoint.
Proof.
  intros Hp. apply prefix_split in Hp as [r ->]. reflexivity.
Qed.

End FacadePaths.

(** X7.  Every facade method whose arguments Python binds is a call of
    [_make_request] with one of the methods GET, POST, PUT, DELETE and an
    endpoint that starts with ["/api/"] and contains the identifiers as
    they were given, neither quoted nor checked; the URL handed to
    [session.request] is the base URL without its trailing separators
    followed by that endpoint. *)
Theorem X7_facades_are_rooted_at_api (server : nat → Request → reply)
    (self : Client.BitingLipClient) (f : Client.facade) :
  Client.binds f = true →
  ∃ method endpoint kw,
    Client.call server self f = Client._make_request server self method endpoint kw ∧
    method ∈ ["GET"; "POST"; "PUT"; "DELETE"]%string ∧
    String.prefix "/api/" endpoint = true ∧
    rq_url (Client.request_of self method endpoint kw) =
    PyStr.rstrip "/" (Config.api_url (Client.config self)) +:+ endpoint ∧
    match f with
    | Client.GetModel model_id | Client.UpdateModel model_id _
    | Client.DeleteModel model_id =>
        endpoint = ("/api/models/" +:+ model_id)%string
    | Client.GetWorker worker_id | Client.UpdateWorker worker_id _ =>
        endpoint = ("/api/workers/" +:+ worker_id)%string
    | Client.GetTask task_id => endpoint = ("/api/tasks/" +:+ task_id)%string
    | Client.CancelTask task_id =>
        endpoint = ("/api/tasks/" +:+ task_id +:+ "/cancel")%string
    | Client.AssignModel model_id _ =>
        endpoint = ("/api/models/" +:+ model_id +:+ "/assign")%string
    | Client.UnloadModel model_id _ =>
        endpoint = ("/api/models/" +:+ model_id +:+ "/unload")%string
    | _ => True
    end.
Proof.
  intros Hbinds.
  destruct f; cbn [Client.call Client.binds] in *;
    try apply bool_decide_eq_true_1 in Hbinds;
    match goal with
    | |- context [Client.call] => fail 1
    | |- context [?facade server self] => unfold facade
    end;
    try (unfold Client.bind_params; rewrite Hbinds);
    match goal with
    | |- context [Client._make_request server self ?m ?e ?k] =>
        exists m, e, k; split; [reflexivity|];
        split; [compute_done|]; split; [reflexivity|];
        split; [by apply get_api_url_rooted|done]
    end.
Qed.

(** An identifier that climbs out of [/api/models/] is inserted as it
    is. *)
Lemma X7_facades_are_rooted_at_api_witness :
  ∃ method endpoint kw,
    Client.call (Samples.always (Samples.bare 200 "OK")) Samples.default_client
      (Client.GetModel "../../admin") =
    Client._make_request (Samples.always (Samples.bare 200 "OK")) Samples.default_client
      method endpoint kw ∧
    method ∈ ["GET"; "POST"; "PUT"; "DELETE"]%string ∧
    String.prefix "/api/" endpoint = true ∧
    rq_url (Client.request_of Samples.default_client method endpoint kw) =
    PyStr.rstrip "/" (Config.api_url (Client.config Samples.default_client)) +:+ endpoint ∧
    endpoint = ("/api/models/" +:+ "../../admin")%string.
Proof.
  refine (X7_facades_are_rooted_at_api (Samples.always (Samples.bare 200 "OK"))
            Samples.default_client (Client.GetModel "../../admin") _).
  reflexivity.
Defined.

(** X8.  Precedence of the settings: a non-empty [--api-url] or
    [--api-key] option wins over the environment variable, which wins over
    the default; a non-zero [--timeout] wins over the value of the settings
    class; an empty or zero option counts as not given; no option changes
    the number of retries. *)
Theorem X8_option_over_environment_over_default (flags : Config.Flags)
    (env : gmap string string) (settings : Config.CLIConfig) :
  Config.CLIConfig_new env = Return settings →
  ∃ config,
    Config.cli flags env = Return config ∧
    Config.api_url config =
    match Config.flag_api_url flags with
    | Some (String c rest) => String c rest
    | _ => default Config.default_api_url (env !! "BITINGLIP_API_URL"%string)
    end ∧
    Config.api_key config =
    match Config.flag_api_key flags with
    | Some (String c rest) => Some (String c rest)
    | _ => env !! "BITINGLIP_API_KEY"%string
    end ∧
    Config.api_timeout config =
    match Config.flag_timeout flags with
    | Some t => if t =? 0 then Config.api_timeout settings else t
    | None => Config.api_timeout settings
    end ∧
    Config.api_retries config = Config.api_retries settings.
Proof.
  intros Hnew. unfold Config.cli. rewrite Hnew. eexists. split; [reflexivity|].
  cbn [Config.api_url Config.api_key Config.api_timeout Config.api_retries].
  assert (Config.api_url settings =
          default Config.default_api_url (env !! "BITINGLIP_API_URL"%string) ∧
          Config.api_key settings = env !! "BITINGLIP_API_KEY"%string) as [Hu Hk].
  { revert Hnew. unfold Config.CLIConfig_new.
    assert (Config.env_field env "API_URL" Some Config.default_api_url =
            Return (default Config.default_api_url (env !! "BITINGLIP_API_URL"%string)))
      as ->.
    { unfold Config.env_field.
      change ("BITINGLIP_" +:+ "API_URL")%string with "BITINGLIP_API_URL"%string.
      by destruct (env !! "BITINGLIP_API_URL"%string). }
    destruct (Config.env_field env "API_TIMEOUT" _ _); [|discriminate].
    destruct (Config.env_field env "API_RETRIES" _ _); [|discriminate].
    destruct (Config.env_field env "OUTPUT_FORMAT" _ _); [|discriminate].
    destruct (Config.env_field env "NO_COLOR" _ _); [|discriminate].
    destruct (Config.env_field env "QUIET" _ _); [|discriminate].
    destruct (Config.env_field env "VERBOSE" _ _); [|discriminate].
    destruct (Config.env_field env "LOG_LEVEL" _ _); [|discriminate].
    destruct (Config.env_field env "DEFAULT_PAGE_SIZE" _ _); [|discriminate].
    destruct (Config.env_field env "WATCH_INTERVAL" _ _); [|discriminate].
    by intros [= <-]. }
  repeat split.
  - destruct (Config.flag_api_url flags) as [[|c rest]|]; cbn; by rewrite ?Hu.
  - destruct (Config.flag_api_key flags) as [[|c rest]|]; cbn; by rewrite ?Hk.
  - destruct (Config.flag_timeout flags) as [t|]; cbn; [|reflexivity].
    by destruct (t =? 0).
Qed.

Lemma X8_option_over_environment_over_default_witness :
  ∃ config,
    Config.cli
      {| Config.flag_api_url := Some ""; Config.flag_timeout := Some 0;
         Config.flag_verbose := false; Config.flag_quiet := false;
         Config.flag_api_key := Some "from-option" |}
      {[ "BITINGLIP_API_URL" := "http://gateway:9000/";
         "BITINGLIP_API_KEY" := "from-environment";
         "BITINGLIP_API_TIMEOUT" := "5" ]}%string = Return config ∧
    Config.api_url config = "http://gateway:9000/"%string ∧
    Config.api_key config = Some "from-option"%string ∧
    Config.api_timeout config = 5 ∧
    Config.api_retries config = 3.
Proof.
  destruct (X8_option_over_environment_over_default
    {| Config.flag_api_url := Some ""; Config.flag_timeout := Some 0;
       Config.flag_verbose := false; Config.flag_quiet := false;
       Config.flag_api_key := Some "from-option" |}
    {[ "BITINGLIP_API_URL" := "http://gateway:9000/";
       "BITINGLIP_API_KEY" := "from-environment";
       "BITINGLIP_API_TIMEOUT" := "5" ]}%string
    {| Config.api_url := "http://gateway:9000/"; Config.api_timeout := 5;
       Config.api_retries := 3; Config.api_key := Some "from-environment"%string;
       Config.quiet := false; Config.verbose := false |})
    as (config & Hc & Hu & Hk & Ht & Hr).
  - vm_compute. reflexivity.
  - exists config. split; [exact Hc|]. split; [exact Hu|]. split; [exact Hk|].
    split; [exact Ht|exact Hr].
Defined.

Section Normalisation.

Lemma rstrip_fixed (s : string) :
  PyStr.last_char s ≠ Some "/"%char → PyStr.rstrip "/" s = s.
Proof.
  induction s as [|a s IH]; [done|]. intros Hlast.
  cbn [PyStr.rstrip]. destruct s as [|b s].
  - cbn [PyStr.rstrip]. destruct (PyStr.mem a "/") eqn:Hm; [|reflexivity].
    apply mem_slash in Hm as ->. by destruct Hlast.
  - rewrite IH; [reflexivity|exact Hlast].
Qed.

Lemma rstrip_idempotent (s : string) :
  PyStr.rstrip "/" (PyStr.rstrip "/" s) = PyStr.rstrip "/" s.
Proof. apply rstrip_fixed, rstrip_no_trailing_slash. Qed.

End Normalisation.

(** X9.  The URL returned for the empty endpoint is the base URL without
    trailing separators, and it is a fixed point of the normalisation:
    taking it as the base URL of a configuration gives, for every
    endpoint, the URL the original configuration gives. *)
Theorem X9_base_url_normal_form (base endpoint : string) t r k q v t' r' k' q' v' :
  let config := Config.mkCLIConfig base t r k q v in
  let normal := Config.get_api_url config "" in
  PyStr.last_char normal ≠ Some "/"%char ∧
  (∃ i, base = normal +:+ PyStr.slashes i) ∧
  Config.get_api_url (Config.mkCLIConfig normal t' r' k' q' v') endpoint =
  Config.get_api_url config endpoint.
Proof.
  cbn zeta. unfold Config.get_api_url. cbn [Config.api_url PyStr.truthy].
  split; [apply rstrip_no_trailing_slash|]. split; [apply rstrip_decompose|].
  by rewrite rstrip_idempotent.
Qed.

(** ** The commands *)

Section CommandFacts.

Import Client.

Variable server : nat → Request → reply.

Lemma logged_reads_or_logs self method url response :
  Forall reads_or_logs (logged self method url response).
Proof.
  unfold logged. destruct (Config.verbose (config self)); repeat constructor.
Qed.

(** A call records attempts, then reads and log entries only. *)
Lemma dispatch_events self method endpoint kw tr :
  ∃ sent extra,
    (_make_request server self method endpoint kw tr).2 = tr ++ sent ++ extra ∧
    Forall is_sent sent ∧ Forall reads_or_logs extra.
Proof.
  destruct (request_trace server (session self) method
              (Config.get_api_url (config self) endpoint) (timeout self)
              (params kw) (json kw) tr) as (sent & Hk & Hsent).
  exists sent.
  destruct (exchange server self method endpoint kw tr) as [[response|e] tr1] eqn:Hx;
    (assert (tr1 = tr ++ sent) as ->
       by (pose proof Hx as Hx0; unfold exchange in Hx0; by rewrite Hx0 in Hk)).
  - destruct (status_cases (status_code response)) as [Hs|[Hs|[Hs|Hs]]].
    + destruct (json_body response) as [v|] eqn:Hj.
      * rewrite (dispatch_200_json server _ _ _ _ _ _ _ _ Hx Hs Hj). cbn [snd].
        eexists. rewrite <- app_assoc. split; [reflexivity|]. split; [exact Hsent|].
        apply Forall_app. split; [apply logged_reads_or_logs|repeat constructor].
      * rewrite (dispatch_200_text server _ _ _ _ _ _ _ Hx Hs Hj). cbn [snd].
        eexists. rewrite <- app_assoc. split; [reflexivity|]. split; [exact Hsent|].
        apply Forall_app. split; [apply logged_reads_or_logs|repeat constructor].
    + destruct (json_body response) as [v|] eqn:Hj.
      * rewrite (dispatch_201_json server _ _ _ _ _ _ _ _ Hx Hs Hj). cbn [snd].
        eexists. rewrite <- app_assoc. split; [reflexivity|]. split; [exact Hsent|].
        apply Forall_app. split; [apply logged_reads_or_logs|repeat constructor].
      * rewrite (dispatch_201_created server _ _ _ _ _ _ _ Hx Hs Hj). cbn [snd].
        eexists. rewrite <- app_assoc. split; [reflexivity|]. split; [exact Hsent|].
        apply Forall_app. split; [apply logged_reads_or_logs|repeat constructor].
    + rewrite (dispatch_204 server _ _ _ _ _ _ _ Hx Hs). cbn [snd].
      eexists. rewrite <- app_assoc. split; [reflexivity|]. split; [exact Hsent|].
      apply logged_reads_or_logs.
    + destruct (json_body response) as [v|] eqn:Hj.
      * destruct (not_object_cases v) as [[d ->]|Hv].
        -- rewrite (dispatch_error_object server _ _ _ _ _ _ _ _ Hx Hs Hj).
           cbn [snd]. eexists. rewrite <- app_assoc. split; [reflexivity|].
           split; [exact Hsent|].
           apply Forall_app. split; [apply logged_reads_or_logs|repeat constructor].
        -- rewrite (dispatch_error_not_object server _ _ _ _ _ _ _ _ Hx Hs Hj Hv).
           cbn [snd]. eexists. rewrite <- app_assoc. split; [reflexivity|].
           split; [exact Hsent|].
           apply Forall_app. split; [apply logged_reads_or_logs|repeat constructor].
      * rewrite (dispatch_error_undecoded server _ _ _ _ _ _ _ Hx Hs Hj).
        cbn [snd]. eexists. rewrite <- app_assoc. split; [reflexivity|].
        split; [exact Hsent|].
        apply Forall_app. split; [apply logged_reads_or_logs|repeat constructor].
  - exists []. rewrite app_nil_r.
    destruct (exchange_raises server _ _ _ _ _ _ _ Hx) as [(cls & msg & ->)|(msg & ->)].
    + rewrite (dispatch_request_exception server _ _ _ _ _ _ _ _ Hx).
      split; [reflexivity|]. split; [exact Hsent|constructor].
    + rewrite (dispatch_value_error server _ _ _ _ _ _ _ Hx).
      split; [reflexivity|]. split; [exact Hsent|constructor].
Qed.

Lemma is_sent_closes (sent : trace) : Forall is_sent sent → closes sent = 0%nat.
Proof. induction 1 as [|ev sent Hev _ IH]; [done|]. by destruct ev. Qed.

Lemma closes_app (tr tr' : trace) : closes (tr ++ tr') = (closes tr + closes tr')%nat.
Proof.
  induction tr as [|ev tr IH]; [reflexivity|].
  destruct ev; cbn; rewrite IH; reflexivity.
Qed.

Lemma closes_replicate_sent (k : nat) (rq : Request) :
  closes (replicate k (Sent rq)) = 0%nat.
Proof. induction k as [|k IH]; [reflexivity|exact IH]. Qed.

Lemma reads_or_logs_counts (extra : trace) :
  Forall reads_or_logs extra → attempts extra = 0%nat ∧ closes extra = 0%nat.
Proof.
  induction 1 as [|ev extra Hev _ [IHa IHc]]; [done|].
  destruct ev; done.
Qed.

(** [send_and_report] under the two [except] clauses of a command. *)
Lemma send_and_report_spec config (call : BitingLipClient → M pyval)
    success prefix tr :
  try_except (Commands.send_and_report config call success)
             (Commands.report_failure prefix) tr =
  (Return tt,
   (call (__init__ config) tr).2
   ++ Commands.after_call config success prefix (call (__init__ config) tr).1).
Proof.
  unfold Commands.send_and_report, with_client, try_finally, try_except.
  unfold mbind at 1. unfold M_bind at 1.
  destruct (call (__init__ config) tr) as [[v|e] tr1];
    cbn [fst snd Commands.after_call].
  - unfold Workers.success_message, Workers.echo_json, Requests.close, emit,
      mbind, M_bind, mret, M_ret.
    destruct (Config.verbose config); cbn; rewrite <- ?app_assoc; reflexivity.
  - unfold Requests.close, Commands.report_failure, Workers.handle_api_error, emit.
    destruct (is_BitingLipAPIError e); cbn; rewrite <- ?app_assoc; reflexivity.
Qed.

(** After [send_and_report] on a call of the dispatcher the session has
    been closed once. *)
Lemma send_and_report_counts config method endpoint kw success prefix tr :
  ∃ new,
    try_except
      (Commands.send_and_report config
         (λ client, _make_request server client method endpoint kw) success)
      (Commands.report_failure prefix) tr = (Return tt, tr ++ new) ∧
    closes new = 1%nat.
Proof.
  rewrite send_and_report_spec.
  destruct (dispatch_events (__init__ config) method endpoint kw tr)
    as (sent & extra & Htr & Hsent & Hextra).
  apply reads_or_logs_counts in Hextra as [_ Hc].
  apply is_sent_closes in Hsent.
  rewrite Htr. eexists. rewrite <- !app_assoc. split; [reflexivity|].
  rewrite !closes_app, Hsent, Hc.
  destruct ((_make_request server (__init__ config) method endpoint kw tr).1) as [v|e];
    cbn [Commands.after_call].
  - destruct (Config.verbose config); reflexivity.
  - reflexivity.
Qed.

(** An error message and nothing else. *)
Lemma error_message_only (msg : string) (handler : exn → option (M unit)) (tr : trace) :
  try_except (Workers.error_message msg) handler tr =
  (Return tt, tr ++ [Printed (ErrorMessage msg)]).
Proof. reflexivity. Qed.

End CommandFacts.

Section CommandOutcomes.

Variable server : nat → Request → reply.
Variable json_loads : string → option pyval.

Lemma error_message_ends_cleanly (msg : string) (handler : exn → option (M unit))
    (tr : trace) :
  Commands.ends_cleanly tr (try_except (Workers.error_message msg) handler tr).
Proof.
  exists [Printed (ErrorMessage msg)]. split; [reflexivity|]. left. by exists msg.
Qed.

Lemma send_and_report_ends_cleanly config method endpoint kw success prefix tr :
  Commands.ends_cleanly tr
    (try_except
       (Commands.send_and_report config
          (λ client, Client._make_request server client method endpoint kw) success)
       (Commands.report_failure prefix) tr).
Proof.
  destruct (send_and_report_counts server config method endpoint kw success prefix tr)
    as (new & Hout & Hcounts).
  exists new. split; [exact Hout|]. by right.
Qed.

Lemma register_worker_ends_cleanly config name worker_type host port max_load
    capabilities metadata tr :
  Commands.ends_cleanly tr
    (Workers.register_worker server json_loads config name worker_type host port
       max_load capabilities metadata tr).
Proof.
  unfold Workers.register_worker, Workers.register_worker_body.
  destruct (Workers.given_str capabilities) as [raw|];
    [destruct (json_loads raw) as [caps|]|];
    try apply error_message_ends_cleanly;
    (destruct (Workers.given_str metadata) as [raw'|];
     [destruct (json_loads raw') as [meta|]|]);
    try apply error_message_ends_cleanly;
    apply (send_and_report_ends_cleanly config "POST" "/api/workers").
Qed.

Lemma update_worker_ends_cleanly config worker_id status max_load capabilities
    metadata tr :
  Commands.ends_cleanly tr
    (Commands.update_worker server json_loads config worker_id status max_load
       capabilities metadata tr).
Proof.
  unfold Commands.update_worker, Commands.update_worker_body.
  destruct (Commands.load_json_option json_loads "capabilities" _ capabilities _)
    as [msg|d]; [apply error_message_ends_cleanly|].
  destruct (Commands.load_json_option json_loads "metadata" _ metadata _)
    as [msg|d']; [apply error_message_ends_cleanly|].
  destruct (size d' =? 0)%nat; [apply error_message_ends_cleanly|].
  apply (send_and_report_ends_cleanly config "PUT").
Qed.

Lemma register_model_ends_cleanly config name path url model_type description
    metadata tr :
  Commands.ends_cleanly tr
    (Commands.register_model server json_loads config name path url model_type
       description metadata tr).
Proof.
  unfold Commands.register_model, Commands.register_model_body.
  destruct (negb (Config.truthy_str path) && negb (Config.truthy_str url)).
  { exists [Printed (ErrorMessage "Either --path or --url must be specified")].
    split; [reflexivity|]. left. by eexists. }
  destruct (Commands.load_json_option json_loads "metadata" _ metadata _)
    as [msg|d]; [apply error_message_ends_cleanly|].
  apply (send_and_report_ends_cleanly config "POST" "/api/models").
Qed.

End CommandOutcomes.

(** X10.  The [register] and [update] commands of the workers group and
    the [register] command of the models group never raise, whatever their
    arguments are and whatever the decoder, requests and the gateway do:
    they return, having either stopped before they built a client, with
    one error message and nothing else, or closed the session of their
    client exactly once, whether or not a request was sent. *)
Theorem X10_commands_return_and_close_once (server : nat → Request → reply)
    (json_loads : string → option pyval) (config : Config.CLIConfig) (tr : trace)
    (name worker_type worker_id : string) (host status : option string)
    (port max_load' : option Z) (max_load : Z)
    (capabilities metadata path url model_type description : option string) :
  Commands.ends_cleanly tr
    (Workers.register_worker server json_loads config name worker_type host port
       max_load capabilities metadata tr) ∧
  Commands.ends_cleanly tr
    (Commands.update_worker server json_loads config worker_id status max_load'
       capabilities metadata tr) ∧
  Commands.ends_cleanly tr
    (Commands.register_model server json_loads config name path url model_type
       description metadata tr).
Proof.
  split; [apply register_worker_ends_cleanly|].
  split; [apply update_worker_ends_cleanly|apply register_model_ends_cleanly].
Qed.

(** X11.  An option that is not JSON stops the [register] command of the
    workers group before anything is sent: it prints
    ["Invalid JSON in capabilities"] (or ["... metadata"], when the
    capabilities are absent or decode) and returns, with no attempt and no
    session. *)
Theorem X11_invalid_json_option_sends_nothing (server : nat → Request → reply)
    (json_loads : string → option pyval) (config : Config.CLIConfig) (tr : trace)
    (name worker_type : string) (host : option string) (port : option Z)
    (max_load : Z) (capabilities metadata : option string) (raw : string) :
  json_loads raw = None →
  (Workers.given_str capabilities = Some raw →
   Workers.register_worker server json_loads config name worker_type host port
     max_load capabilities metadata tr =
   (Return tt, tr ++ [Printed (ErrorMessage "Invalid JSON in capabilities")])) ∧
  (Workers.given_str metadata = Some raw →
   (∀ text, Workers.given_str capabilities = Some text → json_loads text ≠ None) →
   Workers.register_worker server json_loads config name worker_type host port
     max_load capabilities metadata tr =
   (Return tt, tr ++ [Printed (ErrorMessage "Invalid JSON in metadata")])).
Proof.
  intros Hraw. split.
  - intros Hc. unfold Workers.register_worker, Workers.register_worker_body.
    by rewrite Hc, Hraw.
  - intros Hm Hcaps. unfold Workers.register_worker, Workers.register_worker_body.
    rewrite Hm, Hraw.
    destruct (Workers.given_str capabilities) as [text|]; [|reflexivity].
    destruct (json_loads text) as [caps|] eqn:Ht; [reflexivity|].
    by destruct (Hcaps text eq_refl).
Qed.

Lemma X11_invalid_json_option_sends_nothing_witness :
  Workers.register_worker (Samples.always (Samples.bare 201 "Created")) (λ _, None)
    Config.defaults "w1" "general" None None 1 (Some "{oops") None [] =
  (Return tt, [] ++ [Printed (ErrorMessage "Invalid JSON in capabilities")]).
Proof.
  refine (proj1 (X11_invalid_json_option_sends_nothing
    (Samples.always (Samples.bare 201 "Created")) (λ _, None)
    Config.defaults [] "w1" "general" None None 1 (Some "{oops") None "{oops" _) _);
    reflexivity.
Defined.

(** X12.  The [update] command of the workers group sends nothing when no
    update is given: with no status, no maximum load and no JSON option it
    prints ["No updates specified"] and returns.  A maximum load of 0 is an
    update ([max_load is not None]): given alone, the document
    [{"max_load": 0}] is handed to the facade [update_worker], whose
    outcome the command reports, and it is PUT to
    [/api/workers/<worker_id>] unless requests refuses to send it. *)
Theorem X12_update_needs_an_update (server : nat → Request → reply)
    (json_loads : string → option pyval) (config : Config.CLIConfig) (tr : trace)
    (worker_id : string) (status capabilities metadata : option string) :
  Workers.given_str status = None →
  Workers.given_str capabilities = None →
  Workers.given_str metadata = None →
  Commands.update_worker server json_loads config worker_id status None
    capabilities metadata tr =
  (Return tt, tr ++ [Printed (ErrorMessage "No updates specified")]) ∧
  ∀ z : Z,
    let rq := Client.request_of (Client.__init__ config) "PUT"
                ("/api/workers/" +:+ worker_id)
                (Client.with_json (PDict {[ "max_load"%string := PInt z ]})) in
    let call := Client.update_worker server (Client.__init__ config) worker_id
                  (PDict {[ "max_load"%string := PInt z ]}) tr in
    Commands.update_worker server json_loads config worker_id status (Some z)
      capabilities metadata tr =
    (Return tt,
     call.2 ++ Commands.after_call config
                 ("Worker '" +:+ worker_id +:+ "' updated successfully")
                 "Failed to update worker: " call.1) ∧
    (Requests.refused (server (attempts tr) rq) = false →
     ∃ more,
       (Commands.update_worker server json_loads config worker_id status (Some z)
          capabilities metadata tr).2 = tr ++ Sent rq :: more).
Proof.
  intros Hs Hc Hm. split.
  - unfold Commands.update_worker, Commands.update_worker_body,
      Commands.load_json_option.
    by rewrite Hs, Hc, Hm.
  - intros z rq call.
    assert (Commands.update_worker server json_loads config worker_id status (Some z)
              capabilities metadata tr =
            (Return tt,
             call.2 ++ Commands.after_call config
                         ("Worker '" +:+ worker_id +:+ "' updated successfully")
                         "Failed to update worker: " call.1)) as Hout.
    { unfold Commands.update_worker, Commands.update_worker_body,
        Commands.load_json_option.
      rewrite Hs, Hc, Hm. cbn [Workers.set_if].
      change (size (<["max_load"%string := PInt z]> (∅ : gmap string pyval)) =? 0)%nat
        with false.
      cbv beta iota zeta. by rewrite send_and_report_spec. }
    split; [exact Hout|].
    intros Hsent. rewrite Hout. cbn [snd].
    destruct (dispatch_sends server (Client.__init__ config) "PUT"
                ("/api/workers/" +:+ worker_id)
                (Client.with_json (PDict {[ "max_load"%string := PInt z ]})) tr Hsent)
      as [more Hmore].
    subst call. unfold Client.update_worker. rewrite Hmore.
    eexists. rewrite <- app_assoc. reflexivity.
Qed.

Lemma X12_update_needs_an_update_witness :
  Commands.update_worker (Samples.always (Samples.bare 204 "No Content")) (λ _, None)
    Config.defaults "w1" (Some "") None None (Some "") [] =
  (Return tt, [] ++ [Printed (ErrorMessage "No updates specified")]).
Proof.
  refine (proj1 (X12_update_needs_an_update
    (Samples.always (Samples.bare 204 "No Content")) (λ _, None)
    Config.defaults [] "w1" (Some "") None (Some "") _ _ _)); reflexivity.
Defined.

(** X13.  The [register] command of the models group asks for a source
    first: with neither a non-empty [--path] nor a non-empty [--url] it
    prints ["Either --path or --url must be specified"] and returns, with
    nothing sent, whatever the other options are.  With a path, no URL and
    no metadata it hands to the facade [create_model] the document with
    the name, the path, the type (["unknown"] when not given) and the
    description ([""] when not given), reports the outcome, and the
    document is POSTed to [/api/models] unless requests refuses to send
    it. *)
Theorem X13_register_model_needs_a_source (server : nat → Request → reply)
    (json_loads : string → option pyval) (config : Config.CLIConfig) (tr : trace)
    (name : string) (path url model_type description metadata : option string) :
  (Config.truthy_str path = false → Config.truthy_str url = false →
   Commands.register_model server json_loads config name path url model_type
     description metadata tr =
   (Return tt,
    tr ++ [Printed (ErrorMessage "Either --path or --url must be specified")])) ∧
  (∀ (c : ascii) (rest : string),
     let document : gmap string pyval :=
       {[ "path" := PStr (String c rest);
          "name" := PStr name;
          "type" := PStr (Commands.or_default model_type "unknown");
          "description" := PStr (Commands.or_default description "") ]}%string in
     let rq := Client.request_of (Client.__init__ config) "POST" "/api/models"
                 (Client.with_json (PDict document)) in
     let call := Client.create_model server (Client.__init__ config) (PDict document) tr in
     Commands.register_model server json_loads config name (Some (String c rest))
       None model_type description None tr =
     (Return tt,
      call.2 ++ Commands.after_call config
                  ("Model '" +:+ name +:+ "' registered successfully")
                  "Failed to register model: " call.1) ∧
     (Requests.refused (server (attempts tr) rq) = false →
      ∃ more,
        (Commands.register_model server json_loads config name (Some (String c rest))
           None model_type description None tr).2 = tr ++ Sent rq :: more)).
Proof.
  split.
  - intros Hp Hu. unfold Commands.register_model. by rewrite Hp, Hu.
  - intros c rest document rq call.
    assert (Commands.register_model server json_loads config name
              (Some (String c rest)) None model_type description None tr =
            (Return tt,
             call.2 ++ Commands.after_call config
                         ("Model '" +:+ name +:+ "' registered successfully")
                         "Failed to register model: " call.1)) as Hout.
    { unfold Commands.register_model, Commands.register_model_body,
        Commands.load_json_option.
      cbn [Config.truthy_str PyStr.truthy negb andb Workers.given_str Workers.set_if].
      cbv beta iota zeta. by rewrite send_and_report_spec. }
    split; [exact Hout|].
    intros Hsent. rewrite Hout. cbn [snd].
    destruct (dispatch_sends server (Client.__init__ config) "POST" "/api/models"
                (Client.with_json (PDict document)) tr Hsent) as [more Hmore].
    subst call. unfold Client.create_model. rewrite Hmore.
    eexists. rewrite <- app_assoc. reflexivity.
Qed.

Lemma X13_register_model_needs_a_source_witness :
  Commands.register_model (Samples.always (Samples.bare 201 "Created")) (λ _, None)
    Config.defaults "m1" (Some "") None (Some "llm") None (Some "{oops") [] =
  (Return tt,
   [] ++ [Printed (ErrorMessage "Either --path or --url must be specified")]).
Proof.
  refine (proj1 (X13_register_model_needs_a_source
    (Samples.always (Samples.bare 201 "Created")) (λ _, None)
    Config.defaults [] "m1" (Some "") None (Some "llm") None (Some "{oops")) _ _);
    reflexivity.
Defined.

(** X14.  What the [register] command of the workers group prints follows
    the outcome of the facade call: when the call returns, the success
    message, the result in verbose mode, and then the session is closed;
    when it raises, the session is closed first and then the error is
    reported, a [BitingLipAPIError] by [handle_api_error] and any other
    exception as ["Failed to register worker: ..."].  The command adds
    nothing else and sends nothing more. *)
Theorem X14_register_reports_the_outcome (server : nat → Request → reply)
    (json_loads : string → option pyval) (config : Config.CLIConfig) (tr : trace)
    (name worker_type : string) (max_load : Z) :
  let worker_data : gmap string pyval :=
    {[ "name" := PStr name; "type" := PStr worker_type;
       "max_load" := PInt max_load; "status" := PStr "available" ]}%string in
  let call := Client.register_worker server (Client.__init__ config) (PDict worker_data) tr in
  Workers.register_worker server json_loads config name worker_type None None
    max_load None None tr =
  (Return tt,
   call.2 ++
   match call.1 with
   | Return v =>
       Printed (SuccessMessage ("Worker '" +:+ name +:+ "' registered successfully"))
       :: (if Config.verbose config then [Printed (JsonDump v)] else [])
       ++ [SessionClosed]
   | Raise e =>
       [SessionClosed;
        Printed (if is_BitingLipAPIError e then ApiErrorReport e
                 else FailureMessage "Failed to register worker: " e)]
   end).
Proof.
  cbn zeta.
  exact (send_and_report_spec config
           (λ client, Client.register_worker server client
                        (PDict {[ "name" := PStr name; "type" := PStr worker_type;
                                  "max_load" := PInt max_load;
                                  "status" := PStr "available" ]}%string))
           ("Worker '" +:+ name +:+ "' registered successfully")
           "Failed to register worker: " tr).
Qed.

(** ** cli/utils.py *)

Section TruncateFacts.

Lemma string_length_take (n : nat) (s : string) :
  String.length (Utils.take n s) = Nat.min n (String.length s).
Proof.
  revert s. induction n as [|n IH]; intros [|a s]; cbn; [reflexivity..|].
  by rewrite IH.
Qed.

Lemma string_length_append (a b : string) :
  String.length (a +:+ b) = (String.length a + String.length b)%nat.
Proof.
  induction a as [|x a IH]; [reflexivity|].
  rewrite append_cons. cbn. by rewrite IH.
Qed.

Lemma len_truncated (text : string) (max_length : Z) :
  Utils.len (Utils.slice_to text (max_length - 3) +:+ "...") =
  Utils.len (Utils.slice_to text (max_length - 3)) + 3.
Proof. unfold Utils.len. rewrite string_length_append. cbn. lia. Qed.

End TruncateFacts.

(** X15.  For a limit of at least 3, [truncate_string] keeps its promise:
    a text within the limit is returned unchanged, a longer one is cut to
    its first [max_length - 3] characters followed by ["..."], the result
    having exactly [max_length] characters. *)
Theorem X15_truncate_string_fits (text : string) (max_length : Z) :
  3 <= max_length →
  Utils.len (Utils.truncate_string text max_length) <= max_length ∧
  (Utils.len text <= max_length → Utils.truncate_string text max_length = text) ∧
  (max_length < Utils.len text →
   Utils.truncate_string text max_length =
   Utils.take (Z.to_nat (max_length - 3)) text +:+ "..." ∧
   Utils.len (Utils.truncate_string text max_length) = max_length).
Proof.
  intros H3. unfold Utils.truncate_string.
  destruct (Z.leb_spec (Utils.len text) max_length) as [Hle|Hgt].
  - split; [exact Hle|]. split; [reflexivity|lia].
  - assert (Utils.slice_to text (max_length - 3) =
            Utils.take (Z.to_nat (max_length - 3)) text) as Hslice.
    { unfold Utils.slice_to. destruct (Z.ltb_spec (max_length - 3) 0); [lia|].
      f_equal. lia. }
    assert (Utils.len (Utils.slice_to text (max_length - 3) +:+ "...") = max_length)
      as Hlen.
    { rewrite len_truncated, Hslice. unfold Utils.len in *.
      rewrite string_length_take. lia. }
    split; [lia|]. split; [lia|]. intros _. split; [by rewrite Hslice|exact Hlen].
Qed.

Lemma X15_truncate_string_fits_witness :
  Utils.len (Utils.truncate_string "a rather long model name" 10) <= 10.
Proof.
  refine (proj1 (X15_truncate_string_fits "a rather long model name" 10 _)). lia.
Defined.

(** X16.  For a limit below 3 the result of [truncate_string] does not
    fit: a text longer than the limit comes back with more characters than
    the limit, since the three dots alone exceed it and the slice
    [text[:max_length - 3]] counts from the end of the text. *)
Theorem X16_truncate_string_small_limit (text : string) (max_length : Z) :
  max_length < 3 →
  max_length < Utils.len text →
  max_length < Utils.len (Utils.truncate_string text max_length) ∧
  Utils.truncate_string text max_length =
  Utils.take (Z.to_nat (Utils.len text + max_length - 3)) text +:+ "...".
Proof.
  intros H3 Hgt. unfold Utils.truncate_string.
  destruct (Z.leb_spec (Utils.len text) max_length) as [Hle|_]; [lia|].
  split.
  - rewrite len_truncated. unfold Utils.len. lia.
  - unfold Utils.slice_to. destruct (Z.ltb_spec (max_length - 3) 0); [|lia].
    do 2 f_equal. lia.
Qed.

Lemma X16_truncate_string_small_limit_witness :
  2 < Utils.len (Utils.truncate_string "abcdefghij" 2) ∧
  Utils.truncate_string "abcdefghij" 2 =
  Utils.take (Z.to_nat (Utils.len "abcdefghij" + 2 - 3)) "abcdefghij" +:+ "...".
Proof.
  refine (X16_truncate_string_small_limit "abcdefghij" 2 _ _);
    [lia|vm_compute; reflexivity].
Defined.

Section PairFacts.

Lemma mem_append (c : ascii) (a b : string) :
  PyStr.mem c (a +:+ b) = PyStr.mem c a || PyStr.mem c b.
Proof.
  induction a as [|x a IH]; [reflexivity|].
  rewrite append_cons. cbn [PyStr.mem]. by destruct (Ascii.eqb x c).
Qed.

Lemma split_once_join (sep : ascii) (key value : string) :
  PyStr.mem sep key = false →
  Utils.split_once sep (key +:+ String sep value) = (key, value).
Proof.
  induction key as [|a key IH]; intros Hk.
  - rewrite append_nil. cbn [Utils.split_once]. by rewrite Ascii.eqb_refl.
  - rewrite append_cons. cbn [Utils.split_once]. cbn [PyStr.mem] in Hk.
    destruct (Ascii.eqb a sep); [discriminate|]. by rewrite IH.
Qed.

Lemma parse_pairs_from_app (pairs more : list string) :
  ∀ result parsed,
    Utils.parse_pairs_from result pairs = Utils.Returns parsed →
    Utils.parse_pairs_from result (pairs ++ more) = Utils.parse_pairs_from parsed more.
Proof.
  induction pairs as [|p pairs IH]; intros result parsed.
  - by intros [= ->].
  - cbn [app Utils.parse_pairs_from].
    destruct (negb (PyStr.mem "=" p)); [discriminate|].
    destruct (Utils.split_once "=" p) as [key value]. apply IH.
Qed.

Lemma parse_pairs_from_good (pairs : list string) :
  Forall (λ p, PyStr.mem "=" p = true) pairs →
  ∀ result, ∃ parsed, Utils.parse_pairs_from result pairs = Utils.Returns parsed.
Proof.
  induction 1 as [|p pairs Hp _ IH]; intros result; [by eexists|].
  cbn [Utils.parse_pairs_from]. rewrite Hp. cbn [negb].
  destruct (Utils.split_once "=" p) as [key value]. apply IH.
Qed.

End PairFacts.

(** X17.  [parse_key_value_pairs] fails on the first argument that
    contains no ["="]: whatever comes after it, and whatever was parsed
    before it, the call raises [BadParameter] naming that argument and
    returns no dictionary. *)
Theorem X17_pair_without_equals_is_rejected (good rest : list string) (bad : string) :
  Forall (λ p, PyStr.mem "=" p = true) good →
  PyStr.mem "=" bad = false →
  Utils.parse_key_value_pairs (good ++ bad :: rest) =
  Utils.RaisesBadParameter ("Invalid key=value pair: " +:+ bad).
Proof.
  intros Hgood Hbad. unfold Utils.parse_key_value_pairs.
  destruct (parse_pairs_from_good good Hgood ∅) as [parsed Hparsed].
  rewrite (parse_pairs_from_app good (bad :: rest) ∅ parsed Hparsed).
  cbn [Utils.parse_pairs_from]. by rewrite Hbad.
Qed.

Lemma X17_pair_without_equals_is_rejected_witness :
  Utils.parse_key_value_pairs
    (["gpu=0"; "zone=eu"]%string ++ "verbose"%string :: ["a=b"]%string) =
  Utils.RaisesBadParameter ("Invalid key=value pair: " +:+ "verbose").
Proof.
  refine (X17_pair_without_equals_is_rejected ["gpu=0"; "zone=eu"]%string
            ["a=b"]%string "verbose" _ _).
  - repeat constructor.
  - reflexivity.
Defined.

(** X18.  [parse_key_value_pairs] reads its arguments from left to right:
    when the arguments so far parse to a dictionary, one more argument
    [key=value], with no ["="] in the key, sets the entry of the stripped
    key to the stripped value, replacing an earlier entry of that key and
    leaving the others; the value is everything after the first ["="] and
    may contain further ones; and when every argument contains an ["="]
    the call returns a dictionary. *)
Theorem X18_pairs_are_read_left_to_right (pairs : list string)
    (parsed : gmap string string) (key value : string) :
  Utils.parse_key_value_pairs pairs = Utils.Returns parsed →
  PyStr.mem "=" key = false →
  Utils.parse_key_value_pairs (pairs ++ [key +:+ "=" +:+ value]) =
  Utils.Returns (<[ Utils.strip key := Utils.strip value ]> parsed) ∧
  (∀ more, Forall (λ p, PyStr.mem "=" p = true) more →
           ∃ all, Utils.parse_key_value_pairs (pairs ++ more) = Utils.Returns all).
Proof.
  intros Hparsed Hkey. unfold Utils.parse_key_value_pairs in *. split.
  - rewrite (parse_pairs_from_app pairs _ ∅ parsed Hparsed).
    cbn [Utils.parse_pairs_from].
    change (key +:+ "=" +:+ value) with (key +:+ String "=" value).
    rewrite mem_append, split_once_join by exact Hkey.
    cbn [PyStr.mem]. rewrite Ascii.eqb_refl, orb_true_r. reflexivity.
  - intros more Hmore.
    rewrite (parse_pairs_from_app pairs more ∅ parsed Hparsed).
    by apply parse_pairs_from_good.
Qed.

Lemma X18_pairs_are_read_left_to_right_witness :
  Utils.parse_key_value_pairs (["zone=eu"]%string ++ [" zone " +:+ "=" +:+ " us=east "]) =
  Utils.Returns (<[ Utils.strip " zone " := Utils.strip " us=east " ]>
                   {[ "zone"%string := "eu"%string ]}).
Proof.
  refine (proj1 (X18_pairs_are_read_left_to_right ["zone=eu"]%string
                   {[ "zone"%string := "eu"%string ]} " zone " " us=east " _ _));
    reflexivity.
Defined.

Section PageFacts.

Context {A : Type} (data : list A) (headers : list string).
Context (page_size total_pages : Z) (confirm : nat → bool).

(** The loop of [print_table_with_pagination], one turn at a time. *)
Lemma page_loop_unfold (current_page : Z) (asked : nat) (out : list (Utils.shown A)) :
  Utils.page_loop data headers page_size total_pages confirm current_page asked out =
  if total_pages <=? current_page
  then out ++ Utils.page_output data headers page_size total_pages current_page
  else if confirm asked
       then Utils.page_loop data headers page_size total_pages confirm
              (current_page + 1) (S asked)
              (out ++ Utils.page_output data headers page_size total_pages current_page
                   ++ [Utils.Asked])
       else out ++ Utils.page_output data headers page_size total_pages current_page
                ++ [Utils.Asked].
Proof.
  rewrite Utils.page_loop_equation_1. unfold Utils.page_loop_unfold_clause_1.
  destruct (Urllib3.inspect (total_pages <=? current_page)) as [[|] H].
  - assert (∀ X Y : list (Utils.shown A),
              (if total_pages <=? current_page then X else Y) = X) as ->
      by (intros; by rewrite H).
    reflexivity.
  - assert (∀ X Y : list (Utils.shown A),
              (if total_pages <=? current_page then X else Y) = Y) as ->
      by (intros; by rewrite H).
    unfold Utils.page_loop_unfold_clause_1_clause_2.
    by destruct (confirm asked).
Qed.

Lemma tables_app (out out' : list (Utils.shown A)) :
  Utils.tables (out ++ out') = Utils.tables out ++ Utils.tables out'.
Proof.
  induction out as [|s out IH]; [reflexivity|].
  destruct s; cbn; by rewrite IH.
Qed.

Lemma questions_app (out out' : list (Utils.shown A)) :
  Utils.questions (out ++ out') = (Utils.questions out + Utils.questions out')%nat.
Proof.
  induction out as [|s out IH]; [reflexivity|].
  destruct s; cbn; by rewrite IH.
Qed.

(** For a positive page size, page [p] holds the [page_size] rows after
    the first [(p - 1) * page_size] ones. *)
Lemma page_rows_positive (current_page : Z) :
  0 < page_size → 1 <= current_page →
  Utils.page_rows data page_size current_page =
  take (Z.to_nat page_size) (drop (Z.to_nat ((current_page - 1) * page_size)) data).
Proof.
  intros Hps Hcp. unfold Utils.page_rows, Utils.py_slice.
  set (n := Z.of_nat (List.length data)).
  set (start := (current_page - 1) * page_size).
  assert (0 <= start) as Hstart by (subst start; nia).
  assert (0 <= n) as Hn by (subst n; lia).
  destruct (Z.ltb_spec (Z.min (start + page_size) n) 0) as [Hneg|_]; [lia|].
  destruct (Z.ltb_spec start 0) as [Hneg|_]; [lia|].
  destruct (Z.le_gt_cases start n) as [Hin|Hout].
  - rewrite (Z.min_l start n) by lia.
    destruct (Z.le_gt_cases (start + page_size) n) as [Hfull|Hlast].
    + f_equal. lia.
    + rewrite !take_ge; [reflexivity|rewrite length_drop; subst n; lia..].
  - rewrite (Z.min_r start n) by lia.
    rewrite (drop_ge data (Z.to_nat n)) by (subst n; lia).
    rewrite (drop_ge data (Z.to_nat start)) by (subst n; lia).
    by rewrite !take_nil.
Qed.

(** The rows of the first [j] pages, put end to end, are the first
    [j * page_size] rows. *)
Lemma concat_pages (j : nat) :
  0 < page_size →
  List.concat (map (λ i, Utils.page_rows data page_size (1 + Z.of_nat i)) (seq 0 j)) =
  take (j * Z.to_nat page_size) data.
Proof.
  intros Hps. induction j as [|j IH]; [reflexivity|].
  rewrite seq_S, map_app, concat_app, IH. cbn [map List.concat Nat.add].
  rewrite app_nil_r, page_rows_positive by lia.
  replace (Z.to_nat ((1 + Z.of_nat j - 1) * page_size))
    with (j * Z.to_nat page_size)%nat by nia.
  rewrite take_take_drop. f_equal. lia.
Qed.

(** The pages the loop shows from page [current_page] on. *)
Lemma page_loop_pages (m : nat) :
  ∀ (current_page : Z) (asked : nat) (out : list (Utils.shown A)),
    Z.to_nat (total_pages - current_page) = m →
    ∃ j : nat,
      (1 <= j <= S m)%nat ∧
      Utils.tables
        (Utils.page_loop data headers page_size total_pages confirm current_page asked out)
      = Utils.tables out
        ++ map (λ i, Utils.page_rows data page_size (current_page + Z.of_nat i)) (seq 0 j) ∧
      (Utils.questions
         (Utils.page_loop data headers page_size total_pages confirm current_page asked out)
       <= Utils.questions out + j)%nat ∧
      ((∀ k, confirm k = true) →
       j = S m ∧
       Utils.questions
         (Utils.page_loop data headers page_size total_pages confirm current_page asked out)
       = (Utils.questions out + m)%nat).
Proof.
  induction m as [|m IH]; intros current_page asked out Hm;
    rewrite page_loop_unfold.
  - destruct (Z.leb_spec total_pages current_page) as [_|Hlt]; [|lia].
    exists 1%nat. rewrite tables_app, questions_app. cbn.
    rewrite Z.add_0_r. repeat split; lia.
  - destruct (Z.leb_spec total_pages current_page) as [Hge|_]; [lia|].
    destruct (confirm asked) eqn:Hc.
    + destruct (IH (current_page + 1) (S asked)
                  (out ++ Utils.page_output data headers page_size total_pages
                            current_page ++ [Utils.Asked]))
        as (j & Hj & Ht & Hq & Hall); [lia|].
      exists (S j). rewrite Ht. rewrite !tables_app, !questions_app in *.
      cbn [Utils.page_output Utils.tables Utils.questions] in *.
      split; [lia|]. split; [|split; [lia|]].
      * rewrite app_nil_r, <- app_assoc. f_equal.
        cbn [seq map app]. rewrite Z.add_0_r. f_equal.
        rewrite <- seq_shift, map_map. apply map_ext. intros i. f_equal. lia.
      * intros Hyes. destruct (Hall Hyes) as [-> Hqs]. split; [reflexivity|].
        rewrite Hqs. lia.
    + exists 1%nat. rewrite !tables_app, !questions_app. cbn.
      rewrite Z.add_0_r. split; [lia|]. split; [reflexivity|]. split; [lia|].
      intros Hyes. rewrite Hyes in Hc. discriminate.
Qed.

End PageFacts.

(** X19.  With a positive page size [print_table_with_pagination] shows
    the rows of a non-empty table in order, without gap and without
    repetition: the tables shown, put end to end, are the first
    [j * page_size] rows for the number [j >= 1] of pages shown, no page has
    more than [page_size] rows, and the question is asked at most once per
    page; when every question is answered yes, all rows are shown, on
    [ceil(len(data) / page_size)] pages, with one question between two
    pages. *)
Theorem X19_pages_cover_the_data {A : Type} (row : A) (more : list A)
    (headers : list string) (page_size : Z) (confirm : nat → bool) :
  0 < page_size →
  ∃ out,
    Utils.print_table_with_pagination (row :: more) headers page_size confirm =
    Utils.Returns out ∧
    (∃ j : nat,
        (1 <= j)%nat ∧ List.length (Utils.tables out) = j ∧
        List.concat (Utils.tables out) = take (j * Z.to_nat page_size) (row :: more) ∧
        (Utils.questions out <= j)%nat) ∧
    Forall (λ rows, (List.length rows <= Z.to_nat page_size)%nat) (Utils.tables out) ∧
    ((∀ k, confirm k = true) →
     List.concat (Utils.tables out) = row :: more ∧
     Z.of_nat (List.length (Utils.tables out)) =
     (Z.of_nat (List.length (row :: more)) + page_size - 1) / page_size ∧
     S (Utils.questions out) = List.length (Utils.tables out)).
Proof.
  intros Hps. unfold Utils.print_table_with_pagination.
  destruct (Z.eqb_spec page_size 0) as [?|_]; [lia|].
  set (data := row :: more).
  set (n := Z.of_nat (List.length data)).
  set (total_pages := (n + page_size - 1) / page_size).
  assert (1 <= n) as Hn by (subst n data; cbn [List.length]; lia).
  assert (1 <= total_pages) as Htp.
  { subst total_pages. apply Z.div_le_lower_bound; lia. }
  assert (n <= page_size * total_pages) as Hcover.
  { pose proof (Z.mul_succ_div_gt (n + page_size - 1) page_size Hps).
    subst total_pages. lia. }
  destruct (page_loop_pages data headers page_size total_pages confirm
              (Z.to_nat (total_pages - 1)) 1 0%nat [] eq_refl)
    as (j & Hj & Ht & Hq & Hall).
  cbn [Utils.tables Utils.questions app Nat.add] in Ht, Hq, Hall.
  eexists. split; [reflexivity|]. rewrite Ht. split; [|split].
  - exists j. rewrite length_map, length_seq, concat_pages by exact Hps.
    repeat split; lia.
  - apply Forall_map, Forall_forall. intros i _. cbn.
    rewrite page_rows_positive by lia. rewrite length_take. lia.
  - intros Hyes. destruct (Hall Hyes) as [-> Hqs].
    rewrite length_map, length_seq, concat_pages, Hqs by exact Hps.
    split; [|split; lia].
    apply take_ge. fold n. nia.
Qed.

Lemma X19_pages_cover_the_data_witness :
  ∃ out,
    Utils.print_table_with_pagination (1 :: [2; 3; 4; 5]) ["n"]%string 2 (λ _, true) =
    Utils.Returns out ∧
    (∃ j : nat,
        (1 <= j)%nat ∧ List.length (Utils.tables out) = j ∧
        List.concat (Utils.tables out) = take (j * Z.to_nat 2) (1 :: [2; 3; 4; 5]) ∧
        (Utils.questions out <= j)%nat) ∧
    Forall (λ rows, (List.length rows <= Z.to_nat 2)%nat) (Utils.tables out) ∧
    ((∀ k, (λ _ : nat, true) k = true) →
     List.concat (Utils.tables out) = 1 :: [2; 3; 4; 5] ∧
     Z.of_nat (List.length (Utils.tables out)) =
     (Z.of_nat (List.length (1 :: [2; 3; 4; 5])) + 2 - 1) / 2 ∧
     S (Utils.questions out) = List.length (Utils.tables out)).
Proof.
  refine (X19_pages_cover_the_data 1 [2; 3; 4; 5] ["n"]%string 2 (λ _, true) _). lia.
Defined.

(** X20.  A negative page size is not refused: for a non-empty table the
    function shows a single page, made of all rows but the last
    [-page_size] ones (the slice [data[0:page_size]]), asks nothing and
    returns; the rows left out are never shown. *)
Theorem X20_negative_page_size_drops_rows {A : Type} (row : A) (more : list A)
    (headers : list string) (page_size : Z) (confirm : nat → bool) :
  page_size < 0 →
  ∃ text,
    Utils.print_table_with_pagination (row :: more) headers page_size confirm =
    Utils.Returns
      [Utils.Table
         (take (List.length (row :: more) - Z.to_nat (- page_size)) (row :: more))
         headers;
       Utils.Line text].
Proof.
  intros Hps. unfold Utils.print_table_with_pagination.
  destruct (Z.eqb_spec page_size 0) as [?|_]; [lia|].
  set (data := row :: more).
  set (n := Z.of_nat (List.length data)).
  assert (1 <= n) as Hn by (subst n data; cbn [List.length]; lia).
  assert ((n + page_size - 1) / page_size <= 1) as Htp.
  { rewrite <- (Z.div_opp_opp (n + page_size - 1) page_size) by lia.
    apply Z.lt_succ_r, Z.div_lt_upper_bound; lia. }
  rewrite page_loop_unfold.
  destruct (Z.leb_spec ((n + page_size - 1) / page_size) 1) as [_|?]; [|lia].
  assert (Utils.page_rows data page_size 1 =
          take (List.length data - Z.to_nat (- page_size)) data) as Hrows;
    [|unfold Utils.page_output; cbv zeta; rewrite Hrows; eexists; reflexivity].
  unfold Utils.page_rows, Utils.py_slice. cbv zeta. fold n.
  replace ((1 - 1) * page_size) with 0 by lia.
  rewrite Z.add_0_l, (Z.min_l page_size n) by lia.
  destruct (Z.ltb_spec page_size 0) as [_|?]; [|lia].
  destruct (Z.ltb_spec 0 0) as [?|_]; [lia|].
  rewrite (Z.min_l 0 n) by lia.
  change (drop (Z.to_nat 0) data) with data.
  f_equal. subst n. lia.
Qed.

Lemma X20_negative_page_size_drops_rows_witness :
  ∃ text,
    Utils.print_table_with_pagination (1 :: [2; 3; 4; 5]) ["n"]%string (-2) (λ _, true) =
    Utils.Returns
      [Utils.Table
         (take (List.length (1 :: [2; 3; 4; 5]) - Z.to_nat (- -2)) (1 :: [2; 3; 4; 5]))
         ["n"]%string;
       Utils.Line text].
Proof.
  refine (X20_negative_page_size_drops_rows 1 [2; 3; 4; 5] ["n"]%string (-2)
            (λ _, true) _). lia.
Defined.

(** X21.  What [handle_api_error] shows after a failed call.  After a
    [RequestException] of the exchange: the single line
    ["API Error: Request failed: ..."] with the text of the exception,
    without status.  After an error response with a JSON object as body
    and a non-zero status: the line with the status and, as message, the
    [detail] entry when there is one and ["HTTP <code>: <reason>"]
    otherwise, then the [detail] entry again as ["Details: ..."], or else
    the [message] entry as ["Message: ..."]; an empty object adds no
    line.  The [ValueError] of a request that requests refuses for its
    timeout is no [BitingLipAPIError]: it leaves the call as it is and
    [handle_api_error] shows nothing for it. *)
Theorem X21_error_report_after_a_call (server : nat → Request → reply)
    (self : Client.BitingLipClient) (method endpoint : string) (kw : Client.kwargs)
    (tr tr1 : trace) :
  (∀ cls msg,
      Client.exchange server self method endpoint kw tr =
      (Raise (RequestException cls msg), tr1) →
      Utils.report_after (Client._make_request server self method endpoint kw tr).1 =
      [Utils.ApiErrorLine None (PStr ("Request failed: " +:+ msg))]) ∧
  (∀ response d,
      Client.exchange server self method endpoint kw tr = (Return response, tr1) →
      Client.is_error_status (status_code response) →
      status_code response ≠ 0 →
      json_body response = Some (PDict d) →
      Utils.report_after (Client._make_request server self method endpoint kw tr).1 =
      Utils.ApiErrorLine (Some (status_code response))
        (default (Client.http_message response) (d !! "detail"%string))
      :: match d !! "detail"%string with
         | Some detail => [Utils.DetailsLine detail]
         | None =>
             match d !! "message"%string with
             | Some msg => [Utils.MessageLine msg]
             | None => []
             end
         end) ∧
  (∀ msg,
      Client.exchange server self method endpoint kw tr = (Raise (ValueError msg), tr1) →
      (Client._make_request server self method endpoint kw tr).1 = Raise (ValueError msg) ∧
      Utils.report_after (Client._make_request server self method endpoint kw tr).1 = []).
Proof.
  split; [|split].
  - intros cls msg Hx.
    by rewrite (dispatch_request_exception server _ _ _ _ _ _ _ _ Hx).
  - intros response d Hx Herr Hst Hj.
    rewrite (dispatch_error_object server _ _ _ _ _ _ _ _ Hx Herr Hj).
    cbn [fst Utils.report_after]. unfold Utils.handle_api_error. cbv zeta.
    destruct (Z.eqb_spec (status_code response) 0) as [?|_]; [done|].
    f_equal. cbn [Utils.py_truthy].
    destruct (Nat.eqb_spec (size d) 0) as [Hempty|_]; [|reflexivity].
    apply map_size_empty_iff in Hempty as ->. by rewrite !lookup_empty.
  - intros msg Hx. by rewrite (dispatch_value_error server _ _ _ _ _ _ _ Hx).
Qed.

Lemma X21_error_report_after_a_call_witness :
  Utils.report_after
    (Client._make_request (Samples.always Samples.model_not_found)
       Samples.default_client "GET" "/api/models/m1" Client.no_kwargs []).1 =
  [Utils.ApiErrorLine (Some 404) (PStr "model not found");
   Utils.DetailsLine (PStr "model not found")].
Proof.
  refine (proj1 (proj2 (X21_error_report_after_a_call
    (Samples.always Samples.model_not_found)
    Samples.default_client "GET" "/api/models/m1" Client.no_kwargs []
    [Sent (Client.request_of Samples.default_client "GET" "/api/models/m1"
                             Client.no_kwargs)]))
    Samples.model_not_found {[ "detail"%string := PStr "model not found" ]} _ _ _ _).
  - vm_compute. reflexivity.
  - unfold Client.is_error_status. cbn. lia.
  - cbn. lia.
  - reflexivity.
Defined.

(** ** Requests that are not sent, headers that cannot be read, redirects *)

Section Refusals.

Variable server : nat → Request → reply.

(** A refusal ends the exchange where it stands. *)
Lemma exchange_refused self method endpoint kw tr why :
  server (attempts tr) (Client.request_of self method endpoint kw) = Unsent why →
  Client.exchange server self method endpoint kw tr = (Raise (exception_of why), tr).
Proof.
  intros Hs. apply exchange_passes.
  rewrite send_unfold, urlopen_unfold. unfold Urllib3.after_attempt. rewrite Hs.
  by destruct why.
Qed.

(** A status that requests follows is not one urllib3 retries for the
    client. *)
Lemma redirect_not_retried (response : Response) :
  status_code response ∈ Requests.REDIRECT_STATI →
  status_code response ∉ [413; 429; 500; 502; 503; 504].
Proof.
  unfold Requests.REDIRECT_STATI. rewrite !elem_of_cons, !elem_of_nil.
  intros Hst Hin. lia.
Qed.

(** The dispatcher on a refusal: nothing is recorded, the
    [RequestException] is replaced and the [ValueError] passes. *)
Lemma dispatch_refused self method endpoint kw tr why :
  server (attempts tr) (Client.request_of self method endpoint kw) = Unsent why →
  Client._make_request server self method endpoint kw tr =
  (Raise match why with
         | BadTimeout str => ValueError str
         | BadRequest _ str =>
             BitingLipAPIError (PStr ("Request failed: " +:+ str)) None None
         end,
   tr).
Proof.
  intros Hs. pose proof (exchange_refused self method endpoint kw tr why Hs) as Hx.
  destruct why as [str|cls str]; cbn [exception_of] in Hx.
  - exact (dispatch_value_error server _ _ _ _ _ _ _ Hx).
  - exact (dispatch_request_exception server _ _ _ _ _ _ _ _ Hx).
Qed.

(** One turn of the redirect loop. *)
Lemma resolve_redirects_follow (self : Requests.Session) (budget : nat)
    (response : Response) (next : Request) (tr : trace) :
  Requests.get_redirect_target response = Some next →
  Requests.resolve_redirects server self (S budget) response tr =
  match Requests.send server (Requests.max_retries self) next tr with
  | (Return response', tr') =>
      Requests.resolve_redirects server self budget response' tr'
  | (Raise e, tr') => (Raise e, tr')
  end.
Proof. intros Hr. cbn [Requests.resolve_redirects]. by rewrite Hr. Qed.

End Refusals.

(** X22.  A request that requests refuses to send is not put on the wire:
    the call records nothing.  When the refusal is a [RequestException] (a
    URL, a header or a body requests cannot use) the call raises the
    [BitingLipAPIError] without status whose message is
    ["Request failed: "] followed by its text; when it is the [ValueError]
    of a timeout that is not positive, that [ValueError] leaves the call as
    it is. *)
Theorem X22_refused_request_is_not_sent (server : nat → Request → reply)
    (self : Client.BitingLipClient) (method endpoint : string) (kw : Client.kwargs)
    (tr : trace) (why : refusal) :
  server (attempts tr) (Client.request_of self method endpoint kw) = Unsent why →
  Client._make_request server self method endpoint kw tr =
  (Raise match why with
         | BadTimeout str => ValueError str
         | BadRequest _ str =>
             BitingLipAPIError (PStr ("Request failed: " +:+ str)) None None
         end,
   tr).
Proof.
  apply dispatch_refused.
Qed.

(** A timeout of 0: nothing is sent and the [ValueError] reaches the
    caller. *)
Lemma X22_refused_request_is_not_sent_witness :
  Client._make_request (Samples.unsendable (BadTimeout "timeout must be positive"))
    (Client.__init__ (Config.mkCLIConfig "http://localhost:8080" 0 3 None false false))
    "GET" "/api/health" Client.no_kwargs [] =
  (Raise (ValueError "timeout must be positive"), []).
Proof.
  refine (X22_refused_request_is_not_sent
            (Samples.unsendable (BadTimeout "timeout must be positive"))
            (Client.__init__
               (Config.mkCLIConfig "http://localhost:8080" 0 3 None false false))
            "GET" "/api/health" Client.no_kwargs []
            (BadTimeout "timeout must be positive") _).
  reflexivity.
Defined.

(** X23.  An answer that urllib3 would retry, with a [Retry-After] header
    it cannot read, ends the call after that one attempt: for a retryable
    method, a positive number of retries and a forced status, the call
    raises the [BitingLipAPIError] without status whose message is
    ["Request failed: Invalid Retry-After header: "] followed by the value
    of the header. *)
Theorem X23_unreadable_retry_after_ends_the_call (server : nat → Request → reply)
    (config : Config.CLIConfig) (method endpoint : string) (kw : Client.kwargs)
    (tr : trace) (response : Response) (value : string) :
  let self := Client.__init__ config in
  let rq := Client.request_of self method endpoint kw in
  PyStr.upper method ∈ Urllib3.DEFAULT_ALLOWED_METHODS →
  0 < Config.api_retries config →
  server (attempts tr) rq = Answers response →
  status_code response ∈ [429; 500; 502; 503; 504] →
  retry_after response = Some (Unreadable value) →
  Client._make_request server self method endpoint kw tr =
  (Raise (BitingLipAPIError
            (PStr ("Request failed: " +:+ ("Invalid Retry-After header: " +:+ value)))
            None None),
   tr ++ [Sent rq]).
Proof.
  intros self rq Hm Hn Hs Hst Hra.
  apply (dispatch_request_exception server _ _ _ _ _ InvalidHeader).
  apply exchange_passes. subst self. rewrite client_retry_shape.
  rewrite send_unfold, urlopen_unfold. unfold Urllib3.after_attempt. fold rq.
  rewrite Hs, (is_retry_forced _ _ _ _ _ _ _ Hm Hst).
  unfold Urllib3.increment, Urllib3.is_exhausted, Urllib3.sleep,
    Urllib3.get_retry_after.
  cbn [Urllib3.total Urllib3.respect_retry_after_header]. rewrite Hra.
  destruct (Z.eqb_spec (Config.api_retries config - 1) 0) as [Hz|Hz];
    [|destruct (Z.ltb_spec (Config.api_retries config - 1) 0) as [Hneg|Hpos]; [lia|]];
    reflexivity.
Qed.

(** A 503 that says [Retry-After: soon], with three retries configured:
    one attempt. *)
Lemma X23_unreadable_retry_after_ends_the_call_witness :
  Client._make_request
    (Samples.always {| status_code := 503; reason := "Service Unavailable";
                       text := ""; json_body := None;
                       retry_after := Some (Unreadable "soon"); redirect := None |})
    (Client.__init__ (Samples.config_with_retries 3)) "GET" "/api/health"
    Client.no_kwargs [] =
  (Raise (BitingLipAPIError
            (PStr ("Request failed: " +:+ ("Invalid Retry-After header: " +:+ "soon")))
            None None),
   [] ++ [Sent (Client.request_of (Client.__init__ (Samples.config_with_retries 3))
                  "GET" "/api/health" Client.no_kwargs)]).
Proof.
  refine (X23_unreadable_retry_after_ends_the_call _ (Samples.config_with_retries 3)
            "GET" "/api/health" Client.no_kwargs []
            {| status_code := 503; reason := "Service Unavailable";
               text := ""; json_body := None;
               retry_after := Some (Unreadable "soon"); redirect := None |}
            "soon" _ _ _ _ _).
  - compute_done.
  - cbn. lia.
  - reflexivity.
  - compute_done.
  - reflexivity.
Defined.



(** X25.  requests follows a redirect: when the answer to the request of
    a call has a status of 301, 302, 303, 307 or 308 and a target, one more
    attempt is made, with the request requests builds for the target, and
    the call is decided by the answer to that one (stated for an answer
    that is neither retried nor a redirect in its turn), so that the call
    makes two attempts whatever [api_retries] is. *)
Theorem X25_redirect_is_followed (server : nat → Request → reply)
    (config : Config.CLIConfig) (method endpoint : string) (kw : Client.kwargs)
    (tr : trace) (first final : Response) (next : Request) :
  let self := Client.__init__ config in
  let rq := Client.request_of self method endpoint kw in
  server (attempts tr) rq = Answers first →
  status_code first ∈ Requests.REDIRECT_STATI →
  redirect first = Some next →
  server (S (attempts tr)) next = Answers final →
  status_code final ∉ [413; 429; 500; 502; 503; 504] →
  Requests.get_redirect_target final = None →
  Client.exchange server self method endpoint kw tr =
  (Return final, tr ++ [Sent rq; Sent next]) ∧
  attempts (Client._make_request server self method endpoint kw tr).2 =
  (attempts tr + 2)%nat.
Proof.
  intros self rq Hfirst Hst Hnext Hfinal Hstop Hstay.
  assert (Client.exchange server self method endpoint kw tr =
          (Return final, tr ++ [Sent rq; Sent next])) as Hx.
  { unfold Client.exchange. rewrite request_unfold.
    change (mkRequest method (Config.get_api_url (Client.config self) endpoint)
              (Requests.headers (Client.session self)) (Client.params kw)
              (Client.json kw) (Client.timeout self)) with rq.
    subst self. rewrite client_retry_shape.
    rewrite (send_once server _ rq tr first Hfirst)
      by (apply is_retry_not_selected; by apply redirect_not_retried).
    change (Requests.max_redirects _) with (S 29).
    rewrite (resolve_redirects_follow server _ 29 first next)
      by (unfold Requests.get_redirect_target;
          by rewrite (bool_decide_eq_true_2 _ Hst)).
    cbn [Requests.max_retries].
    rewrite (send_once server _ next (tr ++ [Sent rq]) final).
    - rewrite resolve_redirects_none by exact Hstay.
      by rewrite <- app_assoc.
    - by rewrite attempts_sent.
    - by apply is_retry_not_selected. }
  split; [exact Hx|].
  rewrite dispatch_attempts, Hx. cbn [snd]. rewrite attempts_app. cbn. lia.
Qed.

(** A 302 to [/api/v2/health], then 200: two attempts with no retry
    configured. *)
Lemma X25_redirect_is_followed_witness :
  attempts
    (Client._make_request
       (λ k _,
          if (k <? 1)%nat
          then Answers {| status_code := 302; reason := "Found"; text := "";
                          json_body := None; retry_after := None;
                          redirect :=
                            Some (mkRequest "GET" "http://localhost:8080/api/v2/health"
                                    ∅ None None 30) |}
          else Answers (Samples.bare 200 "OK"))
       (Client.__init__ (Samples.config_with_retries 0)) "GET" "/api/health"
       Client.no_kwargs []).2 = (0 + 2)%nat.
Proof.
  refine (proj2 (X25_redirect_is_followed _ (Samples.config_with_retries 0)
    "GET" "/api/health" Client.no_kwargs []
    {| status_code := 302; reason := "Found"; text := "";
       json_body := None; retry_after := None;
       redirect := Some (mkRequest "GET" "http://localhost:8080/api/v2/health"
                           ∅ None None 30) |}
    (Samples.bare 200 "OK")
    (mkRequest "GET" "http://localhost:8080/api/v2/health" ∅ None None 30)
    _ _ _ _ _ _)).
  - reflexivity.
  - compute_done.
  - reflexivity.
  - reflexivity.
  - compute_done.
  - reflexivity.
Defined.

(** X26.  A command whose request requests refuses to send still ends in
    order: [update --max-load z], given alone, records no attempt, closes
    the session of its client and returns.  For the [ValueError] of a
    timeout that is not positive it prints ["Failed to update worker: "]
    followed by the text of the error (the clause [except Exception]); for
    a [RequestException] it hands the [BitingLipAPIError]
    ["Request failed: ..."] to [handle_api_error]. *)
Theorem X26_refused_update_reports_failure (server : nat → Request → reply)
    (json_loads : string → option pyval) (config : Config.CLIConfig) (tr : trace)
    (worker_id : string) (status capabilities metadata : option string) (z : Z)
    (why : refusal) :
  Workers.given_str status = None →
  Workers.given_str capabilities = None →
  Workers.given_str metadata = None →
  server (attempts tr)
    (Client.request_of (Client.__init__ config) "PUT" ("/api/workers/" +:+ worker_id)
       (Client.with_json (PDict {[ "max_load"%string := PInt z ]}))) = Unsent why →
  Commands.update_worker server json_loads config worker_id status (Some z)
    capabilities metadata tr =
  (Return tt,
   tr ++ [SessionClosed;
          Printed match why with
                  | BadTimeout str =>
                      FailureMessage "Failed to update worker: " (ValueError str)
                  | BadRequest _ str =>
                      ApiErrorReport
                        (BitingLipAPIError (PStr ("Request failed: " +:+ str))
                           None None)
                  end]).
Proof.
  intros Hs Hc Hm Hrefused.
  unfold Commands.update_worker, Commands.update_worker_body,
    Commands.load_json_option.
  rewrite Hs, Hc, Hm. cbn [Workers.set_if].
  change (size (<["max_load"%string := PInt z]> (∅ : gmap string pyval)) =? 0)%nat
    with false.
  cbv beta iota zeta. rewrite send_and_report_spec. cbv beta.
  unfold Client.update_worker.
  change (<["max_load"%string := PInt z]> (∅ : gmap string pyval))
    with ({[ "max_load"%string := PInt z ]} : gmap string pyval).
  rewrite (dispatch_refused server _ _ _ _ _ _ Hrefused). cbn [fst snd].
  by destruct why.
Qed.

(** A timeout of 0 in the configuration: the command prints the failure
    and sends nothing. *)
Lemma X26_refused_update_reports_failure_witness :
  Commands.update_worker (Samples.unsendable (BadTimeout "timeout must be positive"))
    (λ _, None) (Config.mkCLIConfig "http://localhost:8080" 0 3 None false false)
    "w1" None (Some 0) None None [] =
  (Return tt,
   [] ++ [SessionClosed;
          Printed (FailureMessage "Failed to update worker: "
                     (ValueError "timeout must be positive"))]).
Proof.
  refine (X26_refused_update_reports_failure
            (Samples.unsendable (BadTimeout "timeout must be positive")) (λ _, None)
            (Config.mkCLIConfig "http://localhost:8080" 0 3 None false false) []
            "w1" None None None 0 (BadTimeout "timeout must be positive") _ _ _ _);
    reflexivity.
Defined.
